(** * BlendedDataset: weighted blending of Megatron datasets

    A shallow embedding of [lm_engine/data/megatron/blended_dataset.py].

    - Python integers are [Z]; floats (the blend weights) are IEEE 754
      binary64 numbers, the kernel's [float], so that sums and comparisons
      round as they do in Python and NumPy. The planner of the specification
      is stated over exact rationals [Q].
    - NumPy arrays are a dtype together with the list of their elements;
      element reads follow NumPy indexing (a negative index counts from the
      end), stores wrap to the width of the dtype.
    - Exceptions are values of [exn]; a computation that may raise returns a
      [result].
    - The cache directory is a finite map from path names to file contents;
      code that touches it runs in the state-and-error monad [io], whose
      state also keeps the log of calls made to the file system and to the
      planner.
    - [hashlib.md5], [json.dumps], [utils.normalize] and
      [utils.build_blending_indices] are outside the module: the model takes
      them as section variables.
    - The calls to [log_rank_0] and [time.time] change neither the results
      nor the cache directory and are left out.  *)

From Stdlib Require Import ZArith QArith Qabs Lia Lqa List Ascii String Floats.
From stdpp Require Import base option list strings gmap.

Local Open Scope Z_scope.

(** A decimal float literal denotes the nearest binary64 number, as it does
    in Python. *)
Set Warnings "-inexact-float".

(** ** Exceptions and results *)

Inductive exn : Type :=
  | AssertionError
  | IndexError
  | RuntimeError
  | FileNotFoundError
  | ValueError
  | UnpicklingError
  | UserError (name : string).

(** The error taxonomy of the specification, as the code realises it. *)
Definition ConfigError : exn := AssertionError.
Definition InvariantError : exn := RuntimeError.
Definition OutOfRangeError : exn := IndexError.
Definition CacheUnavailableError : exn := UserError "CacheUnavailableError".

Inductive result (A : Type) : Type :=
  | Ok (a : A)
  | Err (e : exn).
Arguments Ok {A} a.
Arguments Err {A} e.

Definition rbind {A B : Type} (r : result A) (k : A -> result B) : result B :=
  match r with
  | Ok a => k a
  | Err e => Err e
  end.

Notation "'let?' x := r 'in' k" := (rbind r (fun x => k))
  (at level 10, x pattern, r at level 100, k at level 200).

Definition is_ok {A : Type} (r : result A) : bool :=
  match r with Ok _ => true | Err _ => false end.

(** ** Python sequences and NumPy arrays *)

(** [seq[idx]] for a Python [int] index: indices in [-len, len) are valid and
    the negative ones count from the end; anything else raises [IndexError]. *)
Definition py_index {A : Type} (l : list A) (idx : Z) : result A :=
  let n := Z.of_nat (length l) in
  let pos := if idx <? 0 then idx + n else idx in
  if (0 <=? pos) && (pos <? n)
  then match l !! Z.to_nat pos with
       | Some a => Ok a
       | None => Err IndexError
       end
  else Err IndexError.

Inductive np_dtype : Type := int16 | int64.

Definition np_bits (d : np_dtype) : Z :=
  match d with int16 => 16 | int64 => 64 end.

(** Two's-complement wrap-around of a store into an array of dtype [d]. *)
Definition np_wrap (d : np_dtype) (z : Z) : Z :=
  (z + 2 ^ (np_bits d - 1)) mod 2 ^ np_bits d - 2 ^ (np_bits d - 1).

(** [np.iinfo(np.int16).max] *)
Definition np_iinfo_max (d : np_dtype) : Z := 2 ^ (np_bits d - 1) - 1.

Record ndarray : Type := mk_ndarray { dtype : np_dtype; data : list Z }.

Definition np_len (a : ndarray) : Z := Z.of_nat (length (data a)).

(** [np.zeros(size, dtype=d)]; a negative dimension raises [ValueError]. *)
Definition np_zeros (size : Z) (d : np_dtype) : result ndarray :=
  if size <? 0 then Err ValueError
  else Ok (mk_ndarray d (replicate (Z.to_nat size) 0)).

(** [a[idx]] *)
Definition np_getitem (a : ndarray) (idx : Z) : result Z :=
  py_index (data a) idx.

(** A native routine filling the preallocated buffer [buf] from its first
    cell on: the shape and the dtype stay those of the buffer. *)
Definition np_fill (buf : ndarray) (vals : list Z) : ndarray :=
  mk_ndarray (dtype buf)
    (map (np_wrap (dtype buf)) (take (length (data buf)) vals)
       ++ drop (length vals) (data buf)).

(** [np.isclose(a, b)] on two floats, with the default [rtol = 1e-05],
    [atol = 1e-08] and [equal_nan = False]:
    [less_equal(abs(a - b), atol + rtol * abs(b)) & isfinite(b) | (a == b)],
    every operation in binary64; a comparison with a NaN is false. *)
Definition np_isclose (a b : float) : bool :=
  let rtol := 1e-05%float in
  let atol := 1e-08%float in
  (PrimFloat.leb (PrimFloat.abs (a - b)) (atol + rtol * PrimFloat.abs b)
   && PrimFloat.is_finite b)%float
  || PrimFloat.eqb a b.

(** The builtin [sum] over a list of floats: it starts from the integer 0,
    which the first addition converts to [0.0], and adds from left to right,
    rounding at every step. (From CPython 3.12 on the builtin carries a
    compensation term as well; on one or two floats the result is the
    same.) *)
Definition py_sum (ws : list float) : float := fold_left PrimFloat.add ws 0%float.

(** The exact value of a float, for the planner of the specification; an
    infinity or a NaN has none and is read as 0. *)
Definition float_to_Q (x : float) : Q :=
  match Prim2SF x with
  | S754_finite s m e =>
      ((if s then - inject_Z (Z.pos m) else inject_Z (Z.pos m)) * 2 ^ e)%Q
  | _ => 0%Q
  end.

(** ** Samples (dictionaries with string keys) *)

Inductive pyvalue : Type :=
  | PyInt (z : Z)
  | PyArray (a : list Z).

Definition sample : Type := list (string * pyvalue).

(** Storing under a key: an existing key keeps its position and takes the
    new value, a new key goes last. *)
Fixpoint dict_set (d : sample) (k : string) (v : pyvalue) : sample :=
  match d with
  | [] => [(k, v)]
  | (k', v') :: d' =>
      if String.eqb k k' then (k', v) :: d' else (k', v') :: dict_set d' k v
  end.

(** The display [{**d, **more}]. *)
Definition dict_unpack (d more : sample) : sample :=
  fold_left (fun acc kv => dict_set acc (fst kv) (snd kv)) more d.

(** ** The source datasets

    [MegatronDataset] lives in [megatron_dataset.py]; the blended dataset
    uses its class, its [unique_identifiers], and its [__getitem__]. The
    length is the one the specification's planner is given. *)
Record MegatronDataset : Type := mk_dataset {
  ds_class : string;
  unique_identifiers : string;
  ds_len : Z;
  ds_getitem : Z -> result sample
}.

Record BlendedMegatronDatasetConfig : Type := mk_config {
  path_to_cache : option string
}.

(** Truthiness of [path_to_cache]: [None] and the empty string are false. *)
Definition truthy (p : option string) : bool :=
  match p with
  | None => false
  | Some s => negb (String.eqb s "")
  end.

(** ** The cache directory and the [io] monad *)

(** What a file holds, as [np.load] tells files apart: text, an array in
    the [.npy] format, or the pickle stream of an array. The text of a
    [TextFile] is text that [pickle] cannot read, as is a description
    rendered by [json.dumps], which opens with a brace. *)
Inductive file : Type :=
  | TextFile (contents : string)
  | NpyFile (contents : ndarray)
  | PickleFile (contents : ndarray).

(** The array a file holds, if it holds one. *)
Definition stored_array (f : file) : option ndarray :=
  match f with
  | TextFile _ => None
  | NpyFile a | PickleFile a => Some a
  end.

(** The array held by the file at a path of a directory. *)
Definition array_at (fs : gmap string file) (p : string) : option ndarray :=
  fs !! p ≫= stored_array.

Inductive event : Type :=
  | IsFile (path : string)
  | MakeDirs (path : string)
  | WriteText (path : string)
  | NpSave (path : string)
  | NpLoad (path : string)
  | CallPlanner.

Record world : Type := mk_world {
  files : gmap string file;
  trace : list event
}.

Definition io (A : Type) : Type := world -> result A * world.

Definition ret {A : Type} (a : A) : io A := fun w => (Ok a, w).
Definition raise {A : Type} (e : exn) : io A := fun w => (Err e, w).
Definition lift {A : Type} (r : result A) : io A := fun w => (r, w).

Definition bind {A B : Type} (m : io A) (k : A -> io B) : io B :=
  fun w =>
    match m w with
    | (Ok a, w') => k a w'
    | (Err e, w') => (Err e, w')
    end.

Notation "'let*' x := m 'in' k" := (bind m (fun x => k))
  (at level 10, x pattern, m at level 100, k at level 200).
Notation "m ;; k" := (bind m (fun _ => k))
  (at level 100, k at level 200, right associativity).

Definition log_event (e : event) : io unit :=
  fun w => (Ok tt, mk_world (files w) (trace w ++ [e])).

(** [assert b] *)
Definition py_assert (b : bool) : io unit :=
  if b then ret tt else raise AssertionError.

(** [os.path.isfile] *)
Definition is_file (fs : gmap string file) (p : string) : bool :=
  bool_decide (is_Some (fs !! p)).

Definition os_path_isfile (p : string) : io bool :=
  fun w => (Ok (is_file (files w) p),
            mk_world (files w) (trace w ++ [IsFile p])).

(** [all(map(os.path.isfile, paths))]: [map] is lazy and [all] stops at the
    first path that is not a file. *)
Fixpoint all_isfile (paths : list string) : io bool :=
  match paths with
  | [] => ret true
  | p :: ps =>
      let* b := os_path_isfile p in
      if b then all_isfile ps else ret false
  end.

(** [os.makedirs(path, exist_ok=True)]: directories are implicit in the path
    names of the files. *)
Definition os_makedirs (p : string) : io unit := log_event (MakeDirs p).

(** [with open(path, "wt") as writer: writer.write(text)] *)
Definition write_text (p : string) (text : string) : io unit :=
  fun w => (Ok tt, mk_world (<[p := TextFile text]> (files w))
                            (trace w ++ [WriteText p])).

(** [np.save(path, a, allow_pickle=True)] *)
Definition np_save (p : string) (a : ndarray) : io unit :=
  fun w => (Ok tt, mk_world (<[p := NpyFile a]> (files w))
                            (trace w ++ [NpSave p])).

Definition EOFError : exn := UserError "EOFError".

(** [np.load(path, allow_pickle=True, mmap_mode="r")]: opening a path that
    is no file raises [FileNotFoundError]; a file with nothing in it raises
    [EOFError]; a [.npy] file is mapped; anything else is handed to
    [pickle.load], whose failure is reported as [UnpicklingError]. *)
Definition np_load (p : string) : io ndarray :=
  fun w =>
    let w' := mk_world (files w) (trace w ++ [NpLoad p]) in
    match files w !! p with
    | None => (Err FileNotFoundError, w')
    | Some (TextFile text) =>
        if String.eqb text "" then (Err EOFError, w')
        else (Err UnpicklingError, w')
    | Some (NpyFile a) => (Ok a, w')
    | Some (PickleFile a) => (Ok a, w')
    end.

(** [os.path.join(a, b)] on POSIX. *)
Definition ends_with_slash (a : string) : bool :=
  match String.get (String.length a - 1) a with
  | Some c => Ascii.eqb c "/"%char
  | None => false
  end.

Definition starts_with_slash (b : string) : bool :=
  match b with
  | String c _ => Ascii.eqb c "/"%char
  | EmptyString => false
  end.

Definition os_path_join (a b : string) : string :=
  if starts_with_slash b then b
  else if String.eqb a "" || ends_with_slash a then a +:+ b
  else a +:+ "/" +:+ b.

(** ** The index planner

    [build_blending_indices] is a native helper imported from [.utils]; the
    module only calls it. *)
Module IndexPlanner.

(** How far behind its fair share a source is at draw [t], having been drawn
    [c] times. *)
Definition deficit (w : Q) (t : Z) (c : Z) : Q :=
  (w * inject_Z t - inject_Z c)%Q.

(** Index of the largest element; of several largest ones the first. *)
Fixpoint argmax_from (best_i : nat) (best : Q) (i : nat) (ds : list Q) : nat :=
  match ds with
  | [] => best_i
  | d :: ds' =>
      if Qle_bool d best
      then argmax_from best_i best (S i) ds'
      else argmax_from i d (S i) ds'
  end.

Definition argmax (ds : list Q) : nat :=
  match ds with
  | [] => 0%nat
  | d :: ds' => argmax_from 0 d 1 ds'
  end.

Record state : Type := mk_state {
  counts : list Z;
  source_index : list Z;
  sample_index : list Z
}.

Definition initial (K : nat) : state :=
  mk_state (replicate K 0) [] [].

Definition deficits (weights : list Q) (t : Z) (cs : list Z) : list Q :=
  zip_with (fun w c => deficit w t c) weights cs.

(** Draw number [t] (counted from 1). *)
Definition draw (weights : list Q) (lengths : list Z) (st : state) (t : Z)
  : state :=
  let i := argmax (deficits weights t (counts st)) in
  let c := nth i (counts st) 0 in
  mk_state (<[i := c + 1]> (counts st))
           (source_index st ++ [Z.of_nat i])
           (sample_index st ++ [c mod nth i lengths 0]).

(** The state after the draws [1 .. n]. *)
Fixpoint run (weights : list Q) (lengths : list Z) (n : nat) : state :=
  match n with
  | O => initial (length weights)
  | S n' => draw weights lengths (run weights lengths n') (Z.of_nat (S n'))
  end.

(** Modelled from the spec: [build_blending_indices] (the IndexPlanner) is
    not among the sources. Section 4.1: keep per-source counts, initially 0;
    for each draw [t] from 1 to [N] compute [deficit_i = weight_i * t - c_i],
    select the argmax with ties going to the smallest source index, record
    [source_index[t-1] = i*] and [sample_index[t-1] = c_{i*} mod L_{i*}],
    and increment [c_{i*}]. *)
Definition build (weights : list Q) (lengths : list Z) (N : nat)
  : list Z * list Z :=
  let st := run weights lengths N in
  (source_index st, sample_index st).

(** [count_i(t)]: the number of entries equal to [i] among the first [t]
    entries of a source index. *)
Definition count_prefix (source_index : list Z) (i : nat) (t : nat) : Z :=
  Z.of_nat (count_occ Z.eq_dec (take t source_index) (Z.of_nat i)).

Definition Qsum (l : list Q) : Q := fold_right Qplus 0%Q l.

(** Weights that sum to 1, none of them negative. *)
Definition valid_weights (weights : list Q) : Prop :=
  (Qsum weights == 1)%Q /\ Forall (fun w => (0 <= w)%Q) weights.

(** One length per weight, every source with at least one item. *)
Definition valid_lengths (weights : list Q) (lengths : list Z) : Prop :=
  length lengths = length weights /\ Forall (fun L => 0 < L) lengths.

(** An entry of a blend plan: a source among the [K] and an item of it. *)
Definition entry_ok (K : nat) (ls : list Z) (e : Z * Z) : Prop :=
  0 <= fst e < Z.of_nat K /\ 0 <= snd e < nth (Z.to_nat (fst e)) ls 0.

(** [1/a + 1/(a+1) + ...], over [n] consecutive integers from [a] on. *)
Definition harmonic_from (a n : nat) : Q :=
  Qsum (map (fun l => 1 / inject_Z (Z.of_nat l))%Q (seq a n)).

(** [1/2 + 1/3 + ... + 1/K] *)
Definition harmonic_tail (K : nat) : Q := harmonic_from 2 (K - 1).

(** The sum of the numbers that a mask selects, and how many it selects. *)
Definition masked_sum (sel : list bool) (xs : list Q) : Q :=
  Qsum (zip_with (fun (b : bool) x => if b then x else 0%Q) sel xs).

Definition selected (sel : list bool) : nat :=
  length (filter (fun b => b = true) sel).

(** A blend plan of [N] entries for [K] sources of the lengths [ls]. *)
Definition plan_ok (K : nat) (ls : list Z) (N : nat) (plan : list Z * list Z)
  : Prop :=
  length (fst plan) = N /\ length (snd plan) = N
  /\ Forall (entry_ok K ls) (zip (fst plan) (snd plan)).

End IndexPlanner.

(** Modelled from the spec: [normalize] (imported from [.utils]) is not among
    the sources. Sections 3 and 8: after normalization the weights sum to 1;
    each weight is divided by the sum of all of them. *)
Definition normalize_weights (weights : list float) : list float :=
  map (fun w => (w / py_sum weights)%float) weights.

(** ** Instances for running the model

    The planner of the specification, for sources of the given lengths, under
    the call signature of [build_blending_indices]; it reads each weight at
    its exact value. *)
Definition planner_for (lengths : list Z)
  : list float -> Z -> Z -> bool -> list Z * list Z :=
  fun weights _ size _ =>
    IndexPlanner.build (map float_to_Q weights) lengths (Z.to_nat size).

(** A dataset of [len] items, item [i] holding the one token [i]. *)
Definition range_dataset (cls id : string) (len : Z) : MegatronDataset :=
  mk_dataset cls id len
    (fun i => if (0 <=? i) && (i <? len)
              then Ok [("text"%string, PyArray [i])]
              else Err IndexError).

(** Two sources of one class, a third of another, and a file system with
    no file. *)
Definition ds_a : MegatronDataset := range_dataset "GPTDataset" "a" 3.
Definition ds_b : MegatronDataset := range_dataset "GPTDataset" "b" 2.
Definition ds_c : MegatronDataset := range_dataset "T5Dataset" "c" 4.
Definition empty_world : world := mk_world ∅ [].

(** ** The class [BlendedDataset] *)

(** What goes into the description of a blend, in the order of the
    [OrderedDict] the constructor fills. *)
Record UniqueIdentifiers : Type := mk_unique_identifiers {
  ui_class : string;
  ui_datasets : list string;
  ui_weights : list float;
  ui_size : Z
}.

(** A serialiser and a digest to run the model with: the class name and the
    dataset identifiers joined by commas, and the description itself as its
    own (collision-free) digest. No theorem depends on the choice. *)
Definition example_dumps (ui : UniqueIdentifiers) : string :=
  String.concat "," (ui_class ui :: ui_datasets ui).

Definition example_digest (description : string) : string := description.

(** The attributes the constructor sets before it builds the indices. *)
Record Attrs : Type := mk_attrs {
  datasets : list MegatronDataset;
  weights : list float;
  size : Z;
  config : BlendedMegatronDatasetConfig;
  caching_allowed : bool;
  unique_description : string;
  unique_description_hash : string
}.

Record BlendedDataset : Type := mk_blended {
  attrs :> Attrs;
  dataset_index : ndarray;
  dataset_sample_index : ndarray
}.

(** [type(self).__name__] *)
Definition class_name : string := "BlendedDataset".

Definition _VERBOSE : bool := false.

(** [BlendedDataset.__len__] *)
Definition __len__ (self : BlendedDataset) : Z := size self.

(** [BlendedDataset.__getitem__] *)
Definition __getitem__ (self : BlendedDataset) (idx : Z) : result sample :=
  let? dataset_id := np_getitem (dataset_index self) idx in
  let? dataset_sample_id := np_getitem (dataset_sample_index self) idx in
  let? dataset := py_index (datasets self) dataset_id in
  let? record := ds_getitem dataset dataset_sample_id in
  Ok (dict_unpack [("dataset_id"%string, PyInt dataset_id)] record).

(** [get_path_to] of [_build_indices]: the cache artifact of a description
    hash with the given suffix. *)
Definition get_path_to (path_to_cache hash suffix : string) : string :=
  os_path_join path_to_cache (hash +:+ "-" +:+ class_name +:+ "-" +:+ suffix).

(** The three artifact paths [_build_indices] computes when a cache
    directory is configured. *)
Definition path_to_description (self : Attrs) : string :=
  get_path_to (default ""%string (path_to_cache (config self)))
    (unique_description_hash self) "description.txt".

Definition path_to_dataset_index (self : Attrs) : string :=
  get_path_to (default ""%string (path_to_cache (config self)))
    (unique_description_hash self) "dataset_index.npy".

Definition path_to_dataset_sample_index (self : Attrs) : string :=
  get_path_to (default ""%string (path_to_cache (config self)))
    (unique_description_hash self) "dataset_sample_index.npy".

(** [all(map(lambda _: type(_) == type(datasets[0]), datasets))] *)
Definition same_type_as_first (ds : list MegatronDataset) : bool :=
  forallb (fun d =>
             match ds with
             | d0 :: _ => String.eqb (ds_class d) (ds_class d0)
             | [] => false
             end) ds.

(** [self] with another cache configuration. *)
Definition with_cache (self : Attrs) (path : option string) (allowed : bool)
  : Attrs :=
  mk_attrs (datasets self) (weights self) (size self) (mk_config path) allowed
    (unique_description self) (unique_description_hash self).

(** All three artifacts of [self] are files. *)
Definition cache_hit_in (fs : gmap string file) (self : Attrs) : bool :=
  forallb (is_file fs)
    [path_to_description self; path_to_dataset_index self;
     path_to_dataset_sample_index self].

(** The checks of [__init__] on its arguments. *)
Definition arguments_ok (datasets : list MegatronDataset) (weights : list float)
  : bool :=
  (Z.of_nat (length datasets) <? np_iinfo_max int16)
  && Nat.eqb (length datasets) (length weights)
  && np_isclose (py_sum weights) 1
  && same_type_as_first datasets.

Section Externals.

(** [utils.normalize] *)
Variable normalize : list float -> list float.
(** [utils.build_blending_indices], called with the weights, the number of
    datasets, the size and the verbosity flag; the two lists are what it
    writes into the two buffers it is handed, from their first cell on. *)
Variable build_blending_indices : list float -> Z -> Z -> bool -> list Z * list Z.
(** [json.dumps(_, indent=4)] *)
Variable json_dumps : UniqueIdentifiers -> string.
(** [hashlib.md5(_.encode("utf-8")).hexdigest()] *)
Variable md5_hexdigest : string -> string.

(** [BlendedDataset._build_indices] *)
Definition _build_indices (self : Attrs) : io (ndarray * ndarray) :=
  let path_to_cache := path_to_cache (config self) in
  let* cache_hit :=
    (if truthy path_to_cache
     then all_isfile [path_to_description self; path_to_dataset_index self;
                      path_to_dataset_sample_index self]
     else ret false) in
  if negb (truthy path_to_cache) || (negb cache_hit && caching_allowed self)
  then
    let* dataset_index := lift (np_zeros (size self) int16) in
    let* dataset_sample_index := lift (np_zeros (size self) int64) in
    log_event CallPlanner ;;
    let filled :=
      build_blending_indices (weights self) (Z.of_nat (length (datasets self)))
        (size self) _VERBOSE in
    let dataset_index := np_fill dataset_index (fst filled) in
    let dataset_sample_index := np_fill dataset_sample_index (snd filled) in
    (if truthy path_to_cache
     then
       os_makedirs (default ""%string path_to_cache) ;;
       write_text (path_to_description self) (unique_description self) ;;
       np_save (path_to_dataset_index self) dataset_index ;;
       np_save (path_to_dataset_sample_index self) dataset_sample_index
     else ret tt) ;;
    ret (dataset_index, dataset_sample_index)
  else
    let* dataset_index := np_load (path_to_dataset_index self) in
    let* dataset_sample_index := np_load (path_to_dataset_sample_index self) in
    ret (dataset_index, dataset_sample_index).

(** The index arrays the building branch of [_build_indices] computes. *)
Definition planned (self : Attrs) : ndarray * ndarray :=
  let filled :=
    build_blending_indices (weights self) (Z.of_nat (length (datasets self)))
      (size self) _VERBOSE in
  (np_fill (mk_ndarray int16 (replicate (Z.to_nat (size self)) 0)) (fst filled),
   np_fill (mk_ndarray int64 (replicate (Z.to_nat (size self)) 0)) (snd filled)).

(** The index artifacts present under the key of [self] hold the indexes
    built for [self]. *)
Definition cache_coherent (self : Attrs) (fs : gmap string file) : Prop :=
  truthy (path_to_cache (config self)) = true ->
  (forall f, fs !! path_to_dataset_index self = Some f ->
             f = NpyFile (fst (planned self)))
  /\ (forall f, fs !! path_to_dataset_sample_index self = Some f ->
                f = NpyFile (snd (planned self))).

(** The attributes [__init__] sets before it builds the indices. *)
Definition init_attrs (datasets : list MegatronDataset) (weights : list float)
    (size : Z) (config : BlendedMegatronDatasetConfig) (caching_allowed : bool)
  : Attrs :=
  let weights := normalize weights in
  let unique_identifiers :=
    mk_unique_identifiers class_name (map unique_identifiers datasets)
      weights size in
  let unique_description := json_dumps unique_identifiers in
  let unique_description_hash := md5_hexdigest unique_description in
  mk_attrs datasets weights size config caching_allowed
    unique_description unique_description_hash.

(** The size check that ends [__init__]: the last index must be readable,
    and reading one past it must raise [IndexError]. *)
Definition check_size (self : BlendedDataset) : io BlendedDataset :=
  let* _ := lift (__getitem__ self (size self - 1)) in
  match __getitem__ self (size self) with
  | Ok _ => raise RuntimeError
  | Err IndexError => ret self
  | Err e => raise e
  end.

(** [BlendedDataset.__init__] *)
Definition __init__ (datasets : list MegatronDataset) (weights : list float)
    (size : Z) (config : BlendedMegatronDatasetConfig) (caching_allowed : bool)
  : io BlendedDataset :=
  py_assert (Z.of_nat (length datasets) <? np_iinfo_max int16) ;;
  py_assert (Nat.eqb (length datasets) (length weights)) ;;
  py_assert (np_isclose (py_sum weights) 1) ;;
  py_assert (same_type_as_first datasets) ;;
  let self := init_attrs datasets weights size config caching_allowed in
  let* indices := _build_indices self in
  check_size (mk_blended self (fst indices) (snd indices)).

End Externals.


(** ** Reading a sample

    [d[k]] as a lookup: the value stored under the key, if any. *)
Fixpoint dict_get (d : sample) (k : string) : option pyvalue :=
  match d with
  | [] => None
  | (k', v) :: d' => if String.eqb k k' then Some v else dict_get d' k
  end.

(** * The datasets of [lm_engine/data/base.py] *)

(** [l[:stop]] for a Python [int] bound: a negative bound counts from the
    end, and bounds beyond either end of the list are clipped. *)
Definition py_slice_to {A : Type} (l : list A) (stop : Z) : list A :=
  take (Z.to_nat (if stop <? 0 then Z.of_nat (length l) + stop else stop)) l.

(** [range(n)] *)
Definition py_range (n : Z) : list Z := map Z.of_nat (seq 0 (Z.to_nat n)).

(** [s[n:]] for [n >= 0] *)
Fixpoint str_drop (n : nat) (s : string) : string :=
  match n, s with
  | O, _ => s
  | S n', String _ s' => str_drop n' s'
  | S _, EmptyString => EmptyString
  end.

(** [s.replace(old, new, 1)]: the first occurrence of [old] in [s], scanning
    from the left, is replaced; the empty [old] occurs at the start. *)
Fixpoint replace_first (s old new : string) : string :=
  if String.prefix old s
  then new +:+ str_drop (String.length old) s
  else match s with
       | EmptyString => EmptyString
       | String c s' => String c (replace_first s' old new)
       end.

Module BaseDataset.

Section Defaults.

(** [defaults.INPUT_FORMAT] and [defaults.OUTPUT_FORMAT], the enumeration
    [enums.DatasetSplit] and the type of the class arguments. *)
Variable INPUT_FORMAT : string.
Variable OUTPUT_FORMAT : string.
Variable DatasetSplit : Type.
Variable ClassArgs : Type.

(** What the dataset uses of its tokenizer: the ids of a text, encoded
    without special tokens, and the id of the end-of-sequence token. *)
Record Tokenizer : Type := mk_tokenizer {
  input_ids : string -> list Z;
  eos_token_id : Z
}.

Record BaseDataset : Type := mk_base {
  split : DatasetSplit;
  use_output : bool;
  class_args : ClassArgs;
  tokenizer : Tokenizer;
  data_name : string;
  input_format : string;
  output_format : string;
  do_format_input : bool;
  do_format_output : bool;
  max_input_tokens : option Z;
  max_output_tokens : option Z;
  examples : list sample
}.

(** [BaseDataset.__init__] *)
Definition __init__ (class_args : ClassArgs) (split : DatasetSplit)
    (use_output : bool) (tokenizer : Tokenizer) (data_name : string)
    (input_format output_format : string)
    (max_input_tokens max_output_tokens : option Z) : BaseDataset :=
  mk_base split use_output class_args tokenizer data_name
    input_format output_format
    (negb (String.eqb input_format INPUT_FORMAT))
    (negb (String.eqb output_format OUTPUT_FORMAT))
    max_input_tokens
    (match max_output_tokens with
     | None => None
     | Some m => Some (m - 1)
     end)
    [].

(** [BaseDataset.construct_input_from_format] *)
Definition construct_input_from_format (self : BaseDataset) (input : string)
  : string :=
  if do_format_input self
  then replace_first (input_format self) INPUT_FORMAT input
  else input.

(** [BaseDataset.construct_output_from_format] *)
Definition construct_output_from_format (self : BaseDataset) (output : string)
  : string :=
  if do_format_output self
  then replace_first (output_format self) "__output__" output
  else output.

(** [BaseDataset.get_input_output_token_ids] *)
Definition get_input_output_token_ids (self : BaseDataset)
    (input output : string) : sample :=
  let eos_token_id := eos_token_id (tokenizer self) in
  let input := input_ids (tokenizer self) input in
  let input :=
    match max_input_tokens self with
    | Some m => py_slice_to input m
    | None => input
    end in
  if use_output self
  then
    let output := input_ids (tokenizer self) output in
    let output :=
      match max_output_tokens self with
      | Some m => py_slice_to output (m - 1)
      | None => output
      end in
    let output := output ++ [eos_token_id] in
    let input := input ++ output in
    [("input"%string, PyArray input); ("output"%string, PyArray output)]
  else [("input"%string, PyArray input)].

(** [BaseDataset.__getitem__] *)
Definition __getitem__ (self : BaseDataset) (index : Z) : result sample :=
  py_index (examples self) index.

(** [BaseDataset.__len__] *)
Definition __len__ (self : BaseDataset) : Z :=
  Z.of_nat (length (examples self)).

End Defaults.

End BaseDataset.

(** ** [BlendedDatasets]: the concatenation of a list of datasets *)
Module BlendedDatasets.

Section Defaults.

Variable DatasetSplit : Type.
Variable ClassArgs : Type.

Local Abbreviation Dataset := (BaseDataset.BaseDataset DatasetSplit ClassArgs).

Record BlendedDatasets : Type := mk_blended_datasets {
  split : DatasetSplit;
  datasets : list Dataset;
  num_examples : Z;
  indexing_array : list (Z * Z)
}.

(** [BlendedDatasets.get_num_examples_in_each_dataset] *)
Definition get_num_examples_in_each_dataset (datasets : list Dataset)
  : list Z :=
  map (fun dataset => BaseDataset.__len__ _ _ dataset) datasets.

(** The loop of [_get_indexing_array] from the dataset numbered
    [dataset_index] on. *)
Fixpoint indexing_from (dataset_index : Z) (nums : list Z) : list (Z * Z) :=
  match nums with
  | [] => []
  | num_examples :: rest =>
      map (fun example_id => (dataset_index, example_id)) (py_range num_examples)
        ++ indexing_from (dataset_index + 1) rest
  end.

(** [BlendedDatasets._get_indexing_array] *)
Definition _get_indexing_array (datasets : list Dataset) : list (Z * Z) :=
  indexing_from 0 (get_num_examples_in_each_dataset datasets).

(** [BlendedDatasets.__init__] *)
Definition __init__ (datasets : list Dataset) (split : DatasetSplit)
  : BlendedDatasets :=
  mk_blended_datasets split datasets
    (fold_left Z.add (get_num_examples_in_each_dataset datasets) 0)
    (_get_indexing_array datasets).

(** [BlendedDatasets.get_num_datasets] *)
Definition get_num_datasets (self : BlendedDatasets) : Z :=
  Z.of_nat (length (datasets self)).

(** [BlendedDatasets.__len__] *)
Definition __len__ (self : BlendedDatasets) : Z := num_examples self.

(** [BlendedDatasets.__getitem__] *)
Definition __getitem__ (self : BlendedDatasets) (index : Z) : result sample :=
  let? entry := py_index (indexing_array self) index in
  let? dataset := py_index (datasets self) (fst entry) in
  BaseDataset.__getitem__ _ _ dataset (snd entry).

End Defaults.

End BlendedDatasets.

(** * Padding-free inputs and the generation cache switch
      ([lm_engine/hf_models/utils.py]) *)
Module HFUtils.

Inductive torch_dtype : Type := torch_int32 | torch_int64 | torch_float32.

Record tensor : Type := mk_tensor { t_dtype : torch_dtype; t_data : list Z }.

(** Two's-complement wrap-around to [bits] bits. *)
Definition wrap (bits : Z) (z : Z) : Z :=
  (z + 2 ^ (bits - 1)) mod 2 ^ bits - 2 ^ (bits - 1).

Definition TypeError : exn := UserError "TypeError".

(** [torch.tensor(ints)] of a list of Python integers: a 64-bit integer
    tensor, a float tensor when the list is empty; an integer that does not
    fit 64 bits raises [RuntimeError]. The device does not matter here. *)
Definition torch_tensor (ints : list Z) : result tensor :=
  match ints with
  | [] => Ok (mk_tensor torch_float32 [])
  | _ =>
      if forallb (fun z => (- 2 ^ 63 <=? z) && (z <? 2 ^ 63)) ints
      then Ok (mk_tensor torch_int64 ints)
      else Err RuntimeError
  end.

(** [t.cumsum(dim=-1)] of a 64-bit tensor. *)
Fixpoint cumsum_from (acc : Z) (l : list Z) : list Z :=
  match l with
  | [] => []
  | x :: l' => wrap 64 (acc + x) :: cumsum_from (wrap 64 (acc + x)) l'
  end.

Definition cumsum (t : tensor) : tensor :=
  mk_tensor (t_dtype t) (cumsum_from 0 (t_data t)).

(** [t.to(torch.int32)] *)
Definition to_int32 (t : tensor) : tensor :=
  mk_tensor torch_int32 (map (wrap 32) (t_data t)).

(** [t.max().item()] of a tensor that is not empty. *)
Definition max_item (t : tensor) : Z :=
  match t_data t with
  | [] => 0
  | x :: l => fold_left Z.max l x
  end.

(** [_check_list_type] on a value that is [None] or a list of lists: the
    two [isinstance] assertions hold, and reading the first element of an
    empty list raises [IndexError]. *)
Definition _check_list_type (list_of_list : option (list (list Z)))
  : result unit :=
  match list_of_list with
  | None => Ok tt
  | Some l => let? _ := py_index l 0 in Ok tt
  end.

(** [_flatten_and_convert_to_tensors] *)
Definition _flatten_and_convert_to_tensors (x : list (list Z)) : result tensor :=
  torch_tensor (fold_left (fun y sequence => y ++ sequence) x []).

(** [convert_padding_free_lists_to_tensors] *)
Definition convert_padding_free_lists_to_tensors
    (input_ids position_ids labels : option (list (list Z)))
  : result (tensor * tensor * option tensor * tensor * Z) :=
  let? _ := _check_list_type input_ids in
  let? _ := _check_list_type position_ids in
  let? _ := _check_list_type labels in
  let? input_ids :=
    match input_ids with
    | None => Err TypeError
    | Some l => Ok l
    end in
  let? seqlens :=
    torch_tensor ([0] ++ map (fun x => Z.of_nat (length x)) input_ids) in
  let cu_seqlens := to_int32 (cumsum seqlens) in
  let max_seqlen := max_item seqlens in
  let position_ids :=
    match position_ids with
    | None => map (fun x => py_range (Z.of_nat (length x))) input_ids
    | Some p => p
    end in
  let? position_ids := _flatten_and_convert_to_tensors position_ids in
  let? input_ids := _flatten_and_convert_to_tensors input_ids in
  let? labels :=
    match labels with
    | None => Ok None
    | Some l =>
        let? t := _flatten_and_convert_to_tensors l in Ok (Some t)
    end in
  Ok (input_ids, position_ids, labels, cu_seqlens, max_seqlen).

(** ** [disable_generation_cache]

    A context manager holds the attribute [original], unset until the
    manager is entered; the module-level flag
    [_IS_GENERATION_CACHE_ENABLED] is the state it acts on. *)
Record disable_generation_cache : Type := mk_manager {
  original : option bool
}.

Record cache_state : Type := mk_cache_state {
  manager : disable_generation_cache;
  _IS_GENERATION_CACHE_ENABLED : bool
}.

(** [disable_generation_cache.__enter__] *)
Definition __enter__ (st : cache_state) : cache_state :=
  mk_cache_state (mk_manager (Some (_IS_GENERATION_CACHE_ENABLED st))) false.

(** [disable_generation_cache.__exit__]; reading an attribute that was never
    set raises [AttributeError]. *)
Definition __exit__ (st : cache_state) : result cache_state :=
  match original (manager st) with
  | Some b => Ok (mk_cache_state (manager st) b)
  | None => Err (UserError "AttributeError")
  end.

(** [is_generation_cache_enabled] *)
Definition is_generation_cache_enabled (st : cache_state) : bool :=
  _IS_GENERATION_CACHE_ENABLED st.

(** [with manager: body]: the body runs between [__enter__] and [__exit__];
    [__exit__] runs whether or not the body raised and does not swallow the
    exception. *)
Definition with_block (body : cache_state -> result unit * cache_state)
    (st : cache_state) : result unit * cache_state :=
  let (outcome, st') := body (__enter__ st) in
  match __exit__ st' with
  | Ok st'' => (outcome, st'')
  | Err e => (Err e, st')
  end.

End HFUtils.

(** * Grouping files by size
      ([tools/data/convert_fms_data_to_megatron.py]) *)
Module MergeTool.

(** [s.endswith(suffix)] *)
Definition endswith (s suffix : string) : bool :=
  (String.length suffix <=? String.length s)%nat
  && String.eqb (str_drop (String.length s - String.length suffix) s) suffix.

(** [s.split(sep)[0]] for a separator that is not empty: the text before
    the first occurrence of [sep], the whole of [s] when there is none. *)
Fixpoint split_head (sep s : string) : string :=
  if String.prefix sep s then EmptyString
  else match s with
       | EmptyString => EmptyString
       | String c s' => String c (split_head sep s')
       end.

(** [os.path.getsize] over the sizes of the files that exist. *)
Definition os_path_getsize (sizes : gmap string Z) (p : string) : result Z :=
  match sizes !! p with
  | Some size => Ok size
  | None => Err FileNotFoundError
  end.

(** The loop of [get_groups_by_sizes] from the file numbered [index] on;
    [last_index] is [len(fnames) - 1]. *)
Fixpoint group_loop (sizes : gmap string Z) (max_size last_index : Z)
    (index : Z) (fnames : list string) (groups : list (list string))
    (current_grp : list string) (current_size : Z)
  : result (list (list string)) :=
  match fnames with
  | [] => Ok groups
  | fname :: rest =>
      let current_grp := current_grp ++ [fname] in
      let? size := os_path_getsize sizes (fname +:+ ".bin") in
      let current_size := current_size + size in
      if (max_size <? current_size) || (index =? last_index)
      then group_loop sizes max_size last_index (index + 1) rest
             (groups ++ [current_grp]) [] 0
      else group_loop sizes max_size last_index (index + 1) rest
             groups current_grp current_size
  end.

(** The names [get_groups_by_sizes] works on: of the entries [listing] of
    the directory those that end in [.bin], joined to the path and cut at
    their first [.bin]. *)
Definition bin_prefixes (listing : list string) (path : string) : list string :=
  let fnames := List.filter (fun x => endswith x ".bin") listing in
  let fnames := map (fun i => os_path_join path i) fnames in
  map (fun i => split_head ".bin" i) fnames.

(** [get_groups_by_sizes], given what [os.listdir(path)] returns and the
    sizes of the files. *)
Definition get_groups_by_sizes (listing : list string) (sizes : gmap string Z)
    (path : string) (max_size : option Z) : result (list (list string)) :=
  let fnames := bin_prefixes listing path in
  match max_size with
  | None => Ok [fnames]
  | Some max_size =>
      let max_size := max_size * 1024 ^ 3 in
      group_loop sizes max_size (Z.of_nat (length fnames) - 1) 0 fnames [] [] 0
  end.

(** The size of a group: the sizes of its [.bin] files added up. *)
Definition group_size (sizes : gmap string Z) (group : list string) : Z :=
  foldr (fun fname acc => default 0 (sizes !! (fname +:+ ".bin")) + acc) 0 group.

End MergeTool.

(** * Encoding documents ([lm_engine/data/megatron/preprocess_data.py]) *)
Module Encoder.

(** What the encoder uses of its tokenizer: [tokenizer.encode] and the id of
    the end-of-sequence token. *)
Record Tokenizer : Type := mk_tokenizer {
  encode : string -> list Z;
  eos_token_id : Z
}.

Record Encoder : Type := mk_encoder {
  tokenizer : Tokenizer;
  json_keys : list string;
  append_eod : bool
}.

Definition KeyError : exn := UserError "KeyError".

(** [data[key]] in a document, a dictionary from keys to texts. *)
Fixpoint data_getitem (data : list (string * string)) (key : string)
  : result string :=
  match data with
  | [] => Err KeyError
  | (k, text) :: data' =>
      if String.eqb key k then Ok text else data_getitem data' key
  end.

(** The loop of [_encode_data] over the keys still to encode. *)
Fixpoint encode_keys (self : Encoder) (data : list (string * string))
    (keys : list string) (ids : sample) : result sample :=
  match keys with
  | [] => Ok ids
  | key :: rest =>
      let? text := data_getitem data key in
      let document_ids := encode (tokenizer self) text in
      if (0 <? Z.of_nat (length document_ids))
      then
        let document_ids :=
          if append_eod self
          then document_ids ++ [eos_token_id (tokenizer self)]
          else document_ids in
        encode_keys self data rest (dict_set ids key (PyArray document_ids))
      else encode_keys self data rest ids
  end.

(** [Encoder._encode_data] *)
Definition _encode_data (self : Encoder) (data : list (string * string))
  : result sample :=
  encode_keys self data (json_keys self) [].

(** [Encoder.encode_hf] *)
Definition encode_hf (self : Encoder) (hf_sample : list (string * string))
  : result sample :=
  _encode_data self hf_sample.

(** [Encoder.convert_fms_arrow_to_megatron]: the document under the key
    [text], as the one element of a list. *)
Definition convert_fms_arrow_to_megatron (self : Encoder) (sample : list Z)
  : list (string * list (list Z)) :=
  let sample :=
    if (0 <? Z.of_nat (length sample)) && append_eod self
    then sample ++ [eos_token_id (tokenizer self)]
    else sample in
  [("text"%string, [sample])].

End Encoder.

(** * Properties of the index planner *)

Import IndexPlanner.

(** ** The selection rule *)

Lemma argmax_from_spec (ds pre : list Q) (bi : nat) (b : Q) :
  pre !! bi = Some b ->
  Forall (fun x => (x <= b)%Q) pre ->
  (forall j x, (j < bi)%nat -> pre !! j = Some x -> (x < b)%Q) ->
  let r := argmax_from bi b (length pre) ds in
  exists m, (pre ++ ds) !! r = Some m
    /\ Forall (fun x => (x <= m)%Q) (pre ++ ds)
    /\ (forall j x, (j < r)%nat -> (pre ++ ds) !! j = Some x -> (x < m)%Q).
Proof.
  revert pre bi b.
  induction ds as [|d ds IH]; intros pre bi b Hbi Hle Hlt; cbn.
  - exists b. rewrite app_nil_r. auto.
  - destruct (Qle_bool d b) eqn:Hd.
    + apply Qle_bool_iff in Hd.
      specialize (IH (pre ++ [d]) bi b).
      rewrite length_app, Nat.add_1_r, <- app_assoc in IH. cbn in IH.
      apply IH.
      * rewrite lookup_app_l; [done|]. by eapply lookup_lt_Some.
      * apply Forall_app. split; [done|]. by constructor.
      * intros j x Hj Hx. apply (Hlt j x Hj).
        rewrite lookup_app_l in Hx; [done|].
        apply lookup_lt_Some in Hbi. lia.
    + assert (b < d)%Q as Hbd.
      { apply Qnot_le_lt. intros H. apply Qle_bool_iff in H. congruence. }
      specialize (IH (pre ++ [d]) (length pre) d).
      rewrite length_app, Nat.add_1_r, <- app_assoc in IH. cbn in IH.
      apply IH.
      * rewrite lookup_app_r by lia. by rewrite Nat.sub_diag.
      * apply Forall_app. split.
        -- eapply Forall_impl; [exact Hle|]. cbn. intros x Hx.
           apply Qlt_le_weak. eapply Qle_lt_trans; eauto.
        -- constructor; [apply Qle_refl|constructor].
      * intros j x Hj Hx. rewrite lookup_app_l in Hx by done.
        eapply Qle_lt_trans; [|exact Hbd].
        rewrite Forall_forall in Hle. apply Hle.
        by eapply list_elem_of_lookup_2.
Qed.

(** The selected index holds a largest element, and every element before it
    is strictly smaller: ties go to the smallest index. *)
Lemma argmax_spec (ds : list Q) :
  ds <> [] ->
  exists m, ds !! argmax ds = Some m
    /\ Forall (fun x => (x <= m)%Q) ds
    /\ (forall j x, (j < argmax ds)%nat -> ds !! j = Some x -> (x < m)%Q).
Proof.
  destruct ds as [|d ds]; [done|]. intros _.
  apply (argmax_from_spec ds [d] 0 d).
  - done.
  - constructor; [apply Qle_refl|constructor].
  - intros j x Hj. lia.
Qed.

Lemma argmax_lt (ds : list Q) : ds <> [] -> (argmax ds < length ds)%nat.
Proof.
  intros H. destruct (argmax_spec ds H) as (m & Hm & _).
  by eapply lookup_lt_Some.
Qed.

(** ** Shape of the planner's state *)

Lemma deficits_length (ws : list Q) (t : Z) (cs : list Z) :
  length cs = length ws -> length (deficits ws t cs) = length ws.
Proof. intros H. unfold deficits. rewrite length_zip_with. lia. Qed.

Lemma run_counts_length (ws : list Q) (ls : list Z) (n : nat) :
  length (counts (run ws ls n)) = length ws.
Proof.
  induction n as [|n IH]; cbn.
  - apply length_replicate.
  - by rewrite length_insert.
Qed.

Lemma run_source_index_length (ws : list Q) (ls : list Z) (n : nat) :
  length (source_index (run ws ls n)) = n.
Proof.
  induction n as [|n IH]; [done|].
  cbn [run draw source_index]. rewrite length_app, IH. cbn. lia.
Qed.

Lemma run_sample_index_length (ws : list Q) (ls : list Z) (n : nat) :
  length (sample_index (run ws ls n)) = n.
Proof.
  induction n as [|n IH]; [done|].
  cbn [run draw sample_index]. rewrite length_app, IH. cbn. lia.
Qed.

(** The source selected at a draw is one of the [K] sources. *)
Lemma selected_lt (ws : list Q) (ls : list Z) (n : nat) (t : Z) :
  ws <> [] ->
  (argmax (deficits ws t (counts (run ws ls n))) < length ws)%nat.
Proof.
  intros Hws.
  rewrite <- (deficits_length ws t (counts (run ws ls n)))
    by apply run_counts_length.
  apply argmax_lt. intros Hnil.
  apply (f_equal length) in Hnil.
  rewrite deficits_length in Hnil by apply run_counts_length.
  destruct ws; [done|]. cbn in Hnil. lia.
Qed.

Lemma Qsum_nil_ne_1 (ws : list Q) : (Qsum ws == 1)%Q -> ws <> [].
Proof. intros H ->. cbn in H. discriminate H. Qed.

Lemma run_entries_ok (ws : list Q) (ls : list Z) (n : nat) :
  ws <> [] -> valid_lengths ws ls ->
  Forall (entry_ok (length ws) ls)
    (zip (source_index (run ws ls n)) (sample_index (run ws ls n))).
Proof.
  intros Hws [Hlen Hpos].
  induction n as [|n IH]; [constructor|].
  cbn [run draw source_index sample_index].
  rewrite zip_with_app
    by (by rewrite run_source_index_length, run_sample_index_length).
  apply Forall_app. split; [exact IH|].
  constructor; [|constructor].
  pose proof (selected_lt ws ls n (Z.of_nat (S n)) Hws) as Hsel.
  split; cbn [fst snd]; [lia|].
  rewrite Nat2Z.id.
  apply Z.mod_pos_bound.
  rewrite Forall_forall in Hpos. apply Hpos.
  apply list_elem_of_In, nth_In. lia.
Qed.

(** ** Sums of deficits and of counts *)

Lemma Qsum_cons (x : Q) (xs : list Q) : Qsum (x :: xs) = (x + Qsum xs)%Q.
Proof. reflexivity. Qed.

Lemma Qsum_app (xs ys : list Q) : (Qsum (xs ++ ys) == Qsum xs + Qsum ys)%Q.
Proof.
  induction xs as [|x xs IH].
  - change (Qsum ys == 0 + Qsum ys)%Q. ring.
  - change (x + Qsum (xs ++ ys) == x + Qsum xs + Qsum ys)%Q. rewrite IH. ring.
Qed.

Lemma Qsum_deficits (ws : list Q) (t : Z) (cs : list Z) :
  length cs = length ws ->
  (Qsum (deficits ws t cs)
   == Qsum ws * inject_Z t - inject_Z (foldr Z.add 0%Z cs))%Q.
Proof.
  revert cs. induction ws as [|w ws IH]; intros [|c cs] Hlen; try discriminate.
  - change (0 == 0 * inject_Z t - 0)%Q. ring.
  - cbn in Hlen. injection Hlen as Hlen.
    change (deficit w t c + Qsum (deficits ws t cs)
            == (w + Qsum ws) * inject_Z t
               - inject_Z (c + foldr Z.add 0%Z cs)%Z)%Q.
    rewrite (IH cs Hlen). unfold deficit. rewrite inject_Z_plus. ring.
Qed.

Lemma Zsum_insert (cs : list Z) (i : nat) (c : Z) :
  cs !! i = Some c ->
  foldr Z.add 0 (<[i := c + 1]> cs) = foldr Z.add 0 cs + 1.
Proof.
  revert i. induction cs as [|x cs IH]; intros [|i] H; try discriminate.
  - simpl in *. injection H as ->. lia.
  - simpl in *. rewrite (IH i H). lia.
Qed.

Lemma Zsum_replicate_0 (K : nat) : foldr Z.add 0 (replicate K 0) = 0.
Proof. induction K as [|K IH]; cbn; [done|]. by rewrite IH. Qed.

(** The count of the selected source, as the planner reads it. *)
Lemma selected_count (ws : list Q) (ls : list Z) (n : nat) (t : Z) :
  ws <> [] ->
  let cs := counts (run ws ls n) in
  cs !! argmax (deficits ws t cs) = Some (nth (argmax (deficits ws t cs)) cs 0).
Proof.
  intros Hws cs.
  pose proof (selected_lt ws ls n t Hws) as Hsel. fold cs in Hsel.
  rewrite nth_lookup.
  destruct (lookup_lt_is_Some_2 cs (argmax (deficits ws t cs))) as [c Hc].
  { unfold cs. rewrite run_counts_length. exact Hsel. }
  by rewrite Hc.
Qed.

(** After [n] draws the counts add up to [n]. *)
Lemma run_counts_sum (ws : list Q) (ls : list Z) (n : nat) :
  ws <> [] -> foldr Z.add 0 (counts (run ws ls n)) = Z.of_nat n.
Proof.
  intros Hws. induction n as [|n IH].
  - cbn. apply Zsum_replicate_0.
  - cbn [run draw counts].
    rewrite (Zsum_insert _ _ _ (selected_count ws ls n _ Hws)), IH. lia.
Qed.

(** ** Counts and prefixes of the source index *)

Lemma run_source_index_prefix (ws : list Q) (ls : list Z) (n t : nat) :
  (t <= n)%nat ->
  take t (source_index (run ws ls n)) = source_index (run ws ls t).
Proof.
  induction n as [|n IH]; intros Ht.
  - by replace t with 0%nat by lia.
  - destruct (decide (t = S n)) as [->|Hne].
    + apply take_ge. by rewrite run_source_index_length.
    + cbn [run draw source_index].
      rewrite take_app_le by (rewrite run_source_index_length; lia).
      apply IH. lia.
Qed.

(** The running count of a source is the number of times the source index
    names it. *)
Lemma run_counts_occ (ws : list Q) (ls : list Z) (n i : nat) :
  ws <> [] -> (i < length ws)%nat ->
  counts (run ws ls n) !! i
  = Some (Z.of_nat (count_occ Z.eq_dec (source_index (run ws ls n)) (Z.of_nat i))).
Proof.
  intros Hws Hi. induction n as [|n IH].
  - cbn. by rewrite lookup_replicate_2.
  - cbn [run draw counts source_index].
    pose proof (selected_count ws ls n (Z.of_nat (S n)) Hws) as Hsel.
    cbn zeta in Hsel.
    set (cs := counts (run ws ls n)) in *.
    set (k := argmax (deficits ws (Z.of_nat (S n)) cs)) in *.
    rewrite count_occ_app. cbn [count_occ].
    destruct (decide (i = k)) as [->|Hik].
    + rewrite list_lookup_insert_eq by (by eapply lookup_lt_Some).
      rewrite IH in Hsel. injection Hsel as <-.
      destruct (Z.eq_dec (Z.of_nat k) (Z.of_nat k)); [|done].
      f_equal. lia.
    + rewrite list_lookup_insert_ne by done.
      rewrite IH.
      destruct (Z.eq_dec (Z.of_nat k) (Z.of_nat i)); [lia|].
      f_equal. lia.
Qed.

(** ** Sums of rationals *)

Lemma Qsum_le_max (xs : list Q) (m : Q) :
  Forall (fun x => (x <= m)%Q) xs ->
  (Qsum xs <= inject_Z (Z.of_nat (length xs)) * m)%Q.
Proof.
  induction 1 as [|x xs Hx _ IH].
  - change (0 <= 0 * m)%Q. lra.
  - rewrite Qsum_cons. cbn [length]. rewrite Nat2Z.inj_succ. unfold Z.succ.
    rewrite inject_Z_plus. change (inject_Z 1) with 1%Q. lra.
Qed.

Lemma Qsum_nonneg (xs : list Q) :
  Forall (fun x => (0 <= x)%Q) xs -> (0 <= Qsum xs)%Q.
Proof.
  induction 1 as [|x xs Hx _ IH]; [apply Qle_refl|]. rewrite Qsum_cons. lra.
Qed.

(** A weight is a number between 0 and 1. *)
Lemma valid_weight_range (ws : list Q) (i : nat) (w : Q) :
  valid_weights ws -> ws !! i = Some w -> (0 <= w <= 1)%Q.
Proof.
  intros [Hsum Hnn] Hw.
  assert (0 <= w)%Q as Hw0.
  { rewrite Forall_forall in Hnn. apply Hnn. by eapply list_elem_of_lookup_2. }
  split; [done|].
  pose proof (take_drop_middle ws i w Hw) as Hsplit.
  rewrite <- Hsplit in Hsum. rewrite Qsum_app, Qsum_cons in Hsum.
  pose proof (Qsum_nonneg (take i ws) (Forall_take _ _ _ Hnn)).
  pose proof (Qsum_nonneg (drop (S i) ws) (Forall_drop _ _ _ Hnn)).
  lra.
Qed.

(** ** Sums over a selection of the sources *)

Lemma masked_sum_cons (b : bool) (sel : list bool) (x : Q) (xs : list Q) :
  masked_sum (b :: sel) (x :: xs)
  = ((if b then x else 0) + masked_sum sel xs)%Q.
Proof. reflexivity. Qed.

Lemma selected_cons (b : bool) (sel : list bool) :
  selected (b :: sel) = ((if b then 1 else 0) + selected sel)%nat.
Proof. unfold selected. rewrite filter_cons. by destruct b. Qed.

Lemma selected_le_length (sel : list bool) : (selected sel <= length sel)%nat.
Proof. unfold selected. apply length_filter. Qed.

Lemma masked_sum_mono (sel : list bool) (xs ys : list Q) :
  Forall2 Qle xs ys -> (masked_sum sel xs <= masked_sum sel ys)%Q.
Proof.
  intros H. revert sel. induction H as [|x y xs ys Hxy _ IH]; intros [|b sel];
    try apply Qle_refl.
  rewrite !masked_sum_cons. specialize (IH sel). destruct b; lra.
Qed.

Lemma masked_sum_zero (sel : list bool) (xs : list Q) :
  Forall (fun x => x == 0)%Q xs -> (masked_sum sel xs == 0)%Q.
Proof.
  intros H. revert sel. induction H as [|x xs Hx _ IH]; intros [|b sel];
    try reflexivity.
  rewrite masked_sum_cons, (IH sel). destruct b; lra.
Qed.

(** Taking an element out of the selection. *)
Lemma masked_sum_flip (sel : list bool) (xs : list Q) (i : nat) (x : Q) :
  sel !! i = Some true -> xs !! i = Some x ->
  (masked_sum sel xs == masked_sum (<[i := false]> sel) xs + x)%Q.
Proof.
  revert xs i. induction sel as [|b sel IH]; intros [|y xs] [|i] Hs Hx;
    try discriminate.
  - injection Hs as ->. injection Hx as ->.
    change (<[0%nat := false]> (true :: sel)) with (false :: sel).
    rewrite !masked_sum_cons. lra.
  - change (<[S i := false]> (b :: sel)) with (b :: <[i := false]> sel).
    rewrite !masked_sum_cons. rewrite (IH xs i Hs Hx). lra.
Qed.

Lemma selected_flip (sel : list bool) (i : nat) :
  sel !! i = Some true ->
  selected sel = S (selected (<[i := false]> sel)).
Proof.
  revert i. induction sel as [|b sel IH]; intros [|i] Hs; try discriminate.
  - injection Hs as ->.
    change (<[0%nat := false]> (true :: sel)) with (false :: sel).
    by rewrite !selected_cons.
  - change (<[S i := false]> (b :: sel)) with (b :: <[i := false]> sel).
    rewrite !selected_cons, (IH i Hs). lia.
Qed.

(** An element outside the selection does not count. *)
Lemma masked_sum_insert_out (sel : list bool) (xs : list Q) (i : nat) (y : Q) :
  sel !! i = Some false ->
  (masked_sum sel (<[i := y]> xs) == masked_sum sel xs)%Q.
Proof.
  revert xs i. induction sel as [|b sel IH]; intros [|x xs] [|i] Hs;
    try discriminate; try reflexivity.
  - injection Hs as ->. reflexivity.
  - change (<[S i := y]> (x :: xs)) with (x :: <[i := y]> xs).
    rewrite !masked_sum_cons. by rewrite (IH xs i Hs).
Qed.

(** What the selection leaves out is at most the largest element for each
    element left out. *)
Lemma masked_sum_rest (sel : list bool) (xs : list Q) (m : Q) :
  length sel = length xs ->
  Forall (fun x => (x <= m)%Q) xs ->
  (Qsum xs - masked_sum sel xs
   <= (inject_Z (Z.of_nat (length xs)) - inject_Z (Z.of_nat (selected sel))) * m)%Q.
Proof.
  intros Hlen H. revert sel Hlen.
  induction H as [|x xs Hx _ IH]; intros [|b sel] Hlen; try discriminate.
  injection Hlen as Hlen. specialize (IH sel Hlen).
  destruct b; rewrite masked_sum_cons, Qsum_cons, selected_cons; cbn [length];
      [change (1 + selected sel)%nat with (S (selected sel))
      |change (0 + selected sel)%nat with (selected sel)];
      rewrite ?Nat2Z.inj_succ; unfold Z.succ; rewrite ?inject_Z_plus;
      change (inject_Z 1) with 1%Q; lra.
Qed.

Lemma masked_sum_all (xs : list Q) :
  (masked_sum (replicate (length xs) true) xs == Qsum xs)%Q.
Proof.
  induction xs as [|x xs IH]; [reflexivity|].
  cbn [length replicate]. rewrite masked_sum_cons, Qsum_cons, IH. reflexivity.
Qed.

Lemma selected_all (K : nat) : selected (replicate K true) = K.
Proof.
  induction K as [|K IH]; [reflexivity|].
  cbn [replicate]. rewrite selected_cons, IH. lia.
Qed.

(** ** Harmonic sums *)

Lemma harmonic_from_cons (a n : nat) :
  harmonic_from a (S n)
  = (1 / inject_Z (Z.of_nat a) + harmonic_from (S a) n)%Q.
Proof. reflexivity. Qed.

Lemma harmonic_from_nonneg (a n : nat) : (0 <= harmonic_from a n)%Q.
Proof.
  revert a. induction n as [|n IH]; intros a; [apply Qle_refl|].
  rewrite harmonic_from_cons. specialize (IH (S a)).
  assert (0 <= 1 / inject_Z (Z.of_nat a))%Q; [|lra].
  unfold Qdiv. rewrite Qmult_1_l. apply Qinv_le_0_compat.
  change 0%Q with (inject_Z 0). rewrite <- Zle_Qle. lia.
Qed.

Lemma inject_nat_nonzero (a : nat) :
  (1 <= a)%nat -> ~ (inject_Z (Z.of_nat a) == 0)%Q.
Proof. intros Ha H. unfold Qeq in H. simpl in H. lia. Qed.

Lemma harmonic_from_lead (a n : nat) :
  (1 <= a)%nat ->
  (inject_Z (Z.of_nat a) * harmonic_from a (S n)
   == 1 + inject_Z (Z.of_nat a) * harmonic_from (S a) n)%Q.
Proof.
  intros Ha. rewrite harmonic_from_cons. field. by apply inject_nat_nonzero.
Qed.

(** ** The deficits from one draw to the next *)

Lemma deficits_lookup (ws : list Q) (cs : list Z) (t : Z) (j : nat) (w : Q) (c : Z) :
  ws !! j = Some w -> cs !! j = Some c ->
  deficits ws t cs !! j = Some (deficit w t c).
Proof.
  intros Hw Hc. unfold deficits. rewrite lookup_zip_with, Hw. cbn.
  by rewrite Hc.
Qed.

Lemma deficits_insert (ws : list Q) (cs : list Z) (t : Z) (i : nat) (w : Q) (c : Z) :
  ws !! i = Some w ->
  deficits ws t (<[i := c]> cs) = <[i := deficit w t c]> (deficits ws t cs).
Proof.
  revert cs i. induction ws as [|w' ws IH]; intros [|c' cs] [|i] Hw;
    try discriminate; try reflexivity.
  - injection Hw as ->. reflexivity.
  - unfold deficits in *. cbn. f_equal. by apply IH.
Qed.

Lemma deficits_next (ws : list Q) (cs : list Z) (t : Z) :
  Forall (fun w => (0 <= w)%Q) ws ->
  Forall2 Qle (deficits ws t cs) (deficits ws (t + 1) cs).
Proof.
  intros H. revert cs. induction H as [|w ws Hw _ IH]; intros [|c cs];
    try constructor.
  - unfold deficit. rewrite inject_Z_plus. change (inject_Z 1) with 1%Q. lra.
  - apply IH.
Qed.

Lemma deficits_start (ws : list Q) (k : nat) :
  Forall (fun x => x == 0)%Q (deficits ws 0 (replicate k 0)).
Proof.
  revert k. induction ws as [|w ws IH]; intros [|k]; try constructor.
  - unfold deficit. change (inject_Z 0) with 0%Q. ring.
  - apply IH.
Qed.

(** The deficits at a draw: they add up to 1, the selected one is the
    largest, and none is below what it was after the draw before. *)
Lemma draw_deficits (ws : list Q) (ls : list Z) (n : nat) :
  valid_weights ws ->
  let cs := counts (run ws ls n) in
  let ds := deficits ws (Z.of_nat (S n)) cs in
  exists w c,
    ws !! argmax ds = Some w /\ cs !! argmax ds = Some c
    /\ ds !! argmax ds = Some (deficit w (Z.of_nat (S n)) c)
    /\ Forall (fun x => (x <= deficit w (Z.of_nat (S n)) c)%Q) ds
    /\ (Qsum ds == 1)%Q
    /\ length ds = length ws
    /\ Forall2 Qle (deficits ws (Z.of_nat n) cs) ds
    /\ deficits ws (Z.of_nat (S n)) (counts (run ws ls (S n)))
       = <[argmax ds := deficit w (Z.of_nat (S n)) (c + 1)]> ds.
Proof.
  intros [Hsum Hnn] cs ds.
  pose proof (Qsum_nil_ne_1 ws Hsum) as Hws.
  assert (length cs = length ws) as Hlen by apply run_counts_length.
  assert (length ds = length ws) as Hdlen by (by apply deficits_length).
  assert (ds <> []) as Hne.
  { intros Hnil. rewrite Hnil in Hdlen. destruct ws; [done|]. discriminate. }
  destruct (argmax_spec _ Hne) as (m & Hm & Hmax & _).
  pose proof (lookup_lt_Some _ _ _ Hm) as Hlt. rewrite Hdlen in Hlt.
  destruct (lookup_lt_is_Some_2 ws (argmax ds)) as [w Hw]; [done|].
  destruct (lookup_lt_is_Some_2 cs (argmax ds)) as [c Hc]; [lia|].
  assert (m = deficit w (Z.of_nat (S n)) c) as ->.
  { unfold ds, deficits in Hm. rewrite lookup_zip_with in Hm.
    fold (deficits ws (Z.of_nat (S n)) cs) in Hm. fold ds in Hm.
    rewrite Hw in Hm. cbn in Hm. rewrite Hc in Hm. cbn in Hm. congruence. }
  exists w, c. repeat split; try done.
  - unfold ds. rewrite (Qsum_deficits ws _ cs Hlen). unfold cs.
    rewrite (run_counts_sum ws ls n Hws), Hsum.
    rewrite Nat2Z.inj_succ. unfold Z.succ. rewrite inject_Z_plus.
    change (inject_Z 1) with 1%Q. ring.
  - unfold ds. rewrite Nat2Z.inj_succ. by apply deficits_next.
  - cbn [run draw counts]. fold cs. fold ds.
    rewrite (deficits_insert ws cs _ _ w) by done.
    rewrite nth_lookup, Hc. reflexivity.
Qed.

(** ** How far a source can be from its share *)

(** After every draw, any [j < K] of the sources are together at most
    [(K - j) * (1/(K-j) + ... + 1/K) - 1] draws ahead of their shares. *)
Lemma run_selection_lower (ws : list Q) (ls : list Z) (n : nat) :
  valid_weights ws ->
  forall sel,
    length sel = length ws -> (selected sel < length ws)%nat ->
    (1 - inject_Z (Z.of_nat (length ws - selected sel))
         * harmonic_from (length ws - selected sel) (S (selected sel))
     <= masked_sum sel (deficits ws (Z.of_nat n) (counts (run ws ls n))))%Q.
Proof.
  intros Hv. induction n as [|n IH]; intros sel Hlen Hj.
  - cbn [run initial counts].
    rewrite (masked_sum_zero sel _ (deficits_start ws (length ws))).
    rewrite harmonic_from_lead by lia.
    pose proof (harmonic_from_nonneg (S (length ws - selected sel)) (selected sel)).
    assert (0 <= inject_Z (Z.of_nat (length ws - selected sel)))%Q.
    { change 0%Q with (inject_Z 0). rewrite <- Zle_Qle. lia. }
    assert (0 <= inject_Z (Z.of_nat (length ws - selected sel))
                 * harmonic_from (S (length ws - selected sel)) (selected sel))%Q
      by (by apply Qmult_le_0_compat).
    lra.
  - destruct (draw_deficits ws ls n Hv)
      as (w & c & Hw & Hc & Hm & Hmax & Hone & Hdlen & Hnext & ->).
    set (cs := counts (run ws ls n)) in *.
    set (ds := deficits ws (Z.of_nat (S n)) cs) in *.
    set (i := argmax ds) in *.
    set (m := deficit w (Z.of_nat (S n)) c) in *.
    assert (deficit w (Z.of_nat (S n)) (c + 1) == m - 1)%Q as Hy.
    { unfold m, deficit. rewrite inject_Z_plus. change (inject_Z 1) with 1%Q. ring. }
    pose proof (lookup_lt_Some _ _ _ Hw) as Hi.
    destruct (lookup_lt_is_Some_2 sel i) as [b Hb]; [lia|].
    destruct b.
    + set (sel' := <[i := false]> sel).
      assert (sel' !! i = Some false) as Hb'.
      { unfold sel'. apply list_lookup_insert_eq. lia. }
      pose proof (selected_flip sel i Hb) as Hsel. fold sel' in Hsel.
      assert (length sel' = length ws) as Hlen'
        by (unfold sel'; by rewrite length_insert).
      rewrite (masked_sum_flip sel _ i (deficit w (Z.of_nat (S n)) (c + 1)) Hb)
        by (apply list_lookup_insert_eq; lia).
      fold sel'. rewrite (masked_sum_insert_out sel' ds i _ Hb'), Hy.
      specialize (IH sel' Hlen' ltac:(lia)).
      pose proof (masked_sum_mono sel' _ _ Hnext) as Hmono.
      pose proof (masked_sum_rest sel' ds m ltac:(lia) Hmax) as Hrest.
      rewrite Hone, Hdlen in Hrest.
      set (A := masked_sum sel' ds) in *.
      replace (length ws - selected sel')%nat
        with (S (length ws - selected sel)) in IH by lia.
      rewrite <- Hsel in IH.
      set (n1 := (length ws - selected sel)%nat) in *.
      set (u := harmonic_from (S n1) (selected sel)) in *.
      rewrite harmonic_from_lead by lia. fold u.
      assert (inject_Z (Z.of_nat (length ws)) - inject_Z (Z.of_nat (selected sel'))
              == inject_Z (Z.of_nat n1) + 1)%Q as Hcount.
      { unfold Qminus. rewrite <- inject_Z_opp, <- inject_Z_plus.
        change 1%Q with (inject_Z 1). rewrite <- inject_Z_plus.
        apply inject_Z_injective. lia. }
      rewrite Hcount in Hrest.
      assert (inject_Z (Z.of_nat (S n1)) == inject_Z (Z.of_nat n1) + 1)%Q as Hs.
      { rewrite Nat2Z.inj_succ. unfold Z.succ. by rewrite inject_Z_plus. }
      rewrite Hs in IH.
      assert (1 <= inject_Z (Z.of_nat n1))%Q as Hq1.
      { change 1%Q with (inject_Z 1). rewrite <- Zle_Qle. lia. }
      set (q := inject_Z (Z.of_nat n1)) in *.
      assert (1 - (q + 1) * u <= A)%Q as HA by lra.
      assert (q * (1 - (q + 1) * u) <= q * A)%Q as HA'.
      { apply Qmult_le_l; [lra|done]. }
      apply (Qmult_le_l _ _ (q + 1)); [lra|].
      lra.
    + rewrite (masked_sum_insert_out sel ds i _ Hb).
      specialize (IH sel Hlen Hj).
      pose proof (masked_sum_mono sel _ _ Hnext). lra.
Qed.

(** No source is ever more than [1 - 1/K] draws ahead of its share. *)
Lemma run_ahead_bound (ws : list Q) (ls : list Z) (n j : nat) (w : Q) (c : Z) :
  valid_weights ws ->
  ws !! j = Some w -> counts (run ws ls n) !! j = Some c ->
  (inject_Z c - w * inject_Z (Z.of_nat n)
   <= 1 - 1 / inject_Z (Z.of_nat (length ws)))%Q.
Proof.
  intros Hv Hw. pose proof Hv as [Hsum Hnn].
  pose proof (Qsum_nil_ne_1 ws Hsum) as Hws.
  pose proof (valid_weight_range ws j w Hv Hw) as [Hw0 _].
  assert (1 <= inject_Z (Z.of_nat (length ws)))%Q as HK1.
  { change 1%Q with (inject_Z 1). rewrite <- Zle_Qle.
    destruct ws; [done|]. cbn [length]. lia. }
  set (K := inject_Z (Z.of_nat (length ws))) in *.
  remember (1 / K)%Q as r eqn:Hr.
  assert (K * r == 1)%Q as HKr.
  { rewrite Hr. field. lra. }
  clear Hr.
  assert (r <= 1)%Q as Hr1.
  { apply (Qmult_le_l r 1 K); [lra|]. rewrite HKr, Qmult_1_r. lra. }
  revert c. induction n as [|n IH]; intros c Hc.
  - cbn in Hc. apply lookup_replicate in Hc as [-> _].
    change (inject_Z (Z.of_nat 0)) with 0%Q. change (inject_Z 0) with 0%Q. lra.
  - destruct (draw_deficits ws ls n Hv)
      as (wi & ci & Hwi & Hci & Hm & Hmax & Hone & Hdlen & _ & _).
    cbn [run draw counts] in Hc.
    set (cs := counts (run ws ls n)) in *.
    set (ds := deficits ws (Z.of_nat (S n)) cs) in *.
    set (i := argmax ds) in *.
    assert (inject_Z (Z.of_nat (S n)) == inject_Z (Z.of_nat n) + 1)%Q as Ht.
    { rewrite Nat2Z.inj_succ. unfold Z.succ. by rewrite inject_Z_plus. }
    destruct (decide (j = i)) as [->|Hji].
    + rewrite list_lookup_insert_eq in Hc by (by eapply lookup_lt_Some).
      rewrite nth_lookup, Hci in Hc. cbn in Hc. injection Hc as <-.
      assert (wi = w) as -> by congruence.
      assert (r <= deficit w (Z.of_nat (S n)) ci)%Q as Hrm.
      { pose proof (Qsum_le_max _ _ Hmax) as H.
        rewrite Hdlen, Hone in H. fold K in H.
        apply (Qmult_le_l _ _ K); [lra|]. by rewrite HKr. }
      unfold deficit in Hrm. rewrite inject_Z_plus.
      change (inject_Z 1) with 1%Q. lra.
    + rewrite list_lookup_insert_ne in Hc by done.
      specialize (IH c Hc). rewrite Ht. lra.
Qed.

(** No source is ever more than [1/2 + 1/3 + ... + 1/K] draws behind its
    share. *)
Lemma run_behind_bound (ws : list Q) (ls : list Z) (n j : nat) (w : Q) (c : Z) :
  valid_weights ws ->
  ws !! j = Some w -> counts (run ws ls n) !! j = Some c ->
  (w * inject_Z (Z.of_nat n) - inject_Z c <= harmonic_tail (length ws))%Q.
Proof.
  intros Hv Hw.
  pose proof (valid_weight_range ws j w Hv Hw) as [_ Hw1].
  pose proof (lookup_lt_Some _ _ _ Hw) as Hj.
  revert c. induction n as [|n IH]; intros c Hc.
  - cbn in Hc. apply lookup_replicate in Hc as [-> _].
    change (inject_Z (Z.of_nat 0)) with 0%Q. change (inject_Z 0) with 0%Q.
    pose proof (harmonic_from_nonneg 2 (length ws - 1)).
    unfold harmonic_tail. lra.
  - pose proof (run_selection_lower ws ls n Hv) as Hlow.
    destruct (draw_deficits ws ls n Hv)
      as (wi & ci & Hwi & Hci & Hm & Hmax & Hone & Hdlen & Hnext & Hlist).
    assert (deficits ws (Z.of_nat (S n)) (counts (run ws ls (S n))) !! j
            = Some (deficit w (Z.of_nat (S n)) c)) as Hd.
    { by apply deficits_lookup. }
    rewrite Hlist in Hd. clear Hlist Hc.
    set (cs := counts (run ws ls n)) in *.
    set (ds := deficits ws (Z.of_nat (S n)) cs) in *.
    set (i := argmax ds) in *.
    pose proof (lookup_lt_Some _ _ _ Hwi) as Hi.
    assert (inject_Z (Z.of_nat (S n)) == inject_Z (Z.of_nat n) + 1)%Q as Ht.
    { rewrite Nat2Z.inj_succ. unfold Z.succ. by rewrite inject_Z_plus. }
    destruct (decide (j = i)) as [->|Hji].
    + rewrite list_lookup_insert_eq in Hd by lia.
      assert (wi = w) as -> by congruence.
      specialize (IH ci Hci).
      assert (deficit w (Z.of_nat (S n)) c = deficit w (Z.of_nat (S n)) (ci + 1))
        as Hy by congruence.
      unfold deficit in Hy.
      assert (w * inject_Z (Z.of_nat (S n)) - inject_Z c
              == w * inject_Z (Z.of_nat (S n)) - inject_Z (ci + 1))%Q as ->
        by (by rewrite Hy).
      rewrite inject_Z_plus, Ht. change (inject_Z 1) with 1%Q. lra.
    + rewrite list_lookup_insert_ne in Hd by done.
      set (m := deficit wi (Z.of_nat (S n)) ci) in *.
      set (x := deficit w (Z.of_nat (S n)) c) in *.
      assert (x <= m)%Q as Hxm.
      { rewrite Forall_forall in Hmax. apply Hmax.
        by eapply list_elem_of_lookup_2. }
      set (all := replicate (length ws) true).
      set (sel1 := <[i := false]> all).
      set (sel := <[j := false]> sel1).
      assert (all !! i = Some true) as Hai by (by apply lookup_replicate_2).
      assert (sel1 !! j = Some true) as Hsj.
      { unfold sel1. rewrite list_lookup_insert_ne by done.
        by apply lookup_replicate_2. }
      pose proof (selected_flip all i Hai) as Hs1. fold sel1 in Hs1.
      pose proof (selected_flip sel1 j Hsj) as Hs2. fold sel in Hs2.
      unfold all in Hs1 at 1. rewrite selected_all in Hs1.
      assert (length sel = length ws) as Hlen.
      { unfold sel, sel1, all. by rewrite !length_insert, length_replicate. }
      specialize (Hlow sel Hlen ltac:(lia)).
      pose proof (masked_sum_mono sel _ _ Hnext) as Hmono.
      pose proof (masked_sum_all ds) as Hall. rewrite Hdlen in Hall.
      fold all in Hall.
      rewrite (masked_sum_flip all ds i m Hai Hm) in Hall. fold sel1 in Hall.
      rewrite (masked_sum_flip sel1 ds j x Hsj Hd) in Hall. fold sel in Hall.
      rewrite Hone in Hall.
      replace (length ws - selected sel)%nat with 2%nat in Hlow by lia.
      replace (S (selected sel)) with (length ws - 1)%nat in Hlow by lia.
      fold (harmonic_tail (length ws)) in Hlow.
      change (inject_Z (Z.of_nat 2)) with 2%Q in Hlow.
      unfold x, deficit in *. lra.
Qed.

(** ** The planner's guarantees *)

(** C1 (amended). For weights that sum to 1, none negative, every prefix
    length [t] in [1, N] and every source [i] of the [K]: the count of [i]
    among the first [t] entries of the source index is at most [1 - 1/K]
    draws ahead of the share [weight_i * t], hence less than one draw, and
    at most [1/2 + 1/3 + ... + 1/K] draws behind it; with at most three
    sources the deviation is below 1 in absolute value. *)
Theorem planner_bounded_deviation
    (ws : list Q) (ls : list Z) (N t i : nat) (w : Q) :
  valid_weights ws -> (1 <= t <= N)%nat -> ws !! i = Some w ->
  let c := inject_Z (count_prefix (fst (build ws ls N)) i t) in
  let share := (w * inject_Z (Z.of_nat t))%Q in
  (c - share <= 1 - 1 / inject_Z (Z.of_nat (length ws)))%Q
  /\ (c - share < 1)%Q
  /\ (share - c <= harmonic_tail (length ws))%Q
  /\ ((length ws <= 3)%nat -> (Qabs (c - share) < 1)%Q).
Proof.
  intros Hv Ht Hw. pose proof Hv as [Hsum _].
  pose proof (Qsum_nil_ne_1 ws Hsum) as Hws.
  assert (i < length ws)%nat as Hi by (by eapply lookup_lt_Some).
  unfold count_prefix, build. cbn [fst].
  rewrite run_source_index_prefix by lia.
  pose proof (run_counts_occ ws ls t i Hws Hi) as Hc.
  set (c := Z.of_nat (count_occ Z.eq_dec (source_index (run ws ls t)) (Z.of_nat i)))
    in *.
  cbn zeta.
  pose proof (run_ahead_bound ws ls t i w c Hv Hw Hc) as Hup.
  pose proof (run_behind_bound ws ls t i w c Hv Hw Hc) as Hlow.
  assert (0 < 1 / inject_Z (Z.of_nat (length ws)))%Q as Hinv.
  { apply Qlt_shift_div_l; [|lra].
    change 0%Q with (inject_Z 0). rewrite <- Zlt_Qlt. lia. }
  split; [exact Hup|]. split; [lra|]. split; [exact Hlow|].
  intros HK. apply Qabs_Qlt_condition. split; [|lra].
  assert (length ws = 1 \/ length ws = 2 \/ length ws = 3)%nat as Hcases by lia.
  destruct Hcases as [E|[E|E]]; rewrite E in Hlow;
    match type of Hlow with
    | (_ <= ?b)%Q => assert (b < 1)%Q as Hb by reflexivity
    end; lra.
Qed.

(** The bound at the first three draws of the blend [0.6, 0.4]. *)
Lemma planner_bounded_deviation_witness :
  let c := inject_Z (count_prefix (fst (build [6 # 10; 4 # 10]%Q [3; 2] 5)) 0 3) in
  let share := ((6 # 10) * inject_Z (Z.of_nat 3))%Q in
  (c - share <= 1 - 1 / inject_Z (Z.of_nat 2))%Q
  /\ (c - share < 1)%Q
  /\ (share - c <= harmonic_tail 2)%Q
  /\ ((2 <= 3)%nat -> (Qabs (c - share) < 1)%Q).
Proof.
  apply (planner_bounded_deviation [6 # 10; 4 # 10]%Q [3; 2] 5 3 0 (6 # 10)%Q).
  - split; [reflexivity|]. repeat constructor; discriminate.
  - lia.
  - reflexivity.
Defined.

(** C1, as stated, fails: six sources weighted [1/18, 1/18, 1/18, 5/18,
    5/18, 5/18]; after eleven draws the last source, whose share is 55/18,
    has been drawn twice. *)
Lemma planner_deviation_exceeds_one :
  let ws := [1 # 18; 1 # 18; 1 # 18; 5 # 18; 5 # 18; 5 # 18]%Q in
  let src := fst (build ws [1; 1; 1; 1; 1; 1] 11) in
  valid_weights ws
  /\ src = [3; 4; 5; 0; 3; 4; 5; 1; 2; 3; 4]
  /\ count_prefix src 5 11 = 2
  /\ ~ (Qabs (inject_Z (count_prefix src 5 11) - (5 # 18) * inject_Z 11) < 1)%Q.
Proof.
  cbn zeta. split; [|split; [|split]].
  - split; [reflexivity|]. repeat constructor; discriminate.
  - vm_compute. reflexivity.
  - vm_compute. reflexivity.
  - vm_compute. intros H. discriminate H.
Qed.

(** Three sources is as far as the bound of one draw goes: with the four
    weights [1/80, 5/80, 37/80, 37/80] the last source, whose share of the
    first 26 draws is 481/40, has been drawn 11 times, which is 41/40 draws
    behind its share and within the bound [1/2 + 1/3 + 1/4] for four
    sources. *)
Lemma planner_four_sources_fall_behind :
  let ws := [1 # 80; 5 # 80; 37 # 80; 37 # 80]%Q in
  let src := fst (build ws [1; 1; 1; 1] 26) in
  valid_weights ws
  /\ count_prefix src 3 26 = 11
  /\ ((37 # 80) * inject_Z 26 - inject_Z (count_prefix src 3 26) == 41 # 40)%Q
  /\ ~ (Qabs (inject_Z (count_prefix src 3 26) - (37 # 80) * inject_Z 26) < 1)%Q
  /\ (harmonic_tail 4 == 13 # 12)%Q.
Proof.
  cbn zeta. split; [|split; [|split; [|split]]].
  - split; [reflexivity|]. repeat constructor; discriminate.
  - vm_compute. reflexivity.
  - vm_compute. reflexivity.
  - vm_compute. intros H. discriminate H.
  - reflexivity.
Qed.

(** The plan of the specification's planner, handed the lengths of the
    sources: for weights that sum to 1 over [K] sources, each of positive
    length, every entry [i < N] has [0 <= source_index[i] < K] and
    [0 <= sample_index[i] < length(sources[source_index[i]])]; a single
    source of length 2 drawn 4 times yields the sample index [0, 1, 0, 1]. *)
Lemma blend_plan_entry_invariant (ws : list Q) (ls : list Z) (N : nat) :
  (Qsum ws == 1)%Q -> valid_lengths ws ls ->
  (forall i, (i < N)%nat ->
     exists s x,
       fst (build ws ls N) !! i = Some s
       /\ snd (build ws ls N) !! i = Some x
       /\ 0 <= s < Z.of_nat (length ws)
       /\ 0 <= x < nth (Z.to_nat s) ls 0)
  /\ build [1%Q] [2] 4 = ([0; 0; 0; 0], [0; 1; 0; 1]).
Proof.
  intros Hsum Hls. split; [|by vm_compute].
  intros i Hi. unfold build. cbn [fst snd].
  pose proof (run_entries_ok ws ls N (Qsum_nil_ne_1 ws Hsum) Hls) as Hall.
  destruct (lookup_lt_is_Some_2 (source_index (run ws ls N)) i) as [s Hs].
  { by rewrite run_source_index_length. }
  destruct (lookup_lt_is_Some_2 (sample_index (run ws ls N)) i) as [x Hx].
  { by rewrite run_sample_index_length. }
  exists s, x. split; [done|]. split; [done|].
  rewrite Forall_forall in Hall.
  apply (Hall (s, x)).
  apply list_elem_of_lookup. exists i.
  rewrite lookup_zip_with, Hs. cbn. by rewrite Hx.
Qed.

(** C6. Sources of lengths [3, 2] with weights [0.6, 0.4] and [N = 5]: the
    planner produces the source index [0, 1, 0, 1, 0] and the sample index
    [0, 0, 1, 1, 2]. *)
Theorem planner_worked_scenario :
  build [6 # 10; 4 # 10]%Q [3; 2] 5 = ([0; 1; 0; 1; 0], [0; 0; 1; 1; 2]).
Proof. vm_compute. reflexivity. Qed.

(** * Properties of the cache artifacts' paths *)

Lemma string_app_cons (x : ascii) (a b : string) :
  String x a +:+ b = String x (a +:+ b).
Proof. reflexivity. Qed.

Lemma string_app_assoc (a b c : string) : (a +:+ b) +:+ c = a +:+ (b +:+ c).
Proof.
  induction a as [|x a IH]; [done|].
  by rewrite !string_app_cons, IH.
Qed.

Lemma starts_with_slash_app (stem suffix : string) :
  stem <> ""%string ->
  starts_with_slash (stem +:+ suffix) = starts_with_slash stem.
Proof. destruct stem; [done|]. done. Qed.

Lemma os_path_join_app (dir stem suffix : string) :
  stem <> ""%string ->
  os_path_join dir (stem +:+ suffix) = os_path_join dir stem +:+ suffix.
Proof.
  intros Hstem. unfold os_path_join.
  rewrite (starts_with_slash_app stem suffix Hstem).
  destruct (starts_with_slash stem); [done|].
  destruct (String.eqb dir "" || ends_with_slash dir).
  - by rewrite string_app_assoc.
  - by rewrite !string_app_assoc.
Qed.

(** An artifact's path is a prefix common to the three, then its suffix. *)
Lemma get_path_to_app (dir hash suffix : string) :
  get_path_to dir hash suffix = get_path_to dir hash "" +:+ suffix.
Proof.
  unfold get_path_to.
  rewrite <- (os_path_join_app dir (hash +:+ "-" +:+ class_name +:+ "-" +:+ "")).
  - f_equal. by rewrite string_app_assoc.
  - destruct hash; discriminate.
Qed.

Lemma get_path_to_inj (dir hash s1 s2 : string) :
  get_path_to dir hash s1 = get_path_to dir hash s2 -> s1 = s2.
Proof.
  rewrite (get_path_to_app dir hash s1), (get_path_to_app dir hash s2).
  apply String.app_inj.
Qed.

Lemma artifact_paths_distinct (self : Attrs) :
  path_to_description self <> path_to_dataset_index self
  /\ path_to_description self <> path_to_dataset_sample_index self
  /\ path_to_dataset_index self <> path_to_dataset_sample_index self.
Proof.
  unfold path_to_description, path_to_dataset_index,
    path_to_dataset_sample_index.
  repeat split; intros H; apply get_path_to_inj in H; discriminate H.
Qed.

(** * Properties of index resolution *)

Lemma np_zeros_ok (size : Z) (d : np_dtype) :
  0 <= size -> np_zeros size d = Ok (mk_ndarray d (replicate (Z.to_nat size) 0)).
Proof. intros H. unfold np_zeros. by rewrite (proj2 (Z.ltb_ge size 0) H). Qed.

Lemma np_zeros_negative (size : Z) (d : np_dtype) :
  size < 0 -> np_zeros size d = Err ValueError.
Proof. intros H. unfold np_zeros. by rewrite (proj2 (Z.ltb_lt size 0) H). Qed.

Lemma np_fill_length (buf : ndarray) (vals : list Z) :
  length (data (np_fill buf vals)) = length (data buf).
Proof.
  unfold np_fill. cbn [data].
  rewrite length_app, length_map, length_take, length_drop. lia.
Qed.

(** Probing the artifacts reads the file system and leaves it as it is; the
    probes stop at the first artifact that is missing. *)
Lemma all_isfile_spec (ps : list string) (w : world) :
  exists evs,
    all_isfile ps w
    = (Ok (forallb (is_file (files w)) ps), mk_world (files w) (trace w ++ evs))
    /\ Forall (fun e => exists p, e = IsFile p) evs
    /\ (ps <> [] -> evs <> [])
    /\ (forallb (is_file (files w)) ps = true -> evs = map IsFile ps)
    /\ (forall p ps', ps = p :: ps' -> is_file (files w) p = false ->
        evs = [IsFile p]).
Proof.
  revert w. induction ps as [|p ps IH]; intros w.
  - exists []. cbn. rewrite app_nil_r. destruct w. repeat split; try done.
  - cbn [all_isfile forallb]. unfold bind, os_path_isfile.
    destruct (is_file (files w) p) eqn:Hp.
    + destruct (IH (mk_world (files w) (trace w ++ [IsFile p])))
        as (evs & Heq & Hall & _ & Hhit & _).
      cbn [files trace] in *.
      exists (IsFile p :: evs). rewrite Heq, <- app_assoc. cbn.
      repeat split; try done.
      * constructor; [by eexists|done].
      * intros H. by rewrite (Hhit H).
      * intros p' ps' [= <- <-] H'. congruence.
    + exists [IsFile p]. cbn. repeat split; try done.
      * constructor; [by eexists|done].
      * intros p' ps' [= <- <-] _. done.
Qed.

Section Resolution.

Variable planner : list float -> Z -> Z -> bool -> list Z * list Z.

(** Without a cache directory the indexes are built and nothing is written;
    a negative size is refused by [np.zeros]. *)
Lemma build_indices_no_cache (self : Attrs) (w : world) :
  truthy (path_to_cache (config self)) = false ->
  _build_indices planner self w
  = if size self <? 0 then (Err ValueError, w)
    else (Ok (planned planner self),
          mk_world (files w) (trace w ++ [CallPlanner])).
Proof.
  intros Hp. unfold _build_indices, bind. rewrite Hp. cbn.
  unfold np_zeros, planned. destruct (size self <? 0); reflexivity.
Qed.

(** A miss with caching allowed: the indexes are built and the description
    and both indexes are written under the key. *)
Lemma build_indices_miss_allowed (self : Attrs) (w : world) :
  truthy (path_to_cache (config self)) = true ->
  cache_hit_in (files w) self = false ->
  caching_allowed self = true ->
  0 <= size self ->
  exists evs,
    _build_indices planner self w
    = (Ok (planned planner self),
       mk_world
         (<[path_to_dataset_sample_index self := NpyFile (snd (planned planner self))]>
            (<[path_to_dataset_index self := NpyFile (fst (planned planner self))]>
               (<[path_to_description self := TextFile (unique_description self)]>
                  (files w))))
         (trace w ++ evs
            ++ [CallPlanner;
                MakeDirs (default ""%string (path_to_cache (config self)));
                WriteText (path_to_description self);
                NpSave (path_to_dataset_index self);
                NpSave (path_to_dataset_sample_index self)]))
    /\ Forall (fun e => exists p, e = IsFile p) evs
    /\ evs <> [].
Proof.
  intros Hp Hmiss Hallowed Hsize.
  destruct (all_isfile_spec
              [path_to_description self; path_to_dataset_index self;
               path_to_dataset_sample_index self] w)
    as (evs & Heq & Hall & Hne & _).
  exists evs. split; [|split; [exact Hall|by apply Hne]].
  unfold _build_indices, bind. rewrite Hp, Heq.
  unfold cache_hit_in in Hmiss. rewrite Hmiss, Hallowed.
  cbn [negb orb andb]. unfold lift.
  rewrite !np_zeros_ok by done.
  unfold os_makedirs, log_event, write_text, np_save, ret, planned.
  cbn [files trace fst snd].
  rewrite <- !app_assoc. reflexivity.
Qed.

(** A hit, or a miss with caching not allowed: the two index artifacts are
    loaded, whatever they hold, and the planner is not called. *)
Lemma build_indices_load (self : Attrs) (w : world) :
  truthy (path_to_cache (config self)) = true ->
  cache_hit_in (files w) self = true \/ caching_allowed self = false ->
  exists evs,
    _build_indices planner self w
    = (let* dataset_index := np_load (path_to_dataset_index self) in
       let* dataset_sample_index := np_load (path_to_dataset_sample_index self) in
       ret (dataset_index, dataset_sample_index))
        (mk_world (files w) (trace w ++ evs))
    /\ Forall (fun e => exists p, e = IsFile p) evs
    /\ (cache_hit_in (files w) self = true ->
        evs = [IsFile (path_to_description self);
               IsFile (path_to_dataset_index self);
               IsFile (path_to_dataset_sample_index self)])
    /\ (is_file (files w) (path_to_description self) = false ->
        evs = [IsFile (path_to_description self)])
    /\ evs <> [].
Proof.
  intros Hp Hload.
  destruct (all_isfile_spec
              [path_to_description self; path_to_dataset_index self;
               path_to_dataset_sample_index self] w)
    as (evs & Heq & Hall & Hne & Hhit & Hfirst).
  exists evs. split; [|split; [exact Hall|split; [|split; [|by apply Hne]]]].
  - unfold _build_indices. unfold bind at 1. rewrite Hp, Heq.
    cbn [negb orb]. unfold cache_hit_in in Hload.
    assert (negb (forallb (is_file (files w))
                    [path_to_description self; path_to_dataset_index self;
                     path_to_dataset_sample_index self])
            && caching_allowed self = false) as ->; [|reflexivity].
    destruct Hload as [-> | ->]; [done|]. apply andb_false_r.
  - exact Hhit.
  - intros H. by eapply Hfirst.
Qed.

Lemma array_at_npy (fs : gmap string file) (p : string) (a : ndarray) :
  fs !! p = Some (NpyFile a) -> array_at fs p = Some a.
Proof. unfold array_at. by intros ->. Qed.

Lemma array_at_inv (fs : gmap string file) (p : string) (a : ndarray) :
  array_at fs p = Some a ->
  exists f, fs !! p = Some f /\ stored_array f = Some a.
Proof.
  unfold array_at. destruct (fs !! p) as [f|]; [|done].
  intros H. by exists f.
Qed.

(** Loading the two index artifacts. *)
Lemma load_indices_spec (p_index p_sample : string) (w : world) :
  let r := (let* dataset_index := np_load p_index in
            let* dataset_sample_index := np_load p_sample in
            ret (dataset_index, dataset_sample_index)) w in
  files (snd r) = files w
  /\ (forall plan, fst r = Ok plan <->
        array_at (files w) p_index = Some (fst plan)
        /\ array_at (files w) p_sample = Some (snd plan))
  /\ (files w !! p_index = None ->
      r = (Err FileNotFoundError, mk_world (files w) (trace w ++ [NpLoad p_index])))
  /\ (is_ok (fst r) = true ->
      trace (snd r) = trace w ++ [NpLoad p_index; NpLoad p_sample])
  /\ (exists more, trace (snd r) = trace w ++ more)
  /\ fst r <> Err AssertionError.
Proof.
  unfold bind, np_load, ret, array_at. cbn [files trace].
  destruct (files w !! p_index) as [[t|a|a]|] eqn:Hi;
    [destruct (String.eqb t "")| | |];
    cbn [fst snd files trace];
    try (destruct (files w !! p_sample) as [[t'|b|b]|] eqn:Hs;
         [destruct (String.eqb t' "")| | |]);
    cbn [fst snd files trace is_ok mbind option_bind stored_array];
    (split; [done|]);
    (split;
     [intros [a' b']; cbn [fst snd];
      split; [intros ?; by simplify_eq | intros [? ?]; by simplify_eq]|]);
    (split; [intros ?; by simplify_eq|]);
    (split; [intros ?; try done; by rewrite <- ?app_assoc|]);
    (split; [eexists; by rewrite <- ?app_assoc | done]).
Qed.

(** C2 (amended). With a cache directory configured, none of the three
    artifacts present under the key and caching not allowed, resolution
    probes the description, does not call the planner and writes nothing; it
    tries to load the index artifact and fails with the loader's
    [FileNotFoundError]. *)
Theorem miss_without_caching_attempts_load (self : Attrs) (w : world) :
  truthy (path_to_cache (config self)) = true ->
  files w !! path_to_description self = None ->
  files w !! path_to_dataset_index self = None ->
  files w !! path_to_dataset_sample_index self = None ->
  caching_allowed self = false ->
  _build_indices planner self w
  = (Err FileNotFoundError,
     mk_world (files w)
       (trace w ++ [IsFile (path_to_description self);
                    NpLoad (path_to_dataset_index self)])).
Proof.
  intros Hp Hdesc Hindex _ Hallowed.
  destruct (build_indices_load self w Hp (or_intror Hallowed))
    as (evs & Heq & _ & _ & Hfirst & _).
  rewrite Heq.
  rewrite Hfirst by (unfold is_file; rewrite Hdesc; done).
  destruct (load_indices_spec (path_to_dataset_index self)
              (path_to_dataset_sample_index self)
              (mk_world (files w) (trace w ++ [IsFile (path_to_description self)])))
    as (_ & _ & Hmissing & _).
  cbn [files trace] in Hmissing. rewrite (Hmissing Hindex).
  by rewrite <- app_assoc.
Qed.

(** What resolution leaves in the cache directory: nothing new, or, after a
    build under a key, the description and the two indexes built. *)
Lemma build_indices_files (self : Attrs) (w : world) :
  let r := _build_indices planner self w in
  files (snd r) = files w
  \/ (truthy (path_to_cache (config self)) = true
      /\ files (snd r)
         = <[path_to_dataset_sample_index self := NpyFile (snd (planned planner self))]>
             (<[path_to_dataset_index self := NpyFile (fst (planned planner self))]>
                (<[path_to_description self := TextFile (unique_description self)]>
                   (files w)))).
Proof.
  cbn zeta.
  destruct (truthy (path_to_cache (config self))) eqn:Hp.
  - destruct (cache_hit_in (files w) self) eqn:Hhit.
    + destruct (build_indices_load self w Hp (or_introl Hhit)) as (evs & -> & _).
      left. apply (load_indices_spec _ _ (mk_world (files w) (trace w ++ evs))).
    + destruct (caching_allowed self) eqn:Hallowed.
      * destruct (Z_lt_le_dec (size self) 0) as [Hneg|Hsize].
        -- left. unfold _build_indices, bind. rewrite Hp.
           destruct (all_isfile_spec
                       [path_to_description self; path_to_dataset_index self;
                        path_to_dataset_sample_index self] w)
             as (evs & -> & _).
           unfold cache_hit_in in Hhit. rewrite Hhit, Hallowed.
           cbn [negb orb andb]. unfold lift.
           by rewrite np_zeros_negative.
        -- right. split; [done|].
           destruct (build_indices_miss_allowed self w Hp Hhit Hallowed Hsize)
             as (evs & -> & _).
           done.
      * destruct (build_indices_load self w Hp (or_intror Hallowed))
          as (evs & -> & _).
        left. apply (load_indices_spec _ _ (mk_world (files w) (trace w ++ evs))).
  - left. rewrite (build_indices_no_cache self w Hp).
    by destruct (size self <? 0).
Qed.

(** Against a coherent cache a resolution that succeeds returns the indexes
    built for the configuration. *)
Lemma build_indices_coherent (self : Attrs) (w : world) (plan : ndarray * ndarray) :
  cache_coherent planner self (files w) ->
  fst (_build_indices planner self w) = Ok plan ->
  plan = planned planner self.
Proof.
  intros Hco Hok.
  destruct (truthy (path_to_cache (config self))) eqn:Hp.
  - assert (forall evs,
              fst ((let* dataset_index := np_load (path_to_dataset_index self) in
                    let* dataset_sample_index :=
                      np_load (path_to_dataset_sample_index self) in
                    ret (dataset_index, dataset_sample_index))
                     (mk_world (files w) (trace w ++ evs))) = Ok plan ->
              plan = planned planner self) as Hloaded.
    { intros evs H.
      apply (load_indices_spec _ _ (mk_world (files w) (trace w ++ evs))) in H.
      cbn [files] in H. destruct H as [Hi Hs].
      apply array_at_inv in Hi as (fi & Hi & Hai).
      apply array_at_inv in Hs as (fs & Hs & Has).
      destruct (Hco Hp) as [Hci Hcs].
      apply Hci in Hi. apply Hcs in Hs. subst fi fs.
      destruct plan as [a b], (planned planner self) as [a' b'].
      cbn in *. congruence. }
    destruct (cache_hit_in (files w) self) eqn:Hhit.
    + destruct (build_indices_load self w Hp (or_introl Hhit)) as (evs & Heq & _).
      rewrite Heq in Hok. by eapply Hloaded.
    + destruct (caching_allowed self) eqn:Hallowed.
      * destruct (Z_lt_le_dec (size self) 0) as [Hneg|Hsize].
        -- exfalso. revert Hok. unfold _build_indices, bind. rewrite Hp.
           destruct (all_isfile_spec
                       [path_to_description self; path_to_dataset_index self;
                        path_to_dataset_sample_index self] w)
             as (evs & -> & _).
           unfold cache_hit_in in Hhit. rewrite Hhit, Hallowed.
           cbn [negb orb andb]. unfold lift.
           by rewrite np_zeros_negative.
        -- destruct (build_indices_miss_allowed self w Hp Hhit Hallowed Hsize)
             as (evs & Heq & _).
           rewrite Heq in Hok. cbn in Hok. congruence.
      * destruct (build_indices_load self w Hp (or_intror Hallowed))
          as (evs & Heq & _).
        rewrite Heq in Hok. by eapply Hloaded.
  - rewrite (build_indices_no_cache self w Hp) in Hok.
    destruct (size self <? 0); cbn in Hok; congruence.
Qed.

(** Resolution keeps the cache coherent. *)
Lemma build_indices_keeps_coherent (self : Attrs) (w : world) :
  cache_coherent planner self (files w) ->
  cache_coherent planner self (files (snd (_build_indices planner self w))).
Proof.
  intros Hco.
  destruct (build_indices_files self w) as [-> | [Hp ->]]; [done|].
  destruct (artifact_paths_distinct self) as (Hdi & Hds & His).
  intros _. split; intros f Hf.
  - rewrite lookup_insert_ne in Hf by done.
    rewrite lookup_insert_eq in Hf. congruence.
  - rewrite lookup_insert_eq in Hf. congruence.
Qed.

(** The planner is handed the weights, the number of datasets and the size:
    the indexes built for two lists of sources that differ only in what the
    sources hold are the same. *)
Lemma planned_ignores_source_contents (self self' : Attrs) :
  weights self = weights self' ->
  length (datasets self) = length (datasets self') ->
  size self = size self' ->
  planned planner self = planned planner self'.
Proof. unfold planned. intros -> -> ->. reflexivity. Qed.

(** A cache directory without index artifacts under the key is coherent. *)
Lemma cache_coherent_fresh (self : Attrs) (fs : gmap string file) :
  fs !! path_to_dataset_index self = None ->
  fs !! path_to_dataset_sample_index self = None ->
  cache_coherent planner self fs.
Proof. intros Hi Hs _. rewrite Hi, Hs. by split. Qed.

(** C3 (amended). Two resolutions of identical configurations (the same
    sources, weights, size and description hash; any cache directory and
    caching flag), each against a file system whose index artifacts under
    the configuration's key, where present, hold the indexes built for it,
    return identical index arrays when both succeed; and a resolution leaves
    the file system in that condition for the next one. *)
Theorem resolution_deterministic
    (self : Attrs) (path1 path2 : option string) (allowed1 allowed2 : bool)
    (w1 w2 : world) (plan1 plan2 : ndarray * ndarray) :
  cache_coherent planner (with_cache self path1 allowed1) (files w1) ->
  cache_coherent planner (with_cache self path2 allowed2) (files w2) ->
  fst (_build_indices planner (with_cache self path1 allowed1) w1) = Ok plan1 ->
  fst (_build_indices planner (with_cache self path2 allowed2) w2) = Ok plan2 ->
  plan1 = plan2
  /\ forall allowed,
       cache_coherent planner (with_cache self path1 allowed)
         (files (snd (_build_indices planner (with_cache self path1 allowed1) w1))).
Proof.
  intros Hco1 Hco2 Hok1 Hok2. split.
  - rewrite (build_indices_coherent _ _ _ Hco1 Hok1).
    rewrite (build_indices_coherent _ _ _ Hco2 Hok2).
    reflexivity.
  - intros allowed.
    exact (build_indices_keeps_coherent (with_cache self path1 allowed1) w1 Hco1).
Qed.

(** C7. For a configuration of size [N >= 0] and a cache directory in which
    the artifacts of its key are not all present: resolving without a cache
    directory, resolving with the directory and caching allowed (a miss,
    which writes the three artifacts), and resolving again with the
    directory (a hit, which loads the two indexes and does not call the
    planner) return the same index arrays. *)
Theorem cache_round_trip
    (self : Attrs) (dir : string) (w : world) (allowed1 allowed3 : bool) :
  0 <= size self ->
  dir <> ""%string ->
  cache_hit_in (files w) (with_cache self (Some dir) true) = false ->
  let cached := with_cache self (Some dir) allowed3 in
  let r1 := _build_indices planner (with_cache self None allowed1) w in
  let r2 := _build_indices planner (with_cache self (Some dir) true) w in
  let r3 := _build_indices planner cached (snd r2) in
  exists plan,
    fst r1 = Ok plan /\ fst r2 = Ok plan /\ fst r3 = Ok plan
    /\ files (snd r1) = files w
    /\ cache_hit_in (files (snd r2)) cached = true
    /\ files (snd r3) = files (snd r2)
    /\ trace (snd r3)
       = trace (snd r2)
           ++ [IsFile (path_to_description cached);
               IsFile (path_to_dataset_index cached);
               IsFile (path_to_dataset_sample_index cached);
               NpLoad (path_to_dataset_index cached);
               NpLoad (path_to_dataset_sample_index cached)].
Proof.
  intros Hsize Hdir Hmiss. cbn zeta.
  set (self2 := with_cache self (Some dir) true) in *.
  set (cached := with_cache self (Some dir) allowed3).
  assert (truthy (path_to_cache (config self2)) = true) as Hp.
  { cbn. by apply negb_true_iff, String.eqb_neq. }
  exists (planned planner self).
  rewrite (build_indices_no_cache (with_cache self None allowed1) w eq_refl).
  cbn [size with_cache].
  rewrite (proj2 (Z.ltb_ge (size self) 0) Hsize). cbn [fst snd files].
  destruct (build_indices_miss_allowed self2 w Hp Hmiss eq_refl Hsize)
    as (evs & -> & _).
  cbn [fst snd].
  destruct (artifact_paths_distinct self2) as (Hdi & Hds & His).
  set (w2 := mk_world _ _).
  assert (files w2 !! path_to_description cached
          = Some (TextFile (unique_description self2))) as Hdesc.
  { unfold w2. cbn [files].
    rewrite !lookup_insert_ne by done. apply lookup_insert_eq. }
  assert (files w2 !! path_to_dataset_index cached
          = Some (NpyFile (fst (planned planner self2)))) as Hindex.
  { unfold w2. cbn [files].
    rewrite lookup_insert_ne by (intros E; by apply His).
    apply lookup_insert_eq. }
  assert (files w2 !! path_to_dataset_sample_index cached
          = Some (NpyFile (snd (planned planner self2)))) as Hsample.
  { unfold w2. cbn [files]. apply lookup_insert_eq. }
  assert (cache_hit_in (files w2) cached = true) as Hhit.
  { unfold cache_hit_in, is_file. cbn [forallb].
    rewrite Hdesc, Hindex, Hsample. done. }
  destruct (build_indices_load cached w2 Hp (or_introl Hhit))
    as (evs3 & -> & _ & Hevs & _).
  rewrite (Hevs Hhit).
  destruct (load_indices_spec (path_to_dataset_index cached)
              (path_to_dataset_sample_index cached)
              (mk_world (files w2)
                 (trace w2 ++ [IsFile (path_to_description cached);
                               IsFile (path_to_dataset_index cached);
                               IsFile (path_to_dataset_sample_index cached)])))
    as (Hfiles & Hplan & _ & Htrace & _).
  cbn zeta in Hfiles, Hplan, Htrace. cbn [files trace] in Hfiles, Hplan, Htrace.
  assert (fst ((let* dataset_index := np_load (path_to_dataset_index cached) in
                let* dataset_sample_index :=
                  np_load (path_to_dataset_sample_index cached) in
                ret (dataset_index, dataset_sample_index))
                 (mk_world (files w2)
                    (trace w2 ++ [IsFile (path_to_description cached);
                                  IsFile (path_to_dataset_index cached);
                                  IsFile (path_to_dataset_sample_index cached)])))
          = Ok (planned planner self)) as Hok.
  { apply Hplan. split; by apply array_at_npy. }
  repeat split; try done.
  rewrite Htrace by (by rewrite Hok).
  by rewrite <- app_assoc.
Qed.

End Resolution.

(** * Properties of indexing *)

Lemma py_index_outside {A : Type} (l : list A) (idx : Z) :
  idx < - Z.of_nat (length l) \/ Z.of_nat (length l) <= idx ->
  py_index l idx = Err IndexError.
Proof.
  intros H. unfold py_index.
  destruct (idx <? 0) eqn:Hneg.
  - apply Z.ltb_lt in Hneg.
    destruct (0 <=? idx + Z.of_nat (length l)) eqn:H0; [|done].
    apply Z.leb_le in H0. lia.
  - apply Z.ltb_ge in Hneg.
    destruct (idx <? Z.of_nat (length l)) eqn:H1.
    + apply Z.ltb_lt in H1. lia.
    + by rewrite andb_false_r.
Qed.

Lemma py_index_negative {A : Type} (l : list A) (idx : Z) :
  - Z.of_nat (length l) <= idx < 0 ->
  py_index l idx = py_index l (idx + Z.of_nat (length l)).
Proof.
  intros H. unfold py_index.
  rewrite (proj2 (Z.ltb_lt idx 0)) by lia.
  rewrite (proj2 (Z.ltb_ge (idx + Z.of_nat (length l)) 0)) by lia.
  reflexivity.
Qed.

Lemma py_index_inside {A : Type} (l : list A) (idx : Z) :
  0 <= idx < Z.of_nat (length l) -> is_ok (py_index l idx) = true.
Proof.
  intros H. unfold py_index.
  rewrite (proj2 (Z.ltb_ge idx 0)) by lia.
  rewrite (proj2 (Z.leb_le 0 idx)) by lia.
  rewrite (proj2 (Z.ltb_lt idx (Z.of_nat (length l)))) by lia.
  destruct (lookup_lt_is_Some_2 l (Z.to_nat idx)) as [a ->]; [lia|done].
Qed.

Lemma py_index_lookup {A : Type} (l : list A) (z : Z) (a : A) :
  0 <= z -> l !! Z.to_nat z = Some a -> py_index l z = Ok a.
Proof.
  intros Hz Ha. unfold py_index.
  pose proof (lookup_lt_Some _ _ _ Ha) as Hlt.
  rewrite (proj2 (Z.ltb_ge z 0)) by lia.
  rewrite (proj2 (Z.leb_le 0 z)) by lia.
  rewrite (proj2 (Z.ltb_lt z (Z.of_nat (length l)))) by lia.
  cbn. by rewrite Ha.
Qed.

(** C8 (amended). In a view of length [N] whose two index arrays hold [N]
    entries each (as whenever the planner built them), [get(i)] raises
    [IndexError] for every [i >= N] and every [i < -N]; for [-N <= i < 0]
    it is [get(i + N)]: a negative index counts from the end. *)
Theorem getitem_outside_range (self : BlendedDataset) (i : Z) :
  np_len (dataset_index self) = __len__ self ->
  np_len (dataset_sample_index self) = __len__ self ->
  (i < - __len__ self \/ __len__ self <= i ->
   __getitem__ self i = Err OutOfRangeError)
  /\ (- __len__ self <= i < 0 ->
      __getitem__ self i = __getitem__ self (i + __len__ self)).
Proof.
  unfold np_len, __len__. intros Hi Hs. split; intros H.
  - unfold __getitem__, np_getitem.
    rewrite py_index_outside by lia. reflexivity.
  - unfold __getitem__, np_getitem.
    rewrite (py_index_negative (data (dataset_index self))) by lia.
    rewrite (py_index_negative (data (dataset_sample_index self))) by lia.
    by rewrite Hi, Hs.
Qed.

(** * Properties of the constructor *)

(** * The entries of a resolved plan *)

Lemma np_wrap_id (d : np_dtype) (z : Z) :
  - 2 ^ (np_bits d - 1) <= z < 2 ^ (np_bits d - 1) -> np_wrap d z = z.
Proof.
  intros H. unfold np_wrap.
  assert (2 ^ np_bits d = 2 * 2 ^ (np_bits d - 1)) as E
    by (destruct d; reflexivity).
  rewrite Z.mod_small by lia. lia.
Qed.

(** A planner that writes one value per cell fills the whole buffer. *)
Lemma np_fill_exact (d : np_dtype) (n : nat) (vals : list Z) :
  length vals = n ->
  data (np_fill (mk_ndarray d (replicate n 0)) vals) = map (np_wrap d) vals.
Proof.
  intros H. unfold np_fill. cbn [data dtype].
  rewrite length_replicate, <- H.
  rewrite take_ge by lia.
  rewrite drop_ge by (rewrite length_replicate; lia).
  apply app_nil_r.
Qed.

(** The planner of the specification, handed the lengths of sources none of
    which is empty, writes a blend plan for them. *)
Lemma spec_planner_plan_ok (ls : list Z) (ws : list float) (k size : Z) (v : bool) :
  ws <> [] -> length ls = length ws -> Forall (fun L => 0 < L) ls ->
  plan_ok (length ws) ls (Z.to_nat size) (planner_for ls ws k size v).
Proof.
  intros Hws Hlen Hpos. unfold plan_ok, planner_for, build. cbn [fst snd].
  rewrite run_source_index_length, run_sample_index_length.
  split; [done|]. split; [done|].
  rewrite <- (length_map float_to_Q ws).
  apply run_entries_ok.
  - destruct ws; [done|]. discriminate.
  - split; [by rewrite length_map|done].
Qed.

Section ResolvedPlan.

Variable planner : list float -> Z -> Z -> bool -> list Z * list Z.

(** C5 (amended). Let the cache directory be coherent with the
    configuration, the number [K] of sources be below 32767 and their
    lengths within [int64], and let the planner, called as
    [_build_indices] calls it, write a blend plan of [size] entries for the
    lengths of the sources. Then in a plan that resolution returns, built or
    loaded, every index [i] in [0, size) holds a source index [s] with
    [0 <= s < K] and a sample index [x] with
    [0 <= x < length(sources[s])]. *)
Theorem resolved_plan_entry_invariant
    (self : Attrs) (w : world) (di dsi : ndarray) :
  Z.of_nat (length (datasets self)) < np_iinfo_max int16 ->
  Forall (fun d => ds_len d <= 2 ^ 63) (datasets self) ->
  plan_ok (length (datasets self)) (map ds_len (datasets self))
    (Z.to_nat (size self))
    (planner (weights self) (Z.of_nat (length (datasets self))) (size self)
       _VERBOSE) ->
  cache_coherent planner self (files w) ->
  fst (_build_indices planner self w) = Ok (di, dsi) ->
  forall i, 0 <= i < size self ->
    exists s x d,
      np_getitem di i = Ok s
      /\ np_getitem dsi i = Ok x
      /\ py_index (datasets self) s = Ok d
      /\ 0 <= s < Z.of_nat (length (datasets self))
      /\ 0 <= x < ds_len d.
Proof.
  intros HK Hlens (Hl1 & Hl2 & Hall) Hco Hok i Hi.
  pose proof (build_indices_coherent planner self w _ Hco Hok) as E.
  unfold planned in E. injection E as -> ->.
  set (out := planner (weights self) (Z.of_nat (length (datasets self)))
                (size self) _VERBOSE) in *.
  unfold np_getitem. rewrite !np_fill_exact by done.
  destruct (lookup_lt_is_Some_2 (fst out) (Z.to_nat i)) as [s Hs]; [lia|].
  destruct (lookup_lt_is_Some_2 (snd out) (Z.to_nat i)) as [x Hx]; [lia|].
  assert (entry_ok (length (datasets self)) (map ds_len (datasets self)) (s, x))
    as [Hsr Hxr].
  { rewrite Forall_forall in Hall. apply Hall.
    apply list_elem_of_lookup. exists (Z.to_nat i).
    rewrite lookup_zip_with, Hs. cbn. by rewrite Hx. }
  cbn [fst snd] in Hsr, Hxr.
  destruct (lookup_lt_is_Some_2 (datasets self) (Z.to_nat s)) as [d Hd]; [lia|].
  rewrite nth_lookup, list_lookup_fmap, Hd in Hxr. cbn in Hxr.
  assert (ds_len d <= 2 ^ 63) as Hdlen.
  { rewrite Forall_forall in Hlens. apply Hlens.
    by eapply list_elem_of_lookup_2. }
  change (np_iinfo_max int16) with 32767 in HK.
  exists s, x, d.
  split; [|split; [|split; [|done]]].
  - apply py_index_lookup; [lia|].
    rewrite list_lookup_fmap, Hs. cbn. f_equal.
    apply np_wrap_id. change (2 ^ (np_bits int16 - 1)) with 32768. lia.
  - apply py_index_lookup; [lia|].
    rewrite list_lookup_fmap, Hx. cbn. f_equal.
    apply np_wrap_id. change (2 ^ (np_bits int64 - 1)) with (2 ^ 63). lia.
  - apply py_index_lookup; [lia|done].
Qed.

(** Whatever the planner, the indexes built for a source of one item are
    those built for a source of two: if it cycles through the two items, as
    the scenario of the specification asks, its second draw from the source
    of one item is out of range. *)
Lemma planner_cannot_see_lengths (self1 self2 : Attrs) (d1 d2 : MegatronDataset) :
  datasets self1 = [d1] -> datasets self2 = [d2] ->
  ds_len d1 = 1 -> ds_len d2 = 2 ->
  weights self1 = weights self2 -> size self1 = size self2 ->
  snd (planned planner self2) = mk_ndarray int64 [0; 1; 0; 1] ->
  np_getitem (snd (planned planner self1)) 1 = Ok 1
  /\ ~ (1 < ds_len d1).
Proof.
  intros H1 H2 Hd1 Hd2 Hw Hs Hplan.
  rewrite (planned_ignores_source_contents planner self1 self2 Hw) by
    (by rewrite ?H1, ?H2).
  rewrite Hplan. split; [reflexivity|lia].
Qed.

End ResolvedPlan.

Lemma same_type_as_first_true (ds : list MegatronDataset) (d1 d2 : MegatronDataset) :
  same_type_as_first ds = true -> d1 ∈ ds -> d2 ∈ ds ->
  ds_class d1 = ds_class d2.
Proof.
  unfold same_type_as_first. intros H H1 H2.
  destruct ds as [|d0 ds']; [by apply elem_of_nil in H1|].
  rewrite forallb_forall in H.
  apply list_elem_of_In in H1, H2.
  apply H in H1, H2. apply String.eqb_eq in H1, H2. congruence.
Qed.

Section Construction.

Variable normalize : list float -> list float.
Variable planner : list float -> Z -> Z -> bool -> list Z * list Z.
Variable json_dumps : UniqueIdentifiers -> string.
Variable md5_hexdigest : string -> string.

Local Abbreviation init := (__init__ normalize planner json_dumps md5_hexdigest).
Local Abbreviation attrs_of := (init_attrs normalize json_dumps md5_hexdigest).

(** A failed check on the arguments raises before anything else happens. *)
Lemma init_rejects (datasets : list MegatronDataset) (weights : list float)
    (size : Z) (config : BlendedMegatronDatasetConfig) (allowed : bool) (w : world) :
  arguments_ok datasets weights = false ->
  init datasets weights size config allowed w = (Err AssertionError, w).
Proof.
  unfold arguments_ok, __init__, bind, py_assert. intros H.
  destruct (Z.of_nat (length datasets) <? np_iinfo_max int16); [|done].
  destruct (Nat.eqb (length datasets) (length weights)); [|done].
  destruct (np_isclose (py_sum weights) 1); [|done].
  destruct (same_type_as_first datasets); [|done].
  discriminate H.
Qed.

(** Once the checks pass, the indices are resolved and the size is checked. *)
Lemma init_accepts (datasets : list MegatronDataset) (weights : list float)
    (size : Z) (config : BlendedMegatronDatasetConfig) (allowed : bool) (w : world) :
  arguments_ok datasets weights = true ->
  init datasets weights size config allowed w
  = (let self := attrs_of datasets weights size config allowed in
     let* indices := _build_indices planner self in
     check_size (mk_blended self (fst indices) (snd indices))) w.
Proof.
  unfold arguments_ok, __init__. intros H.
  apply andb_prop in H as [H H4]. apply andb_prop in H as [H H3].
  apply andb_prop in H as [H1 H2].
  rewrite H1, H2, H3, H4. reflexivity.
Qed.

(** The size check reads the view and leaves the file system alone. *)
Lemma check_size_spec (self : BlendedDataset) (w : world) :
  snd (check_size self w) = w
  /\ (forall s, fst (check_size self w) = Ok s <->
        s = self
        /\ is_ok (__getitem__ self (size self - 1)) = true
        /\ __getitem__ self (size self) = Err IndexError)
  /\ (forall e, __getitem__ self (size self - 1) = Err e ->
        fst (check_size self w) = Err e)
  /\ (is_ok (__getitem__ self (size self - 1)) = true ->
      is_ok (__getitem__ self (size self)) = true ->
      fst (check_size self w) = Err RuntimeError).
Proof.
  unfold check_size, bind, lift, raise, ret.
  destruct (__getitem__ self (size self - 1)) as [r1|e1]; cbn.
  - destruct (__getitem__ self (size self)) as [r2|[]]; cbn;
      repeat split; intros; destruct_and?; by simplify_eq.
  - repeat split; intros; destruct_and?; by simplify_eq.
Qed.

(** What a successful construction has established. *)
Lemma init_ok_inv (datasets : list MegatronDataset) (weights : list float)
    (size : Z) (config : BlendedMegatronDatasetConfig) (allowed : bool)
    (w w' : world) (self : BlendedDataset) :
  init datasets weights size config allowed w = (Ok self, w') ->
  arguments_ok datasets weights = true
  /\ attrs self = attrs_of datasets weights size config allowed
  /\ _build_indices planner (attrs self) w
     = (Ok (dataset_index self, dataset_sample_index self), w')
  /\ __len__ self = size
  /\ is_ok (__getitem__ self (size - 1)) = true
  /\ __getitem__ self size = Err OutOfRangeError.
Proof.
  intros H.
  destruct (arguments_ok datasets weights) eqn:Hargs.
  2:{ rewrite init_rejects in H by done. discriminate H. }
  rewrite init_accepts in H by done. cbn zeta in H. unfold bind in H.
  set (a := attrs_of datasets weights size config allowed) in *.
  destruct (_build_indices planner a w) as [[[di dsi]|e] w1] eqn:Hb;
    [|discriminate H].
  cbn [fst snd] in H.
  destruct (check_size_spec (mk_blended a di dsi) w1) as (Hw & Hok & _).
  destruct (check_size (mk_blended a di dsi) w1) as [r w2].
  cbn [fst snd] in *. injection H as -> ->. subst w1.
  destruct (proj1 (Hok self) eq_refl) as (-> & H1 & H2).
  cbn [attrs dataset_index dataset_sample_index]. repeat split; done.
Qed.


(** Against 1 the tolerance of [np.isclose] is the float
    [1.0010000000000001e-05], the rounded [1e-08 + 1e-05 * 1]. *)
Lemma np_isclose_one (a : float) :
  np_isclose a 1
  = (PrimFloat.leb (PrimFloat.abs (a - 1)) 1.0010000000000001e-05
     || PrimFloat.eqb a 1)%float.
Proof.
  unfold np_isclose. cbv zeta.
  change (PrimFloat.is_finite 1) with true. by rewrite andb_true_r.
Qed.


(** C10. A configuration that mixes two source datasets of different
    concrete classes is rejected by an assertion at construction. *)
Theorem constructor_rejects_mixed_classes
    (datasets : list MegatronDataset) (weights : list float) (size : Z)
    (config : BlendedMegatronDatasetConfig) (allowed : bool) (w : world)
    (d1 d2 : MegatronDataset) :
  d1 ∈ datasets -> d2 ∈ datasets -> ds_class d1 <> ds_class d2 ->
  init datasets weights size config allowed w = (Err AssertionError, w).
Proof.
  intros H1 H2 Hne. apply init_rejects. unfold arguments_ok.
  destruct (same_type_as_first datasets) eqn:Hsame.
  - exfalso. apply Hne. by eapply same_type_as_first_true.
  - by rewrite andb_false_r.
Qed.

(** Indexes built without a cache directory hold exactly [size] entries. *)
Lemma built_plan_has_size (datasets : list MegatronDataset) (weights : list float)
    (n : Z) (config : BlendedMegatronDatasetConfig) (allowed : bool)
    (w w' : world) (self : BlendedDataset) :
  init datasets weights n config allowed w = (Ok self, w') ->
  truthy (path_to_cache config) = false ->
  np_len (dataset_index self) = __len__ self
  /\ np_len (dataset_sample_index self) = __len__ self.
Proof.
  intros H Hp.
  destruct (init_ok_inv _ _ _ _ _ _ _ _ H) as (_ & Ha & Hb & Hlen & _).
  rewrite build_indices_no_cache in Hb by (by rewrite Ha).
  unfold __len__ in *.
  destruct (size self <? 0) eqn:Hneg; [discriminate Hb|].
  apply Z.ltb_ge in Hneg.
  injection Hb as Hdi Hdsi _. rewrite <- Hdi, <- Hdsi.
  unfold np_len, planned. cbn [fst snd].
  rewrite !np_fill_length. cbn [data]. rewrite length_replicate. lia.
Qed.

(** C4. The size check does not turn a failed read of the last index into
    [RuntimeError]. With a cache directory whose artifacts under the key
    hold index arrays of one entry and a configuration of size 2, the read
    of index 1 raises and construction fails with [IndexError]; and a
    configuration of size 0 without a cache directory fails with
    [IndexError] at the read of index -1. *)
Theorem size_check_raises_index_error (allowed : bool) (w : world) :
  let self := attrs_of [ds_a] [1%float] 2 (mk_config (Some "cache"%string)) false in
  let cache :=
    <[path_to_dataset_sample_index self := NpyFile (mk_ndarray int64 [0])]>
      (<[path_to_dataset_index self := NpyFile (mk_ndarray int16 [0])]>
         (<[path_to_description self := TextFile (unique_description self)]>
            (files w))) in
  fst (init [ds_a] [1%float] 2 (mk_config (Some "cache"%string)) false
         (mk_world cache (trace w)))
  = Err IndexError
  /\ fst (init [ds_a] [1%float] 0 (mk_config None) allowed w) = Err IndexError.
Proof.
  cbn zeta. split.
  - set (self := attrs_of [ds_a] [1%float] 2 (mk_config (Some "cache"%string)) false).
    set (w1 := mk_world _ _).
    rewrite init_accepts by reflexivity. cbn zeta. fold self. unfold bind.
    destruct (artifact_paths_distinct self) as (Hdi & Hds & His).
    assert (files w1 !! path_to_description self
            = Some (TextFile (unique_description self))) as Hdesc.
    { unfold w1. cbn [files].
      rewrite !lookup_insert_ne by done. apply lookup_insert_eq. }
    assert (files w1 !! path_to_dataset_index self
            = Some (NpyFile (mk_ndarray int16 [0]))) as Hindex.
    { unfold w1. cbn [files].
      rewrite lookup_insert_ne by (intros E; by apply His).
      apply lookup_insert_eq. }
    assert (files w1 !! path_to_dataset_sample_index self
            = Some (NpyFile (mk_ndarray int64 [0]))) as Hsample.
    { unfold w1. cbn [files]. apply lookup_insert_eq. }
    assert (cache_hit_in (files w1) self = true) as Hhit.
    { unfold cache_hit_in, is_file. cbn [forallb].
      rewrite Hdesc, Hindex, Hsample. done. }
    destruct (build_indices_load planner self w1 eq_refl (or_introl Hhit))
      as (evs & -> & _).
    destruct (load_indices_spec (path_to_dataset_index self)
                (path_to_dataset_sample_index self)
                (mk_world (files w1) (trace w1 ++ evs)))
      as (_ & Hplan & _).
    cbn zeta in Hplan. cbn [files] in Hplan.
    specialize (Hplan (mk_ndarray int16 [0], mk_ndarray int64 [0])).
    destruct ((let* dataset_index := np_load (path_to_dataset_index self) in
               let* dataset_sample_index :=
                 np_load (path_to_dataset_sample_index self) in
               ret (dataset_index, dataset_sample_index))
                (mk_world (files w1) (trace w1 ++ evs))) as [r w2].
    cbn [fst] in Hplan.
    rewrite (proj2 Hplan) by (split; by apply array_at_npy).
    cbn [fst snd].
    by apply (check_size_spec
                (mk_blended self (mk_ndarray int16 [0]) (mk_ndarray int64 [0])) w2).
  - rewrite init_accepts by reflexivity. cbn zeta. unfold bind.
    rewrite build_indices_no_cache by reflexivity.
    change (size (attrs_of [ds_a] [1%float] 0 (mk_config None) allowed) <? 0)
      with false.
    cbn [fst snd].
    apply check_size_spec.
    unfold __getitem__, np_getitem.
    rewrite py_index_outside; [done|].
    unfold planned. cbn [fst dataset_index].
    rewrite np_fill_length. cbn [data size attrs init_attrs].
    rewrite length_replicate. lia.
Qed.

End Construction.

(** * The model at concrete configurations *)

(** At the blend of [ds_a] and [ds_b] with an empty cache directory. *)
Lemma miss_without_caching_attempts_load_witness :
  let self :=
    init_attrs normalize_weights example_dumps example_digest [ds_a; ds_b]
      [0.6; 0.4]%float 5 (mk_config (Some "cache"%string)) false in
  _build_indices (planner_for [3; 2]) self empty_world
  = (Err FileNotFoundError,
     mk_world (files empty_world)
       (trace empty_world ++ [IsFile (path_to_description self);
                              NpLoad (path_to_dataset_index self)])).
Proof.
  cbn zeta.
  apply (miss_without_caching_attempts_load (planner_for [3; 2])
           (init_attrs normalize_weights example_dumps example_digest
              [ds_a; ds_b] [0.6; 0.4]%float 5
              (mk_config (Some "cache"%string)) false)
           empty_world);
    reflexivity.
Defined.

(** C2, as stated, fails: with the directory empty and caching not allowed,
    resolution tries to load the index artifact and the error is the
    loader's, not [CacheUnavailableError]. *)
Lemma miss_without_caching_reads_missing_artifact :
  let self :=
    init_attrs normalize_weights example_dumps example_digest [ds_a; ds_b]
      [0.6; 0.4]%float 5 (mk_config (Some "cache"%string)) false in
  let r := _build_indices (planner_for [3; 2]) self empty_world in
  cache_hit_in (files empty_world) self = false
  /\ fst r = Err FileNotFoundError
  /\ fst r <> Err CacheUnavailableError
  /\ trace (snd r)
     = [IsFile "cache/BlendedDataset,a,b-BlendedDataset-description.txt";
        NpLoad "cache/BlendedDataset,a,b-BlendedDataset-dataset_index.npy"].
Proof.
  cbn zeta. split; [|split; [|split]].
  - vm_compute. reflexivity.
  - vm_compute. reflexivity.
  - vm_compute. discriminate.
  - vm_compute. reflexivity.
Qed.

(** A miss that persists the indexes, compared with a resolution without a
    cache directory. *)
Lemma resolution_deterministic_witness :
  let self :=
    init_attrs normalize_weights example_dumps example_digest [ds_b]
      [1%float] 2 (mk_config None) true in
  let plan := (mk_ndarray int16 [0; 0], mk_ndarray int64 [0; 1]) in
  plan = plan
  /\ forall allowed,
       cache_coherent (planner_for [2])
         (with_cache self (Some "cache"%string) allowed)
         (files (snd (_build_indices (planner_for [2])
                        (with_cache self (Some "cache"%string) true)
                        empty_world))).
Proof.
  cbn zeta.
  apply (resolution_deterministic (planner_for [2])
           (init_attrs normalize_weights example_dumps example_digest [ds_b]
              [1%float] 2 (mk_config None) true)
           (Some "cache"%string) None true false empty_world empty_world).
  - apply cache_coherent_fresh; reflexivity.
  - intros Hp. discriminate Hp.
  - vm_compute. reflexivity.
  - vm_compute. reflexivity.
Defined.

(** C3, as stated, fails: the same configuration resolved without a cache
    directory and resolved against a directory whose artifacts under its
    key hold other arrays yields different sample indexes, and the view
    constructed from that directory passes the size check. *)
Lemma stale_cache_breaks_determinism :
  let self path allowed :=
    init_attrs normalize_weights example_dumps example_digest [ds_b]
      [1%float] 2 (mk_config path) allowed in
  let cached := self (Some "cache"%string) false in
  let stale :=
    mk_world
      (<[path_to_dataset_sample_index cached := NpyFile (mk_ndarray int64 [1; 0])]>
         (<[path_to_dataset_index cached := NpyFile (mk_ndarray int16 [0; 0])]>
            (<[path_to_description cached := TextFile (unique_description cached)]>
               ∅))) [] in
  fst (_build_indices (planner_for [2]) (self None false) empty_world)
  = Ok (mk_ndarray int16 [0; 0], mk_ndarray int64 [0; 1])
  /\ fst (_build_indices (planner_for [2]) cached stale)
     = Ok (mk_ndarray int16 [0; 0], mk_ndarray int64 [1; 0])
  /\ match fst (__init__ normalize_weights (planner_for [2]) example_dumps
                  example_digest [ds_b] [1%float] 2
                  (mk_config (Some "cache"%string)) false stale) with
     | Ok view => dataset_sample_index view = mk_ndarray int64 [1; 0]
     | Err _ => False
     end.
Proof.
  cbn zeta. split; [|split]; vm_compute; reflexivity.
Qed.

(** The single source [ds_b] of two items drawn four times, without a cache
    directory, by the planner of the specification. *)
Lemma resolved_plan_entry_invariant_witness :
  let self :=
    init_attrs normalize_weights example_dumps example_digest [ds_b]
      [1%float] 4 (mk_config None) true in
  fst (_build_indices (planner_for [2]) self empty_world)
  = Ok (mk_ndarray int16 [0; 0; 0; 0], mk_ndarray int64 [0; 1; 0; 1])
  /\ forall i, 0 <= i < 4 ->
       exists s x d,
         np_getitem (mk_ndarray int16 [0; 0; 0; 0]) i = Ok s
         /\ np_getitem (mk_ndarray int64 [0; 1; 0; 1]) i = Ok x
         /\ py_index [ds_b] s = Ok d
         /\ 0 <= s < 1
         /\ 0 <= x < ds_len d.
Proof.
  cbn zeta. split; [reflexivity|].
  apply (resolved_plan_entry_invariant (planner_for [2])
           (init_attrs normalize_weights example_dumps example_digest [ds_b]
              [1%float] 4 (mk_config None) true)
           empty_world).
  - reflexivity.
  - repeat constructor. cbn. lia.
  - split; [reflexivity|]. split; [reflexivity|].
    match goal with
    | |- Forall _ ?l => let l' := eval vm_compute in l in change l with l'
    end.
    repeat (apply Forall_cons_2; [split; cbv -[Z.le Z.lt]; lia|]).
    apply Forall_nil_2.
  - intros H. discriminate H.
  - reflexivity.
Defined.

(** C5, as stated, fails: a cache directory whose artifacts under the key of
    the single source [ds_b], of two items, hold the sample index [7, 0].
    Construction loads them, the size check passes, and entry 0 of the view
    names an item the source does not have. *)
Lemma stale_plan_entry_out_of_range :
  let cached :=
    init_attrs normalize_weights example_dumps example_digest [ds_b]
      [1%float] 2 (mk_config (Some "cache"%string)) false in
  let stale :=
    mk_world
      (<[path_to_dataset_sample_index cached := NpyFile (mk_ndarray int64 [7; 0])]>
         (<[path_to_dataset_index cached := NpyFile (mk_ndarray int16 [0; 0])]>
            (<[path_to_description cached := TextFile (unique_description cached)]>
               ∅))) [] in
  ds_len ds_b = 2
  /\ match fst (__init__ normalize_weights (planner_for [2]) example_dumps
                  example_digest [ds_b] [1%float] 2
                  (mk_config (Some "cache"%string)) false stale) with
     | Ok view =>
         __len__ view = 2
         /\ np_getitem (dataset_index view) 0 = Ok 0
         /\ np_getitem (dataset_sample_index view) 0 = Ok 7
         /\ __getitem__ view 0 = Err IndexError
     | Err _ => False
     end.
Proof.
  cbn zeta. split; [reflexivity|]. vm_compute. repeat split; reflexivity.
Qed.

(** The round trip for the single source [ds_b] drawn twice. *)
Lemma cache_round_trip_witness :
  let self :=
    init_attrs normalize_weights example_dumps example_digest [ds_b]
      [1%float] 2 (mk_config None) true in
  let cached := with_cache self (Some "cache"%string) false in
  let r1 := _build_indices (planner_for [2]) (with_cache self None true)
              empty_world in
  let r2 := _build_indices (planner_for [2])
              (with_cache self (Some "cache"%string) true) empty_world in
  let r3 := _build_indices (planner_for [2]) cached (snd r2) in
  exists plan,
    fst r1 = Ok plan /\ fst r2 = Ok plan /\ fst r3 = Ok plan
    /\ files (snd r1) = files empty_world
    /\ cache_hit_in (files (snd r2)) cached = true
    /\ files (snd r3) = files (snd r2)
    /\ trace (snd r3)
       = trace (snd r2)
           ++ [IsFile (path_to_description cached);
               IsFile (path_to_dataset_index cached);
               IsFile (path_to_dataset_sample_index cached);
               NpLoad (path_to_dataset_index cached);
               NpLoad (path_to_dataset_sample_index cached)].
Proof.
  cbn zeta.
  apply (cache_round_trip (planner_for [2])
           (init_attrs normalize_weights example_dumps example_digest [ds_b]
              [1%float] 2 (mk_config None) true)
           "cache"%string empty_world true false).
  - vm_compute. discriminate.
  - discriminate.
  - vm_compute. reflexivity.
Defined.

(** The view of the blend of [ds_a] and [ds_b], read at index -1. *)
Lemma getitem_outside_range_witness :
  let self :=
    mk_blended
      (init_attrs normalize_weights example_dumps example_digest [ds_a; ds_b]
         [0.6; 0.4]%float 5 (mk_config None) true)
      (mk_ndarray int16 [0; 1; 0; 1; 0]) (mk_ndarray int64 [0; 0; 1; 1; 2]) in
  (-1 < - __len__ self \/ __len__ self <= -1 ->
   __getitem__ self (-1) = Err OutOfRangeError)
  /\ (- __len__ self <= -1 < 0 ->
      __getitem__ self (-1) = __getitem__ self (-1 + __len__ self)).
Proof.
  cbn zeta.
  apply (getitem_outside_range
           (mk_blended
              (init_attrs normalize_weights example_dumps example_digest
                 [ds_a; ds_b] [0.6; 0.4]%float 5 (mk_config None) true)
              (mk_ndarray int16 [0; 1; 0; 1; 0])
              (mk_ndarray int64 [0; 0; 1; 1; 2]))
           (-1)); reflexivity.
Defined.

(** C8, as stated, fails: the view of length 5 constructed without a cache
    directory returns its last record at index -1; and a view of length 1
    constructed from a cache directory holding three-entry indexes returns a
    record at index 2. *)
Lemma negative_index_returns_record :
  let stale :=
    let cached :=
      init_attrs normalize_weights example_dumps example_digest [ds_b]
        [1%float] 1 (mk_config (Some "cache"%string)) false in
    mk_world
      (<[path_to_dataset_sample_index cached := NpyFile (mk_ndarray int64 [0; 0; 0])]>
         (<[path_to_dataset_index cached := NpyFile (mk_ndarray int16 [0; 5; 0])]>
            (<[path_to_description cached := TextFile (unique_description cached)]>
               ∅))) [] in
  match fst (__init__ normalize_weights (planner_for [3; 2]) example_dumps
               example_digest [ds_a; ds_b] [0.6; 0.4]%float 5
               (mk_config None) true empty_world) with
  | Ok view =>
      __len__ view = 5
      /\ __getitem__ view (-1)
         = Ok [("dataset_id"%string, PyInt 0); ("text"%string, PyArray [2])]
  | Err _ => False
  end
  /\ match fst (__init__ normalize_weights (planner_for [2]) example_dumps
                  example_digest [ds_b] [1%float] 1
                  (mk_config (Some "cache"%string)) false stale) with
     | Ok view =>
         __len__ view = 1
         /\ __getitem__ view 2
            = Ok [("dataset_id"%string, PyInt 0); ("text"%string, PyArray [0])]
     | Err _ => False
     end.
Proof.
  cbn zeta. split; vm_compute; split; reflexivity.
Qed.


(** The tolerance test is made on the rounded sum, against a tolerance of
    about [1e-05]: the floats [0.5] and [0.5000100099999999] add up to
    [1.00001001], which fails the test although their exact sum is within
    [1e-08 + 1e-05] of 1; [0.5] and [0.500005], five parts in a million
    above 1, pass it and the blend is constructed. *)
Lemma tolerance_test_in_binary64 :
  py_sum [0.5; 0.5000100099999999]%float = 1.00001001%float
  /\ np_isclose (py_sum [0.5; 0.5000100099999999]%float) 1 = false
  /\ Qle_bool
       (Qabs (float_to_Q 0.5 + float_to_Q 0.5000100099999999 - 1))
       ((1 # 100000000) + (1 # 100000)) = true
  /\ __init__ normalize_weights (planner_for [3; 2]) example_dumps
       example_digest [ds_a; ds_b] [0.5; 0.5000100099999999]%float 5
       (mk_config None) true empty_world
     = (Err ConfigError, empty_world)
  /\ np_isclose (py_sum [0.5; 0.500005]%float) 1 = true
  /\ is_ok (fst (__init__ normalize_weights (planner_for [3; 2]) example_dumps
                   example_digest [ds_a; ds_b] [0.5; 0.500005]%float 5
                   (mk_config None) true empty_world)) = true.
Proof. repeat split; vm_compute; reflexivity. Qed.

(** A blend of a [GPTDataset] and a [T5Dataset]. *)
Lemma constructor_rejects_mixed_classes_witness :
  __init__ normalize_weights (planner_for [3; 4]) example_dumps example_digest
    [ds_a; ds_c] [0.5; 0.5]%float 5 (mk_config None) true empty_world
  = (Err AssertionError, empty_world).
Proof.
  apply (constructor_rejects_mixed_classes normalize_weights (planner_for [3; 4])
           example_dumps example_digest [ds_a; ds_c] [0.5; 0.5]%float 5
           (mk_config None) true empty_world ds_a ds_c).
  - apply list_elem_of_here.
  - apply list_elem_of_further, list_elem_of_here.
  - discriminate.
Defined.

(** * Further properties of [BlendedDataset] *)

(** ** Samples *)

Lemma dict_get_set (d : sample) (k k' : string) (v : pyvalue) :
  dict_get (dict_set d k v) k'
  = if String.eqb k' k then Some v else dict_get d k'.
Proof.
  induction d as [|[k0 v0] d IH]; cbn.
  - destruct (String.eqb k' k); reflexivity.
  - destruct (String.eqb k k0) eqn:Hk0; cbn.
    + apply String.eqb_eq in Hk0 as ->.
      destruct (String.eqb k' k0); reflexivity.
    + rewrite IH.
      destruct (String.eqb k' k0) eqn:Hk'; [|reflexivity].
      apply String.eqb_eq in Hk' as ->.
      rewrite String.eqb_sym in Hk0. by rewrite Hk0.
Qed.

(** Unpacking [more] into [d]: a key of [more] reads as [more] has it, any
    other key as [d] has it. *)
Lemma dict_get_unpack (more d : sample) (k : string) :
  NoDup (map fst more) ->
  dict_get (dict_unpack d more) k
  = match dict_get more k with
    | Some v => Some v
    | None => dict_get d k
    end.
Proof.
  unfold dict_unpack. revert d.
  induction more as [|[k0 v0] more IH]; intros d Hnd; [reflexivity|].
  cbn [fold_left fst snd dict_get].
  apply NoDup_cons in Hnd as [Hnotin Hnd].
  rewrite (IH _ Hnd), dict_get_set.
  destruct (String.eqb k k0) eqn:Hk; [|reflexivity].
  apply String.eqb_eq in Hk as ->.
  destruct (dict_get more k0) as [v|] eqn:Hget; [|reflexivity].
  exfalso. apply Hnotin. clear -Hget.
  induction more as [|[k1 v1] more IH]; [discriminate|].
  cbn in Hget |- *.
  destruct (String.eqb k0 k1) eqn:Hk.
  - apply String.eqb_eq in Hk as ->. apply list_elem_of_here.
  - apply list_elem_of_further. by apply IH.
Qed.

(** X1. A read inside the view returns the record of the selected source at
    the selected sample: every field of the source's record is forwarded
    with its value, no other field is added but ["dataset_id"], and
    ["dataset_id"] holds the source index unless the source's record has a
    field of that name, whose value then stands. *)
Theorem getitem_forwards_record
    (self : BlendedDataset) (i dataset_id sample_id : Z)
    (dataset : MegatronDataset) (record : sample) :
  np_getitem (dataset_index self) i = Ok dataset_id ->
  np_getitem (dataset_sample_index self) i = Ok sample_id ->
  py_index (datasets self) dataset_id = Ok dataset ->
  ds_getitem dataset sample_id = Ok record ->
  NoDup (map fst record) ->
  exists out,
    __getitem__ self i = Ok out
    /\ (forall k v, dict_get record k = Some v -> dict_get out k = Some v)
    /\ (dict_get record "dataset_id" = None ->
        dict_get out "dataset_id" = Some (PyInt dataset_id))
    /\ (forall k, k <> "dataset_id"%string -> dict_get record k = None ->
        dict_get out k = None).
Proof.
  intros Hd Hs Hds Hrec Hnd.
  exists (dict_unpack [("dataset_id"%string, PyInt dataset_id)] record).
  split.
  - unfold __getitem__. rewrite Hd. cbn [rbind]. rewrite Hs. cbn [rbind].
    rewrite Hds. cbn [rbind]. rewrite Hrec. reflexivity.
  - split; [|split].
    + intros k v Hk. by rewrite dict_get_unpack, Hk.
    + intros Hk. by rewrite dict_get_unpack, Hk.
    + intros k Hne Hk. rewrite dict_get_unpack, Hk by done. cbn.
      by rewrite (proj2 (String.eqb_neq k "dataset_id") Hne).
Qed.

(** A failed read raises [IndexError], or what a source raised. *)
Lemma getitem_error_origin (self : BlendedDataset) (i : Z) (e : exn) :
  __getitem__ self i = Err e ->
  e = IndexError
  \/ exists d j, d ∈ datasets self /\ ds_getitem d j = Err e.
Proof.
  assert (forall (A : Type) (l : list A) (idx : Z) (e' : exn),
            py_index l idx = Err e' -> e' = IndexError) as Hidx.
  { intros A l idx e'. unfold py_index.
    destruct ((0 <=? _) && _); [|by intros [= <-]].
    destruct (l !! _); [done|by intros [= <-]]. }
  assert (forall (A : Type) (l : list A) (idx : Z) (a : A),
            py_index l idx = Ok a -> a ∈ l) as Hin.
  { intros A l idx a. unfold py_index.
    destruct ((0 <=? _) && _); [|done].
    destruct (l !! _) eqn:E; [|done]. intros [= <-].
    by eapply list_elem_of_lookup_2. }
  unfold __getitem__, np_getitem.
  destruct (py_index (data (dataset_index self)) i) as [d|e1] eqn:H1; cbn.
  2:{ intros [= <-]. left. by eapply Hidx. }
  destruct (py_index (data (dataset_sample_index self)) i) as [s|e2] eqn:H2; cbn.
  2:{ intros [= <-]. left. by eapply Hidx. }
  destruct (py_index (datasets self) d) as [ds|e3] eqn:H3; cbn.
  2:{ intros [= <-]. left. by eapply Hidx. }
  destruct (ds_getitem ds s) as [r|e4] eqn:H4; cbn; [done|].
  intros [= <-]. right. exists ds, s. split; [by eapply Hin|done].
Qed.

(** ** The artifacts of a cache key *)

Lemma string_app_inv_length (a c b d : string) :
  String.length a = String.length c ->
  a +:+ b = c +:+ d -> a = c /\ b = d.
Proof.
  revert c. induction a as [|x a IH]; intros [|y c] Hlen H; try discriminate.
  - done.
  - rewrite !string_app_cons in H. injection H as -> H.
    cbn in Hlen. injection Hlen as Hlen.
    destruct (IH c Hlen H) as [-> ->]. done.
Qed.

(** X2. Within a cache directory, the artifacts of two description hashes of
    the same length (as hex digests are), neither starting with a slash,
    have different paths whenever the hashes or the suffixes differ. *)
Theorem artifact_paths_injective (dir h1 h2 s1 s2 : string) :
  String.length h1 = String.length h2 ->
  starts_with_slash h1 = false -> starts_with_slash h2 = false ->
  h1 <> h2 \/ s1 <> s2 ->
  get_path_to dir h1 s1 <> get_path_to dir h2 s2.
Proof.
  intros Hlen Hs1 Hs2 Hne. unfold get_path_to, os_path_join.
  assert (forall h s, starts_with_slash h = false ->
            starts_with_slash (h +:+ "-" +:+ class_name +:+ "-" +:+ s) = false)
    as Hstem.
  { intros [|c h] s Hh; [reflexivity|exact Hh]. }
  rewrite (Hstem h1 s1 Hs1), (Hstem h2 s2 Hs2).
  assert (h1 +:+ "-" +:+ class_name +:+ "-" +:+ s1
          <> h2 +:+ "-" +:+ class_name +:+ "-" +:+ s2) as Hinj.
  { intros H. apply (string_app_inv_length _ _ _ _ Hlen) in H as [-> H].
    apply (String.app_inj ("-" +:+ class_name +:+ "-")) in H.
    destruct Hne as [Hne|Hne]; by apply Hne. }
  destruct (String.eqb dir "" || ends_with_slash dir); intros H.
  - by apply String.app_inj in H.
  - apply String.app_inj in H. by apply (String.app_inj "/") in H.
Qed.

(** The index artifacts of two hashes of 32 hexadecimal digits. *)
Lemma artifact_paths_injective_witness :
  get_path_to "cache" "0cc175b9c0f1b6a831c399e269772661" "dataset_index.npy"
  <> get_path_to "cache" "92eb5ffee6ae2fec3ad71c777531578f" "dataset_index.npy".
Proof.
  apply (artifact_paths_injective "cache" "0cc175b9c0f1b6a831c399e269772661"
           "92eb5ffee6ae2fec3ad71c777531578f" "dataset_index.npy"
           "dataset_index.npy"); [reflexivity..|].
  left. discriminate.
Defined.

(** ** Resolution and the cache directory *)

Lemma np_wrap_range (d : np_dtype) (z : Z) :
  - 2 ^ (np_bits d - 1) <= np_wrap d z < 2 ^ (np_bits d - 1).
Proof.
  unfold np_wrap.
  assert (2 ^ np_bits d = 2 * 2 ^ (np_bits d - 1)) as E.
  { destruct d; reflexivity. }
  pose proof (Z.mod_pos_bound (z + 2 ^ (np_bits d - 1)) (2 ^ np_bits d)) as H.
  assert (0 < 2 ^ (np_bits d - 1)) by (destruct d; reflexivity).
  lia.
Qed.

(** A buffer of zeros filled by the planner holds values of its dtype. *)
Lemma np_fill_zeros_range (d : np_dtype) (n : nat) (vals : list Z) :
  Forall (fun z => - 2 ^ (np_bits d - 1) <= z < 2 ^ (np_bits d - 1))
    (data (np_fill (mk_ndarray d (replicate n 0)) vals)).
Proof.
  unfold np_fill. cbn [data dtype]. apply Forall_app. split.
  - apply Forall_forall. intros z Hz.
    apply list_elem_of_fmap in Hz as (y & -> & _). apply np_wrap_range.
  - apply Forall_drop, Forall_forall. intros z Hz.
    apply elem_of_replicate_inv in Hz as ->.
    destruct d; split; reflexivity || discriminate.
Qed.

Section ResolutionExtras.

Variable planner : list float -> Z -> Z -> bool -> list Z * list Z.

(** On the building branch a resolution that succeeds returns the indexes
    built, and the size is not negative. *)
Lemma build_branch_returns_planned (self : Attrs) (w : world)
    (plan : ndarray * ndarray) :
  truthy (path_to_cache (config self)) = false
  \/ (cache_hit_in (files w) self = false /\ caching_allowed self = true) ->
  fst (_build_indices planner self w) = Ok plan ->
  plan = planned planner self /\ 0 <= size self.
Proof.
  intros Hbranch Hok.
  destruct (truthy (path_to_cache (config self))) eqn:Hp.
  - destruct Hbranch as [|[Hmiss Hallowed]]; [done|].
    destruct (Z_lt_le_dec (size self) 0) as [Hneg|Hsize].
    + exfalso. revert Hok. unfold _build_indices, bind. rewrite Hp.
      destruct (all_isfile_spec
                  [path_to_description self; path_to_dataset_index self;
                   path_to_dataset_sample_index self] w)
        as (evs & -> & _).
      unfold cache_hit_in in Hmiss. rewrite Hmiss, Hallowed.
      cbn [negb orb andb]. unfold lift.
      by rewrite np_zeros_negative.
    + destruct (build_indices_miss_allowed planner self w Hp Hmiss Hallowed Hsize)
        as (evs & Heq & _).
      rewrite Heq in Hok. cbn in Hok. split; [congruence|done].
  - rewrite (build_indices_no_cache planner self w Hp) in Hok.
    destruct (size self <? 0) eqn:Hneg; cbn in Hok; [discriminate|].
    apply Z.ltb_ge in Hneg. split; [congruence|done].
Qed.

(** X3. Whenever resolution builds the indexes (no cache directory, or a
    miss with caching allowed) and succeeds, the dataset index is an [int16]
    array and the dataset sample index an [int64] array, each of exactly
    [size] entries, every entry within the range of its dtype. *)
Theorem built_indexes_shape (self : Attrs) (w : world) (di dsi : ndarray) :
  truthy (path_to_cache (config self)) = false
  \/ (cache_hit_in (files w) self = false /\ caching_allowed self = true) ->
  fst (_build_indices planner self w) = Ok (di, dsi) ->
  dtype di = int16 /\ dtype dsi = int64
  /\ np_len di = size self /\ np_len dsi = size self
  /\ Forall (fun z => -32768 <= z <= 32767) (data di)
  /\ Forall (fun z => - 2 ^ 63 <= z < 2 ^ 63) (data dsi).
Proof.
  intros Hbranch Hok.
  destruct (build_branch_returns_planned self w _ Hbranch Hok) as [Hplan Hsize].
  unfold planned in Hplan. injection Hplan as -> ->.
  repeat split; try reflexivity.
  - unfold np_len. rewrite np_fill_length. cbn [data].
    rewrite length_replicate. lia.
  - unfold np_len. rewrite np_fill_length. cbn [data].
    rewrite length_replicate. lia.
  - eapply Forall_impl; [apply (np_fill_zeros_range int16)|].
    cbn. intros z Hz. change (2 ^ (16 - 1)) with 32768 in Hz. lia.
  - apply (np_fill_zeros_range int64).
Qed.

(** X4. Resolution leaves every file other than the three artifacts of the
    key as it is; and it changes no file at all when there is no cache
    directory, on a hit, or when caching is not allowed. *)
Theorem resolution_touches_only_artifacts (self : Attrs) (w : world) :
  let r := _build_indices planner self w in
  (forall p,
     p <> path_to_description self ->
     p <> path_to_dataset_index self ->
     p <> path_to_dataset_sample_index self ->
     files (snd r) !! p = files w !! p)
  /\ (truthy (path_to_cache (config self)) = false
      \/ cache_hit_in (files w) self = true
      \/ caching_allowed self = false ->
      files (snd r) = files w).
Proof.
  cbn zeta. split.
  - intros p H1 H2 H3.
    destruct (build_indices_files planner self w) as [-> | [_ ->]]; [done|].
    by rewrite !lookup_insert_ne.
  - intros [Hp|Hload].
    + rewrite (build_indices_no_cache planner self w Hp).
      by destruct (size self <? 0).
    + destruct (truthy (path_to_cache (config self))) eqn:Hp.
      * destruct (build_indices_load planner self w Hp Hload) as (evs & -> & _).
        apply (load_indices_spec _ _ (mk_world (files w) (trace w ++ evs))).
      * rewrite (build_indices_no_cache planner self w Hp).
        by destruct (size self <? 0).
Qed.

(** The events of loading are loads. *)
Lemma load_indices_events (p_index p_sample : string) (w : world) :
  exists more,
    trace (snd ((let* dataset_index := np_load p_index in
                 let* dataset_sample_index := np_load p_sample in
                 ret (dataset_index, dataset_sample_index)) w))
    = trace w ++ more
    /\ Forall (fun e => exists p, e = NpLoad p) more.
Proof.
  unfold bind, np_load, ret. cbn [files trace].
  destruct (files w !! p_index) as [[t|a|a]|];
    [destruct (String.eqb t "")| | |];
    cbn [fst snd files trace];
    try (destruct (files w !! p_sample) as [[t'|b|b]|];
         [destruct (String.eqb t' "")| | |]);
    cbn [fst snd files trace];
    try (exists [NpLoad p_index]; split; [done|];
         repeat constructor; by eexists);
    (exists [NpLoad p_index; NpLoad p_sample]; split;
     [by rewrite <- app_assoc|repeat constructor; by eexists]).
Qed.

(** Loading stops at an index artifact that has nothing in it. *)
Lemma load_indices_empty (p_index p_sample : string) (w : world) :
  files w !! p_index = Some (TextFile "") ->
  fst ((let* dataset_index := np_load p_index in
        let* dataset_sample_index := np_load p_sample in
        ret (dataset_index, dataset_sample_index)) w)
  = Err EOFError.
Proof. intros H. unfold bind, np_load. by rewrite H. Qed.

(** X5. On a hit, and on a miss when caching is not allowed, resolution
    loads the two index artifacts: when both hold arrays, in the [.npy]
    format or pickled, it returns the arrays as stored, whatever the
    weights, the size and the description artifact are; when the dataset
    index is not there it fails with [FileNotFoundError], and when that file
    has nothing in it with [EOFError]. In each case it does not call the
    planner and writes nothing. *)
Theorem load_returns_stored_indexes (self : Attrs) (w : world) :
  truthy (path_to_cache (config self)) = true ->
  cache_hit_in (files w) self = true \/ caching_allowed self = false ->
  let r := _build_indices planner self w in
  (forall di dsi,
     array_at (files w) (path_to_dataset_index self) = Some di ->
     array_at (files w) (path_to_dataset_sample_index self) = Some dsi ->
     fst r = Ok (di, dsi))
  /\ (files w !! path_to_dataset_index self = None ->
      fst r = Err FileNotFoundError)
  /\ (files w !! path_to_dataset_index self = Some (TextFile "") ->
      fst r = Err EOFError)
  /\ files (snd r) = files w
  /\ exists evs,
       trace (snd r) = trace w ++ evs
       /\ Forall (fun e => exists p, e = IsFile p \/ e = NpLoad p) evs.
Proof.
  intros Hp Hload. cbn zeta.
  destruct (build_indices_load planner self w Hp Hload)
    as (evs & -> & Hprobes & _).
  destruct (load_indices_spec (path_to_dataset_index self)
              (path_to_dataset_sample_index self)
              (mk_world (files w) (trace w ++ evs)))
    as (Hfiles & Hplan & Hmissing & _).
  destruct (load_indices_events (path_to_dataset_index self)
              (path_to_dataset_sample_index self)
              (mk_world (files w) (trace w ++ evs)))
    as (more & Htrace & Hloads).
  cbn zeta in Hfiles, Hplan, Hmissing.
  cbn [files trace] in Hfiles, Hplan, Hmissing, Htrace.
  split; [|split; [|split; [|split; [exact Hfiles|]]]].
  - intros di dsi Hdi Hdsi. by apply (Hplan (di, dsi)).
  - intros Hnone. by rewrite (Hmissing Hnone).
  - intros Hempty.
    by apply (load_indices_empty _ _ (mk_world (files w) (trace w ++ evs))).
  - exists (evs ++ more). split; [by rewrite Htrace, app_assoc|].
    apply Forall_app. split.
    + eapply Forall_impl; [exact Hprobes|]. intros e [p ->]. exists p. by left.
    + eapply Forall_impl; [exact Hloads|]. intros e [p ->]. exists p. by right.
Qed.

End ResolutionExtras.

(** ** Construction *)

Section ConstructionExtras.

Variable normalize : list float -> list float.
Variable planner : list float -> Z -> Z -> bool -> list Z * list Z.
Variable json_dumps : UniqueIdentifiers -> string.
Variable md5_hexdigest : string -> string.

Local Abbreviation init := (__init__ normalize planner json_dumps md5_hexdigest).
Local Abbreviation attrs_of := (init_attrs normalize json_dumps md5_hexdigest).

(** X6. A view that [__init__] returns passed the argument checks, keeps
    the sources it was given and the normalized weights, reports the
    requested size as its length, can be read at its last index and raises
    [IndexError] one past it. *)
Theorem construction_is_validated
    (ds : list MegatronDataset) (ws : list float) (n : Z)
    (cfg : BlendedMegatronDatasetConfig) (allowed : bool)
    (w w' : world) (self : BlendedDataset) :
  init ds ws n cfg allowed w = (Ok self, w') ->
  arguments_ok ds ws = true
  /\ datasets self = ds
  /\ weights self = normalize ws
  /\ __len__ self = n
  /\ is_ok (__getitem__ self (n - 1)) = true
  /\ __getitem__ self n = Err IndexError.
Proof.
  intros H.
  destruct (init_ok_inv normalize planner json_dumps md5_hexdigest
              _ _ _ _ _ _ _ _ H) as (Hargs & Ha & _ & Hlen & H1 & H2).
  repeat split; try done; by rewrite Ha.
Qed.

(** X7. Without a cache directory, arguments that pass the checks and a
    size that is not positive never give a view: a negative size is refused
    by [np.zeros] with [ValueError], and size 0 fails the read of index -1
    with [IndexError]. *)
Theorem construction_needs_positive_size
    (ds : list MegatronDataset) (ws : list float) (n : Z)
    (cfg : BlendedMegatronDatasetConfig) (allowed : bool) (w : world) :
  arguments_ok ds ws = true ->
  truthy (path_to_cache cfg) = false ->
  n <= 0 ->
  fst (init ds ws n cfg allowed w)
  = Err (if n <? 0 then ValueError else IndexError).
Proof.
  intros Hargs Hp Hn.
  rewrite init_accepts by done. cbn zeta. unfold bind.
  rewrite build_indices_no_cache by exact Hp.
  change (size (attrs_of ds ws n cfg allowed)) with n.
  destruct (n <? 0) eqn:Hneg; [reflexivity|].
  apply Z.ltb_ge in Hneg. assert (n = 0) as -> by lia.
  cbn [fst snd].
  apply check_size_spec.
  unfold __getitem__, np_getitem.
  rewrite py_index_outside; [done|].
  unfold planned. cbn [fst dataset_index].
  rewrite np_fill_length. cbn [data size attrs init_attrs].
  rewrite length_replicate. lia.
Qed.

(** X8. Without a cache directory, and with sources that do not themselves
    raise [RuntimeError], construction never fails with [RuntimeError]: the
    indexes built hold exactly [size] entries, so the read one past the end
    always raises [IndexError]. *)
Theorem built_view_is_properly_bounded
    (ds : list MegatronDataset) (ws : list float) (n : Z)
    (cfg : BlendedMegatronDatasetConfig) (allowed : bool) (w : world) :
  truthy (path_to_cache cfg) = false ->
  (forall d j, d ∈ ds -> ds_getitem d j <> Err RuntimeError) ->
  fst (init ds ws n cfg allowed w) <> Err RuntimeError.
Proof.
  intros Hp Hsrc.
  destruct (arguments_ok ds ws) eqn:Hargs.
  2:{ by rewrite init_rejects. }
  rewrite init_accepts by done. cbn zeta. unfold bind.
  rewrite build_indices_no_cache by exact Hp.
  change (size (attrs_of ds ws n cfg allowed)) with n.
  destruct (n <? 0) eqn:Hneg; [done|]. apply Z.ltb_ge in Hneg.
  cbn [fst snd].
  set (self := mk_blended _ _ _).
  assert (__getitem__ self n = Err IndexError) as Hpast.
  { unfold __getitem__, np_getitem.
    rewrite py_index_outside; [done|].
    unfold self, planned. cbn [fst dataset_index].
    rewrite np_fill_length. cbn [data size attrs init_attrs].
    rewrite length_replicate. lia. }
  unfold check_size, bind, lift.
  change (size self) with n. rewrite Hpast.
  destruct (__getitem__ self (n - 1)) as [r|e] eqn:Hlast; cbn; [done|].
  intros [= ->].
  apply getitem_error_origin in Hlast as [|(d & j & Hd & Hj)]; [done|].
  by apply (Hsrc d j).
Qed.

End ConstructionExtras.

(** The blend of [ds_a] and [ds_b] built without a cache directory. *)
Lemma built_indexes_shape_witness :
  let di := mk_ndarray int16 [0; 1; 0; 1; 0] in
  let dsi := mk_ndarray int64 [0; 0; 1; 1; 2] in
  dtype di = int16 /\ dtype dsi = int64
  /\ np_len di = 5 /\ np_len dsi = 5
  /\ Forall (fun z => -32768 <= z <= 32767) (data di)
  /\ Forall (fun z => - 2 ^ 63 <= z < 2 ^ 63) (data dsi).
Proof.
  cbn zeta.
  apply (built_indexes_shape (planner_for [3; 2])
           (init_attrs normalize_weights example_dumps example_digest
              [ds_a; ds_b] [0.6; 0.4]%float 5 (mk_config None) true)
           empty_world).
  - left. reflexivity.
  - vm_compute. reflexivity.
Defined.

(** Index 1 of the blend of [ds_a] and [ds_b]: the first item of [ds_b]. *)
Lemma getitem_forwards_record_witness :
  let self :=
    mk_blended
      (init_attrs normalize_weights example_dumps example_digest [ds_a; ds_b]
         [0.6; 0.4]%float 5 (mk_config None) true)
      (mk_ndarray int16 [0; 1; 0; 1; 0]) (mk_ndarray int64 [0; 0; 1; 1; 2]) in
  let record := [("text"%string, PyArray [0])] in
  exists out,
    __getitem__ self 1 = Ok out
    /\ (forall k v, dict_get record k = Some v -> dict_get out k = Some v)
    /\ (dict_get record "dataset_id" = None ->
        dict_get out "dataset_id" = Some (PyInt 1))
    /\ (forall k, k <> "dataset_id"%string -> dict_get record k = None ->
        dict_get out k = None).
Proof.
  cbn zeta.
  apply (getitem_forwards_record
           (mk_blended
              (init_attrs normalize_weights example_dumps example_digest
                 [ds_a; ds_b] [0.6; 0.4]%float 5 (mk_config None) true)
              (mk_ndarray int16 [0; 1; 0; 1; 0])
              (mk_ndarray int64 [0; 0; 1; 1; 2]))
           1 1 0 ds_b [("text"%string, PyArray [0])]);
    try reflexivity.
  repeat constructor. intros H. by apply elem_of_nil in H.
Defined.

(** A cache directory holding the three artifacts of the single source
    [ds_b] drawn twice, the sample index as a pickle, read with caching not
    allowed. *)
Lemma load_returns_stored_indexes_witness :
  let self :=
    init_attrs normalize_weights example_dumps example_digest [ds_b]
      [1%float] 2 (mk_config (Some "cache"%string)) false in
  let w :=
    mk_world
      (<[path_to_dataset_sample_index self := PickleFile (mk_ndarray int64 [0; 1])]>
         (<[path_to_dataset_index self := NpyFile (mk_ndarray int16 [0; 0])]>
            (<[path_to_description self := TextFile (unique_description self)]>
               ∅))) [] in
  let r := _build_indices (planner_for [2]) self w in
  fst r = Ok (mk_ndarray int16 [0; 0], mk_ndarray int64 [0; 1])
  /\ ((forall di dsi,
         array_at (files w) (path_to_dataset_index self) = Some di ->
         array_at (files w) (path_to_dataset_sample_index self) = Some dsi ->
         fst r = Ok (di, dsi))
      /\ (files w !! path_to_dataset_index self = None ->
          fst r = Err FileNotFoundError)
      /\ (files w !! path_to_dataset_index self = Some (TextFile "") ->
          fst r = Err EOFError)
      /\ files (snd r) = files w
      /\ exists evs,
           trace (snd r) = trace w ++ evs
           /\ Forall (fun e => exists p, e = IsFile p \/ e = NpLoad p) evs).
Proof.
  cbn zeta. split; [reflexivity|].
  apply (load_returns_stored_indexes (planner_for [2])).
  - reflexivity.
  - right. reflexivity.
Defined.

(** The construction of the blend of [ds_a] and [ds_b], size 5. *)
Lemma construction_is_validated_witness :
  let self :=
    mk_blended
      (init_attrs normalize_weights example_dumps example_digest [ds_a; ds_b]
         [0.6; 0.4]%float 5 (mk_config None) true)
      (mk_ndarray int16 [0; 1; 0; 1; 0]) (mk_ndarray int64 [0; 0; 1; 1; 2]) in
  arguments_ok [ds_a; ds_b] [0.6; 0.4]%float = true
  /\ datasets self = [ds_a; ds_b]
  /\ weights self = normalize_weights [0.6; 0.4]%float
  /\ __len__ self = 5
  /\ is_ok (__getitem__ self (5 - 1)) = true
  /\ __getitem__ self 5 = Err IndexError.
Proof.
  cbn zeta.
  apply (construction_is_validated normalize_weights (planner_for [3; 2])
           example_dumps example_digest [ds_a; ds_b] [0.6; 0.4]%float 5
           (mk_config None) true empty_world (mk_world ∅ [CallPlanner])).
  vm_compute. reflexivity.
Defined.

(** The blend of [ds_a] and [ds_b] requested with size 0. *)
Lemma construction_needs_positive_size_witness :
  fst (__init__ normalize_weights (planner_for [3; 2]) example_dumps
         example_digest [ds_a; ds_b] [0.6; 0.4]%float 0 (mk_config None)
         true empty_world)
  = Err (if 0 <? 0 then ValueError else IndexError).
Proof.
  apply (construction_needs_positive_size normalize_weights (planner_for [3; 2])
           example_dumps example_digest [ds_a; ds_b] [0.6; 0.4]%float 0
           (mk_config None) true empty_world).
  - reflexivity.
  - reflexivity.
  - lia.
Defined.

(** The blend of [ds_a] and [ds_b]: range datasets raise [IndexError] only. *)
Lemma built_view_is_properly_bounded_witness :
  fst (__init__ normalize_weights (planner_for [3; 2]) example_dumps
         example_digest [ds_a; ds_b] [0.6; 0.4]%float 5 (mk_config None)
         true empty_world)
  <> Err RuntimeError.
Proof.
  apply (built_view_is_properly_bounded normalize_weights (planner_for [3; 2])
           example_dumps example_digest [ds_a; ds_b] [0.6; 0.4]%float 5
           (mk_config None) true empty_world).
  - reflexivity.
  - intros d j Hd. unfold ds_a, ds_b, range_dataset in Hd.
    apply elem_of_cons in Hd as [->|Hd];
      [|apply elem_of_cons in Hd as [->|Hd]; [|by apply elem_of_nil in Hd]];
      cbn; by destruct (_ && _).
Defined.

(** * Properties of [BlendedDatasets] and [BaseDataset] *)

Lemma py_range_length (n : Z) : length (py_range n) = Z.to_nat n.
Proof. unfold py_range. by rewrite length_map, length_seq. Qed.

Lemma py_range_lookup (n : Z) (k : nat) :
  (k < Z.to_nat n)%nat -> py_range n !! k = Some (Z.of_nat k).
Proof.
  intros Hk. unfold py_range.
  rewrite list_lookup_fmap, lookup_seq_lt by done. reflexivity.
Qed.

Section Concatenation.

Variable DatasetSplit : Type.
Variable ClassArgs : Type.

Local Abbreviation Dataset := (BaseDataset.BaseDataset DatasetSplit ClassArgs).
Local Abbreviation examples_of :=
  (BaseDataset.examples DatasetSplit ClassArgs).
Local Abbreviation lengths_of :=
  (BlendedDatasets.get_num_examples_in_each_dataset DatasetSplit ClassArgs).

Lemma indexing_from_cons (x : Dataset) (ds : list Dataset) (d0 : Z) :
  BlendedDatasets.indexing_from d0 (lengths_of (x :: ds))
  = map (fun example_id : Z => (d0, example_id))
      (py_range (Z.of_nat (length (examples_of x))))
      ++ BlendedDatasets.indexing_from (d0 + 1) (lengths_of ds).
Proof. reflexivity. Qed.

(** The indexing array lists, dataset after dataset, the positions of the
    concatenated examples. *)
Lemma indexing_from_spec (ds : list Dataset) (d0 : Z) :
  let idx := BlendedDatasets.indexing_from d0 (lengths_of ds) in
  let cat := concat (map examples_of ds) in
  length idx = length cat
  /\ forall k d e,
       idx !! k = Some (d, e) ->
       d0 <= d /\ 0 <= e
       /\ exists dataset,
            ds !! Z.to_nat (d - d0) = Some dataset
            /\ examples_of dataset !! Z.to_nat e = cat !! k.
Proof.
  revert d0. induction ds as [|x ds IH]; intros d0; cbn zeta.
  - split; [done|]. intros k d e H. by destruct k.
  - destruct (IH (d0 + 1)) as [IHlen IHlk]. cbn zeta in IHlen, IHlk.
    rewrite indexing_from_cons.
    change (concat (map examples_of (x :: ds)))
      with (examples_of x ++ concat (map examples_of ds)).
    assert (length (map (fun example_id : Z => (d0, example_id))
                      (py_range (Z.of_nat (length (examples_of x)))))
            = length (examples_of x)) as Hhead.
    { rewrite length_map, py_range_length. lia. }
    split.
    + rewrite !length_app, Hhead. f_equal. exact IHlen.
    + intros k d e Hk.
      destruct (decide (k < length (examples_of x))%nat) as [Hlt|Hge].
      * rewrite lookup_app_l in Hk by (by rewrite Hhead).
        rewrite list_lookup_fmap, py_range_lookup in Hk by lia.
        cbn in Hk. injection Hk as <- <-.
        split; [lia|]. split; [lia|].
        exists x. rewrite Z.sub_diag. split; [done|].
        rewrite Nat2Z.id. by rewrite lookup_app_l.
      * rewrite lookup_app_r in Hk by (rewrite Hhead; lia).
        rewrite Hhead in Hk.
        destruct (IHlk _ d e Hk) as (Hd & He & dataset & Hds & Hex).
        split; [lia|]. split; [done|].
        exists dataset. split.
        -- replace (Z.to_nat (d - d0)) with (S (Z.to_nat (d - (d0 + 1))))
             by lia.
           exact Hds.
        -- rewrite lookup_app_r by lia. exact Hex.
Qed.

(** X9. A [BlendedDatasets] reads as the concatenation of the examples of
    its datasets, in order: at every index, negative or out of range
    included, [__getitem__] gives what indexing the concatenated list
    gives. *)
Theorem blended_datasets_getitem_is_concatenation
    (ds : list Dataset) (split : DatasetSplit) (index : Z) :
  BlendedDatasets.__getitem__ _ _ (BlendedDatasets.__init__ _ _ ds split) index
  = py_index (concat (map examples_of ds)) index.
Proof.
  unfold BlendedDatasets.__getitem__, BlendedDatasets.__init__.
  cbn [BlendedDatasets.indexing_array BlendedDatasets.datasets].
  unfold BlendedDatasets._get_indexing_array.
  destruct (indexing_from_spec ds 0) as [Hlen Hlk]. cbn zeta in Hlen, Hlk.
  set (idx := BlendedDatasets.indexing_from _ _) in *.
  set (cat := concat _) in *.
  unfold py_index at 1 3. rewrite Hlen.
  set (pos := if index <? 0 then index + Z.of_nat (length cat) else index).
  destruct ((0 <=? pos) && (pos <? Z.of_nat (length cat))) eqn:Hin; [|done].
  apply andb_prop in Hin as [H0 H1].
  apply Z.leb_le in H0. apply Z.ltb_lt in H1.
  destruct (lookup_lt_is_Some_2 idx (Z.to_nat pos)) as [[d e] Hde]; [lia|].
  destruct (lookup_lt_is_Some_2 cat (Z.to_nat pos)) as [ex Hex]; [lia|].
  rewrite Hde, Hex. cbn [rbind fst snd].
  destruct (Hlk _ _ _ Hde) as (Hd & He & dataset & Hds & Hlook).
  rewrite Z.sub_0_r in Hds.
  rewrite (py_index_lookup ds d dataset Hd Hds). cbn [rbind].
  unfold BaseDataset.__getitem__.
  apply py_index_lookup; [done|]. by rewrite Hlook.
Qed.

Lemma fold_left_add_sum (l : list Z) (a : Z) :
  fold_left Z.add l a = a + foldr Z.add 0 l.
Proof.
  revert a. induction l as [|x l IH]; intros a; cbn; [lia|].
  rewrite IH. lia.
Qed.

(** X10. The length a [BlendedDatasets] reports is the number of entries of
    its indexing array and the number of examples of its datasets taken
    together; it is never negative. *)
Theorem blended_datasets_len_is_total
    (ds : list Dataset) (split : DatasetSplit) :
  let self := BlendedDatasets.__init__ _ _ ds split in
  BlendedDatasets.__len__ _ _ self
  = Z.of_nat (length (BlendedDatasets.indexing_array _ _ self))
  /\ BlendedDatasets.__len__ _ _ self
     = Z.of_nat (length (concat (map examples_of ds)))
  /\ 0 <= BlendedDatasets.__len__ _ _ self.
Proof.
  cbn zeta.
  unfold BlendedDatasets.__len__, BlendedDatasets.__init__.
  cbn [BlendedDatasets.num_examples BlendedDatasets.indexing_array].
  unfold BlendedDatasets._get_indexing_array.
  destruct (indexing_from_spec ds 0) as [-> _].
  assert (fold_left Z.add (lengths_of ds) 0
          = Z.of_nat (length (concat (map examples_of ds)))) as ->.
  { rewrite fold_left_add_sum.
    induction ds as [|x ds IH]; [done|].
    cbn [map BlendedDatasets.get_num_examples_in_each_dataset foldr concat].
    rewrite length_app, Nat2Z.inj_add.
    unfold BlendedDatasets.get_num_examples_in_each_dataset in IH.
    unfold BaseDataset.__len__ at 1. lia. }
  repeat split; lia.
Qed.

End Concatenation.

(** ** Formats *)

Lemma prefix_app (old post : string) : String.prefix old (old +:+ post) = true.
Proof.
  induction old as [|c old IH]; [by destruct post|].
  rewrite string_app_cons. cbn. destruct (ascii_dec c c); [exact IH|done].
Qed.

Lemma str_drop_app (old post : string) :
  str_drop (String.length old) (old +:+ post) = post.
Proof. induction old as [|c old IH]; [by destruct post|exact IH]. Qed.

(** Replacing the first occurrence, which starts where [pre] ends. *)
Lemma replace_first_spec (pre old post new : string) :
  (forall k, (k < String.length pre)%nat ->
     String.prefix old (str_drop k (pre +:+ old +:+ post)) = false) ->
  replace_first (pre +:+ old +:+ post) old new = pre +:+ new +:+ post.
Proof.
  induction pre as [|c pre IH]; intros Hfirst.
  - change ("" +:+ old +:+ post) with (old +:+ post).
    change ("" +:+ new +:+ post) with (new +:+ post).
    destruct (old +:+ post) eqn:E.
    + cbn [replace_first]. rewrite <- E, prefix_app, str_drop_app. done.
    + cbn [replace_first]. rewrite <- E, prefix_app, str_drop_app. done.
  - rewrite !string_app_cons. cbn [replace_first].
    pose proof (Hfirst 0%nat ltac:(cbn; lia)) as H0.
    rewrite string_app_cons in H0. cbn [str_drop] in H0. rewrite H0.
    f_equal. apply IH. intros k Hk.
    specialize (Hfirst (S k) ltac:(cbn; lia)).
    by rewrite string_app_cons in Hfirst.
Qed.

(** A string in which [old] does not occur stays as it is. *)
Lemma replace_first_absent (s old new : string) :
  (forall k, (k <= String.length s)%nat ->
     String.prefix old (str_drop k s) = false) ->
  replace_first s old new = s.
Proof.
  induction s as [|c s IH]; intros Habsent.
  - cbn [replace_first].
    pose proof (Habsent 0%nat ltac:(cbn; lia)) as H0. cbn [str_drop] in H0.
    by rewrite H0.
  - cbn [replace_first].
    pose proof (Habsent 0%nat ltac:(cbn; lia)) as H0. cbn [str_drop] in H0.
    rewrite H0. f_equal. apply IH. intros k Hk.
    exact (Habsent (S k) ltac:(cbn; lia)).
Qed.

Section Formats.

Variable INPUT_FORMAT : string.
Variable OUTPUT_FORMAT : string.
Variable DatasetSplit : Type.
Variable ClassArgs : Type.

Local Abbreviation new_dataset :=
  (BaseDataset.__init__ INPUT_FORMAT OUTPUT_FORMAT DatasetSplit ClassArgs).

(** X11. A dataset whose input format is [INPUT_FORMAT] itself passes the
    input through; with any other format the input takes the place of the
    first occurrence of [INPUT_FORMAT] in the format and the text around
    that occurrence is kept, later occurrences included; and with a format
    in which [INPUT_FORMAT] does not occur the result is the format
    itself, without the input. *)
Theorem construct_input_replaces_first_placeholder
    (class_args : ClassArgs) (split : DatasetSplit) (use_output : bool)
    (tokenizer : BaseDataset.Tokenizer) (data_name output_format : string)
    (max_in max_out : option Z) (input pre post : string) :
  let dataset fmt :=
    new_dataset class_args split use_output tokenizer data_name fmt
      output_format max_in max_out in
  BaseDataset.construct_input_from_format INPUT_FORMAT _ _
    (dataset INPUT_FORMAT) input = input
  /\ (pre +:+ INPUT_FORMAT +:+ post <> INPUT_FORMAT ->
      (forall k, (k < String.length pre)%nat ->
         String.prefix INPUT_FORMAT
           (str_drop k (pre +:+ INPUT_FORMAT +:+ post)) = false) ->
      BaseDataset.construct_input_from_format INPUT_FORMAT _ _
        (dataset (pre +:+ INPUT_FORMAT +:+ post)) input
      = pre +:+ input +:+ post)
  /\ ((forall k, (k <= String.length pre)%nat ->
         String.prefix INPUT_FORMAT (str_drop k pre) = false) ->
      BaseDataset.construct_input_from_format INPUT_FORMAT _ _
        (dataset pre) input
      = pre).
Proof.
  cbn zeta. unfold BaseDataset.construct_input_from_format, BaseDataset.__init__.
  cbn [BaseDataset.do_format_input BaseDataset.input_format].
  split; [|split].
  - by rewrite String.eqb_refl.
  - intros Hne Hfirst.
    rewrite (proj2 (String.eqb_neq _ _) Hne). cbn [negb].
    by apply replace_first_spec.
  - intros Habsent.
    destruct (String.eqb pre INPUT_FORMAT) eqn:E; cbn [negb].
    + apply String.eqb_eq in E. subst pre.
      specialize (Habsent 0%nat ltac:(lia)). cbn [str_drop] in Habsent.
      pose proof (prefix_app INPUT_FORMAT "") as Hp.
      assert (INPUT_FORMAT +:+ "" = INPUT_FORMAT) as Hnil.
      { clear. induction INPUT_FORMAT as [|c s IH]; [done|].
        by rewrite string_app_cons, IH. }
      rewrite Hnil in Hp. congruence.
    + by apply replace_first_absent.
Qed.

(** X12. A dataset whose output format is [OUTPUT_FORMAT] itself passes the
    output through; with any other format the output takes the place of
    the first occurrence of the literal [__output__] in the format, and the
    text around that occurrence is kept. *)
Theorem construct_output_replaces_first_placeholder
    (class_args : ClassArgs) (split : DatasetSplit) (use_output : bool)
    (tokenizer : BaseDataset.Tokenizer) (data_name input_format : string)
    (max_in max_out : option Z) (output pre post : string) :
  let dataset fmt :=
    new_dataset class_args split use_output tokenizer data_name input_format
      fmt max_in max_out in
  BaseDataset.construct_output_from_format _ _
    (dataset OUTPUT_FORMAT) output = output
  /\ (pre +:+ "__output__" +:+ post <> OUTPUT_FORMAT ->
      (forall k, (k < String.length pre)%nat ->
         String.prefix "__output__"
           (str_drop k (pre +:+ "__output__" +:+ post)) = false) ->
      BaseDataset.construct_output_from_format _ _
        (dataset (pre +:+ "__output__" +:+ post)) output
      = pre +:+ output +:+ post).
Proof.
  cbn zeta.
  unfold BaseDataset.construct_output_from_format, BaseDataset.__init__.
  cbn [BaseDataset.do_format_output BaseDataset.output_format].
  split.
  - by rewrite String.eqb_refl.
  - intros Hne Hfirst.
    rewrite (proj2 (String.eqb_neq _ _) Hne). cbn [negb].
    by apply replace_first_spec.
Qed.

(** ** Token ids *)

Lemma py_slice_to_nonneg {A : Type} (l : list A) (stop : Z) :
  0 <= stop -> py_slice_to l stop = take (Z.to_nat stop) l.
Proof.
  intros H. unfold py_slice_to. by rewrite (proj2 (Z.ltb_ge stop 0)).
Qed.

Lemma py_slice_to_negative {A : Type} (l : list A) (stop : Z) :
  stop < 0 -> py_slice_to l stop = take (Z.to_nat (Z.of_nat (length l) + stop)) l.
Proof.
  intros H. unfold py_slice_to. by rewrite (proj2 (Z.ltb_lt stop 0)).
Qed.

(** X13. A dataset created with output, at most [mi >= 0] input tokens and
    at most [mo >= 2] output tokens: the example's output is the first
    [mo - 2] token ids of the output text followed by the end-of-sequence
    id, so it holds at most [mo - 1] ids; the example's input is the first
    [mi] token ids of the input text followed by that whole output. *)
Theorem token_ids_are_trimmed
    (class_args : ClassArgs) (split : DatasetSplit)
    (tokenizer : BaseDataset.Tokenizer) (data_name input_format output_format : string)
    (mi mo : Z) (input output : string) :
  0 <= mi -> 2 <= mo ->
  let self :=
    new_dataset class_args split true tokenizer data_name input_format
      output_format (Some mi) (Some mo) in
  let ins := take (Z.to_nat mi) (BaseDataset.input_ids tokenizer input) in
  let outs :=
    take (Z.to_nat (mo - 2)) (BaseDataset.input_ids tokenizer output)
      ++ [BaseDataset.eos_token_id tokenizer] in
  BaseDataset.get_input_output_token_ids _ _ self input output
  = [("input"%string, PyArray (ins ++ outs)); ("output"%string, PyArray outs)]
  /\ Z.of_nat (length outs) <= mo - 1
  /\ Z.of_nat (length (ins ++ outs)) <= mi + mo - 1.
Proof.
  intros Hmi Hmo. cbn zeta.
  unfold BaseDataset.get_input_output_token_ids, BaseDataset.__init__.
  cbn [BaseDataset.tokenizer BaseDataset.max_input_tokens
         BaseDataset.max_output_tokens BaseDataset.use_output].
  rewrite !py_slice_to_nonneg by lia.
  replace (mo - 1 - 1) with (mo - 2) by lia.
  split; [reflexivity|].
  rewrite !length_app, !length_take. cbn [length]. lia.
Qed.

(** X14. With an output limit [mo <= 1] the bound handed to the slice is
    negative and counts from the end: the example's output is the token
    ids of the output text without their last [2 - mo], followed by the
    end-of-sequence id, and is not bounded by [mo]. *)
Theorem token_ids_small_limit_counts_from_end
    (class_args : ClassArgs) (split : DatasetSplit)
    (tokenizer : BaseDataset.Tokenizer) (data_name input_format output_format : string)
    (max_in : option Z) (mo : Z) (input output : string) :
  mo <= 1 ->
  let self :=
    new_dataset class_args split true tokenizer data_name input_format
      output_format max_in (Some mo) in
  let tokens := BaseDataset.input_ids tokenizer output in
  let outs :=
    take (Z.to_nat (Z.of_nat (length tokens) - (2 - mo))) tokens
      ++ [BaseDataset.eos_token_id tokenizer] in
  dict_get (BaseDataset.get_input_output_token_ids _ _ self input output)
    "output"
  = Some (PyArray outs)
  /\ Z.of_nat (length outs)
     = Z.max 0 (Z.of_nat (length tokens) - (2 - mo)) + 1.
Proof.
  intros Hmo. cbn zeta.
  unfold BaseDataset.get_input_output_token_ids, BaseDataset.__init__.
  cbn [BaseDataset.tokenizer BaseDataset.max_input_tokens
         BaseDataset.max_output_tokens BaseDataset.use_output].
  rewrite py_slice_to_negative by lia.
  replace (Z.of_nat (length (BaseDataset.input_ids tokenizer output))
           + (mo - 1 - 1))
    with (Z.of_nat (length (BaseDataset.input_ids tokenizer output)) - (2 - mo))
    by lia.
  split; [reflexivity|].
  rewrite length_app, length_take. cbn [length]. lia.
Qed.

End Formats.

(** The first of two placeholders is replaced. *)
Lemma replace_first_example :
  replace_first "ask: __input__ / __input__" "__input__" "hi"
  = "ask: hi / __input__"%string.
Proof. reflexivity. Qed.

(** The limits 8 and 4 on the texts of a tokenizer that gives one id per
    character. *)
Lemma token_ids_are_trimmed_witness :
  let tok := BaseDataset.mk_tokenizer
               (fun s => map (fun c => Z.of_nat (nat_of_ascii c))
                           (list_ascii_of_string s)) 0 in
  let self :=
    BaseDataset.__init__ "__input__" "__output__" unit unit tt tt true tok
      "demo" "__input__" "__output__" (Some 8) (Some 4) in
  let ins := take (Z.to_nat 8) (BaseDataset.input_ids tok "question") in
  let outs :=
    take (Z.to_nat (4 - 2)) (BaseDataset.input_ids tok "answer")
      ++ [BaseDataset.eos_token_id tok] in
  BaseDataset.get_input_output_token_ids _ _ self "question" "answer"
  = [("input"%string, PyArray (ins ++ outs)); ("output"%string, PyArray outs)]
  /\ Z.of_nat (length outs) <= 4 - 1
  /\ Z.of_nat (length (ins ++ outs)) <= 8 + 4 - 1.
Proof.
  cbn zeta.
  apply (token_ids_are_trimmed "__input__" "__output__" unit unit tt tt
           (BaseDataset.mk_tokenizer
              (fun s => map (fun c => Z.of_nat (nat_of_ascii c))
                          (list_ascii_of_string s)) 0)
           "demo" "__input__" "__output__" 8 4 "question" "answer"); lia.
Defined.

(** The limit 1 on the same tokenizer. *)
Lemma token_ids_small_limit_counts_from_end_witness :
  let tok := BaseDataset.mk_tokenizer
               (fun s => map (fun c => Z.of_nat (nat_of_ascii c))
                           (list_ascii_of_string s)) 0 in
  let self :=
    BaseDataset.__init__ "__input__" "__output__" unit unit tt tt true tok
      "demo" "__input__" "__output__" None (Some 1) in
  let tokens := BaseDataset.input_ids tok "answer" in
  let outs :=
    take (Z.to_nat (Z.of_nat (length tokens) - (2 - 1))) tokens
      ++ [BaseDataset.eos_token_id tok] in
  dict_get (BaseDataset.get_input_output_token_ids _ _ self "question" "answer")
    "output"
  = Some (PyArray outs)
  /\ Z.of_nat (length outs)
     = Z.max 0 (Z.of_nat (length tokens) - (2 - 1)) + 1.
Proof.
  cbn zeta.
  apply (token_ids_small_limit_counts_from_end "__input__" "__output__" unit
           unit tt tt
           (BaseDataset.mk_tokenizer
              (fun s => map (fun c => Z.of_nat (nat_of_ascii c))
                          (list_ascii_of_string s)) 0)
           "demo" "__input__" "__output__" None 1 "question" "answer"). lia.
Defined.

(** * Properties of the padding-free conversion *)

Lemma wrap_small (bits z : Z) :
  0 < bits -> - 2 ^ (bits - 1) <= z < 2 ^ (bits - 1) -> HFUtils.wrap bits z = z.
Proof.
  intros Hb Hz. unfold HFUtils.wrap.
  assert (2 ^ bits = 2 * 2 ^ (bits - 1)) as E.
  { rewrite <- Z.pow_succ_r by lia. f_equal. lia. }
  rewrite Z.mod_small by lia. lia.
Qed.

Lemma flatten_is_concat (x : list (list Z)) (acc : list Z) :
  fold_left (fun y sequence => y ++ sequence) x acc = acc ++ concat x.
Proof.
  revert acc. induction x as [|s x IH]; intros acc; cbn.
  - by rewrite app_nil_r.
  - by rewrite IH, <- app_assoc.
Qed.

(** The running sums of the lengths, as long as they stay below [bound]. *)
Lemma cumsum_from_lengths (seqs : list (list Z)) (acc : Z) :
  0 <= acc ->
  acc + Z.of_nat (length (concat seqs)) < 2 ^ 31 ->
  map (HFUtils.wrap 32)
    (HFUtils.cumsum_from acc (map (fun x => Z.of_nat (length x)) seqs))
  = map (fun k => acc + Z.of_nat (length (concat (take (S k) seqs))))
      (seq 0 (length seqs)).
Proof.
  revert acc. induction seqs as [|x seqs IH]; intros acc Hacc Hsmall; [done|].
  cbn [map HFUtils.cumsum_from concat length seq] in *.
  rewrite length_app in Hsmall.
  assert (HFUtils.wrap 64 (acc + Z.of_nat (length x))
          = acc + Z.of_nat (length x)) as ->.
  { apply wrap_small; [lia|]. change (2 ^ (64 - 1)) with (2 ^ 31 * 2 ^ 32). lia. }
  f_equal.
  - rewrite wrap_small; [|lia|change (2 ^ (32 - 1)) with (2 ^ 31); lia].
    cbn [take concat]. rewrite app_nil_r. done.
  - rewrite IH by lia. rewrite <- seq_shift, map_map.
    apply map_ext. intros k. cbn [take concat]. rewrite length_app. lia.
Qed.

Lemma elem_of_concat {A : Type} (x : A) (ls : list (list A)) :
  x ∈ concat ls -> exists l, x ∈ l /\ l ∈ ls.
Proof.
  intros H. apply list_elem_of_In, in_concat in H as (l & Hl & Hx).
  exists l. split; by apply list_elem_of_In.
Qed.

Lemma torch_tensor_ok (ints : list Z) :
  Forall (fun z => - 2 ^ 63 <= z < 2 ^ 63) ints ->
  exists t, HFUtils.torch_tensor ints = Ok t /\ HFUtils.t_data t = ints.
Proof.
  intros H. destruct ints as [|z ints]; [by eexists|].
  unfold HFUtils.torch_tensor.
  assert (forallb (fun z => (- 2 ^ 63 <=? z) && (z <? 2 ^ 63)) (z :: ints) = true)
    as ->.
  { apply forallb_forall. intros y Hy. apply list_elem_of_In in Hy.
    rewrite Forall_forall in H. specialize (H y Hy).
    apply andb_true_intro. split; [apply Z.leb_le|apply Z.ltb_lt]; lia. }
  by eexists.
Qed.

Lemma concat_lookup_offset {A : Type} (seqs : list (list A)) (k j : nat)
    (x : list A) (v : A) :
  seqs !! k = Some x -> x !! j = Some v ->
  concat seqs !! (length (concat (take k seqs)) + j)%nat = Some v.
Proof.
  revert k. induction seqs as [|y seqs IH]; intros [|k] Hx Hv; try done.
  - cbn in Hx. injection Hx as ->. cbn. by rewrite lookup_app_l
      by (by eapply lookup_lt_Some).
  - cbn [take concat]. rewrite length_app.
    rewrite lookup_app_r by lia.
    replace (length y + length (concat (take k seqs)) + j - length y)%nat
      with (length (concat (take k seqs)) + j)%nat by lia.
    by apply IH.
Qed.

Lemma concat_take_length_map {A B : Type} (f : list A -> list B)
    (seqs : list (list A)) (k : nat) :
  (forall x, length (f x) = length x) ->
  length (concat (take k (map f seqs))) = length (concat (take k seqs)).
Proof.
  intros Hf. revert k. induction seqs as [|y seqs IH]; intros [|k]; try done.
  cbn [map take concat]. by rewrite !length_app, Hf, IH.
Qed.

Lemma concat_length_le_take {A : Type} (seqs : list (list A)) (k : nat) :
  (length (concat (take k seqs)) <= length (concat seqs))%nat.
Proof.
  revert k. induction seqs as [|y seqs IH]; intros [|k]; cbn; try lia.
  rewrite !length_app. specialize (IH k). lia.
Qed.

Lemma fold_left_max_spec (l : list Z) (a : Z) :
  a <= fold_left Z.max l a
  /\ Forall (fun x => x <= fold_left Z.max l a) l
  /\ (fold_left Z.max l a = a \/ fold_left Z.max l a ∈ l).
Proof.
  revert a. induction l as [|x l IH]; intros a; cbn.
  - repeat split; [lia|constructor|by left].
  - destruct (IH (Z.max a x)) as (H1 & H2 & H3).
    split; [lia|]. split.
    + constructor; [lia|done].
    + destruct H3 as [H3|H3].
      * rewrite H3. destruct (Z.max_spec a x) as [[_ ->]|[_ ->]].
        -- right. apply list_elem_of_here.
        -- by left.
      * right. by apply list_elem_of_further.
Qed.

(** X15. For a batch of at least one sequence, fewer than [2^31] tokens in
    all, given without position ids and without labels: the input ids are
    the sequences laid end to end; the cumulative lengths start at 0, have
    one entry per sequence more, and entry [k] is the offset at which
    sequence [k] starts; token [j] of sequence [k] sits at that offset plus
    [j] and is given position [j]; the maximal length is the length of a
    longest sequence. *)
Theorem padding_free_layout (seqs : list (list Z)) :
  seqs <> [] ->
  Forall (Forall (fun z => - 2 ^ 63 <= z < 2 ^ 63)) seqs ->
  Z.of_nat (length (concat seqs)) < 2 ^ 31 ->
  exists ids pos cu mx,
    HFUtils.convert_padding_free_lists_to_tensors (Some seqs) None None
    = Ok (ids, pos, None, cu, mx)
    /\ HFUtils.t_data ids = concat seqs
    /\ HFUtils.t_dtype cu = HFUtils.torch_int32
    /\ length (HFUtils.t_data cu) = S (length seqs)
    /\ (forall k, (k <= length seqs)%nat ->
          HFUtils.t_data cu !! k
          = Some (Z.of_nat (length (concat (take k seqs)))))
    /\ (forall k j x v,
          seqs !! k = Some x -> x !! j = Some v ->
          let offset := length (concat (take k seqs)) in
          HFUtils.t_data ids !! (offset + j)%nat = Some v
          /\ HFUtils.t_data pos !! (offset + j)%nat = Some (Z.of_nat j))
    /\ Forall (fun x => Z.of_nat (length x) <= mx) seqs
    /\ (exists x, x ∈ seqs /\ mx = Z.of_nat (length x)).
Proof.
  intros Hne Hrange Hsmall.
  set (lens := map (fun x : list Z => Z.of_nat (length x)) seqs).
  set (ranges := map (fun x : list Z => py_range (Z.of_nat (length x))) seqs).
  assert (forall x : list Z, length (py_range (Z.of_nat (length x))) = length x)
    as Hrl.
  { intros x. rewrite py_range_length. lia. }
  assert (forall x : list Z, x ∈ seqs ->
            Z.of_nat (length x) <= Z.of_nat (length (concat seqs))) as Hlenle.
  { intros x Hx. apply list_elem_of_lookup in Hx as [k Hk].
    pose proof (take_drop_middle seqs k x Hk) as E.
    rewrite <- E, !concat_app, !length_app. cbn [concat].
    rewrite length_app. lia. }
  destruct (HFUtils.torch_tensor ([0] ++ lens)) as [seqlens|e] eqn:Hseq.
  2:{ exfalso.
      destruct (torch_tensor_ok ([0] ++ lens)) as (t & Ht & _); [|congruence].
      constructor; [by split|].
      apply Forall_forall. intros z Hz.
      apply list_elem_of_fmap in Hz as (x & -> & Hx).
      specialize (Hlenle x Hx).
      change (2 ^ 63) with (2 ^ 31 * 2 ^ 32). lia. }
  assert (seqlens = HFUtils.mk_tensor HFUtils.torch_int64 ([0] ++ lens)) as ->.
  { cbn in Hseq. destruct (_ && _); [|discriminate]. by injection Hseq as <-. }
  destruct (torch_tensor_ok (concat ranges)) as (pos & Hpos & Hposd).
  { apply Forall_forall. intros z Hz.
    apply elem_of_concat in Hz as (r & Hz & Hr).
    apply list_elem_of_fmap in Hr as (x & -> & Hx).
    unfold py_range in Hz. apply list_elem_of_fmap in Hz as (i & -> & Hi).
    apply elem_of_seq in Hi. specialize (Hlenle x Hx).
    change (2 ^ 63) with (2 ^ 31 * 2 ^ 32). lia. }
  destruct (torch_tensor_ok (concat seqs)) as (ids & Hids & Hidsd).
  { apply Forall_forall. intros z Hz.
    apply elem_of_concat in Hz as (r & Hz & Hr).
    rewrite Forall_forall in Hrange. specialize (Hrange r Hr).
    rewrite Forall_forall in Hrange. by apply Hrange. }
  exists ids, pos,
    (HFUtils.to_int32
       (HFUtils.cumsum (HFUtils.mk_tensor HFUtils.torch_int64 ([0] ++ lens)))),
    (HFUtils.max_item (HFUtils.mk_tensor HFUtils.torch_int64 ([0] ++ lens))).
  assert (HFUtils.t_data
            (HFUtils.to_int32
               (HFUtils.cumsum
                  (HFUtils.mk_tensor HFUtils.torch_int64 ([0] ++ lens))))
          = map (fun k => Z.of_nat (length (concat (take k seqs))))
              (seq 0 (S (length seqs)))) as Hcu.
  { cbn [HFUtils.to_int32 HFUtils.cumsum HFUtils.t_data app
           HFUtils.cumsum_from map seq].
    f_equal. fold lens.
    change (HFUtils.wrap 64 (0 + 0)) with 0.
    unfold lens. rewrite cumsum_from_lengths by lia.
    rewrite <- seq_shift, map_map. apply map_ext. intros k. lia. }
  split.
  - unfold HFUtils.convert_padding_free_lists_to_tensors,
      HFUtils._check_list_type, HFUtils._flatten_and_convert_to_tensors.
    destruct seqs as [|s0 seqs']; [done|].
    cbn [py_index length rbind]. fold lens. rewrite Hseq. cbn [rbind].
    fold ranges. rewrite !flatten_is_concat. cbn [app].
    rewrite Hpos. cbn [rbind]. rewrite Hids. reflexivity.
  - split; [exact Hidsd|]. split; [reflexivity|].
    split; [by rewrite Hcu, length_map, length_seq|].
    split.
    { intros k Hk. rewrite Hcu, list_lookup_fmap, lookup_seq_lt by lia.
      reflexivity. }
    split.
    { intros k j x v Hx Hv. cbn zeta. rewrite Hidsd, Hposd. split.
      - by eapply concat_lookup_offset.
      - rewrite <- (concat_take_length_map
                      (fun x : list Z => py_range (Z.of_nat (length x)))
                      seqs k Hrl).
        apply (concat_lookup_offset ranges k j
                 (py_range (Z.of_nat (length x)))).
        + unfold ranges. by rewrite list_lookup_fmap, Hx.
        + apply py_range_lookup. apply lookup_lt_Some in Hv. lia. }
    cbn [HFUtils.max_item HFUtils.t_data app].
    destruct (fold_left_max_spec lens 0) as (H0 & Hall & Hin).
    split.
    { apply Forall_forall. intros x Hx.
      rewrite Forall_forall in Hall. apply Hall.
      apply list_elem_of_fmap. by exists x. }
    destruct Hin as [Hzero|Hin].
    + destruct seqs as [|s0 seqs']; [done|].
      exists s0. split; [apply list_elem_of_here|].
      rewrite Hzero.
      rewrite Forall_forall in Hall.
      specialize (Hall (Z.of_nat (length s0))
                    ltac:(apply list_elem_of_here)).
      rewrite Hzero in Hall. lia.
    + apply list_elem_of_fmap in Hin as (x & Hx & Hin).
      by exists x.
Qed.

(** X16. An empty list given as input ids, position ids or labels makes the
    conversion fail with [IndexError], raised by the type check when it
    reads the first element; and with lists that pass the check but no
    input ids the conversion fails with [TypeError]. *)
Theorem padding_free_rejects_empty_and_missing
    (input_ids position_ids labels : option (list (list Z))) :
  (input_ids = Some [] \/ position_ids = Some [] \/ labels = Some [] ->
   HFUtils.convert_padding_free_lists_to_tensors input_ids position_ids labels
   = Err IndexError)
  /\ (input_ids = None -> position_ids <> Some [] -> labels <> Some [] ->
      HFUtils.convert_padding_free_lists_to_tensors input_ids position_ids labels
      = Err HFUtils.TypeError).
Proof.
  assert (forall l : option (list (list Z)),
            HFUtils._check_list_type l
            = if decide (l = Some []) then Err IndexError else Ok tt) as Hcheck.
  { intros [[|x l]|]; reflexivity. }
  unfold HFUtils.convert_padding_free_lists_to_tensors.
  rewrite !Hcheck. split.
  - intros H.
    destruct (decide (input_ids = Some [])); [done|]. cbn [rbind].
    destruct (decide (position_ids = Some [])); [done|]. cbn [rbind].
    destruct (decide (labels = Some [])); [done|].
    by destruct H as [|[|]].
  - intros -> Hp Hl.
    destruct (decide (None = Some [])); [done|]. cbn [rbind].
    destruct (decide (position_ids = Some [])); [done|]. cbn [rbind].
    destruct (decide (labels = Some [])); [done|]. reflexivity.
Qed.

(** A batch of two sequences. *)
Lemma padding_free_layout_witness :
  exists ids pos cu mx,
    HFUtils.convert_padding_free_lists_to_tensors
      (Some [[11; 12; 13]; [21; 22]]) None None
    = Ok (ids, pos, None, cu, mx)
    /\ HFUtils.t_data ids = concat [[11; 12; 13]; [21; 22]]
    /\ HFUtils.t_dtype cu = HFUtils.torch_int32
    /\ length (HFUtils.t_data cu) = S (length [[11; 12; 13]; [21; 22]])
    /\ (forall k, (k <= length [[11; 12; 13]; [21; 22]])%nat ->
          HFUtils.t_data cu !! k
          = Some (Z.of_nat (length (concat (take k [[11; 12; 13]; [21; 22]])))))
    /\ (forall k j x v,
          [[11; 12; 13]; [21; 22]] !! k = Some x -> x !! j = Some v ->
          let offset := length (concat (take k [[11; 12; 13]; [21; 22]])) in
          HFUtils.t_data ids !! (offset + j)%nat = Some v
          /\ HFUtils.t_data pos !! (offset + j)%nat = Some (Z.of_nat j))
    /\ Forall (fun x => Z.of_nat (length x) <= mx) [[11; 12; 13]; [21; 22]]
    /\ (exists x, x ∈ [[11; 12; 13]; [21; 22]] /\ mx = Z.of_nat (length x)).
Proof.
  apply (padding_free_layout [[11; 12; 13]; [21; 22]]).
  - discriminate.
  - repeat constructor; discriminate.
  - reflexivity.
Defined.

(** * Properties of [disable_generation_cache] *)

(** X17. Within a [with disable_generation_cache():] block the generation
    cache reads as disabled; and when the body leaves the manager's saved
    value alone, the block ends with the flag it started with, whatever the
    body did to the flag and whether or not it raised, and passes the
    body's outcome on. *)
Theorem generation_cache_restored
    (body : HFUtils.cache_state -> result unit * HFUtils.cache_state)
    (st : HFUtils.cache_state) :
  HFUtils.manager (snd (body (HFUtils.__enter__ st)))
  = HFUtils.manager (HFUtils.__enter__ st) ->
  HFUtils.is_generation_cache_enabled (HFUtils.__enter__ st) = false
  /\ fst (HFUtils.with_block body st) = fst (body (HFUtils.__enter__ st))
  /\ HFUtils.is_generation_cache_enabled (snd (HFUtils.with_block body st))
     = HFUtils.is_generation_cache_enabled st.
Proof.
  intros Hkeep. split; [reflexivity|].
  unfold HFUtils.with_block.
  destruct (body (HFUtils.__enter__ st)) as [outcome st'] eqn:Hbody.
  cbn [fst snd] in *. unfold HFUtils.__exit__. rewrite Hkeep.
  cbn. done.
Qed.

(** X18. Entering the same manager again inside its own block overwrites
    the saved value: after the two blocks end the generation cache is
    disabled, whatever it was before. *)
Theorem generation_cache_reentry_loses_flag
    (body : HFUtils.cache_state -> result unit * HFUtils.cache_state)
    (st : HFUtils.cache_state) :
  (forall s, HFUtils.manager (snd (body s)) = HFUtils.manager s) ->
  HFUtils.is_generation_cache_enabled
    (snd (HFUtils.with_block (HFUtils.with_block body) st))
  = false.
Proof.
  intros Hkeep.
  unfold HFUtils.with_block at 1.
  destruct (HFUtils.with_block body (HFUtils.__enter__ st))
    as [outcome st'] eqn:Hinner.
  unfold HFUtils.with_block in Hinner.
  destruct (body (HFUtils.__enter__ (HFUtils.__enter__ st)))
    as [o1 s1] eqn:Hbody.
  pose proof (Hkeep (HFUtils.__enter__ (HFUtils.__enter__ st))) as Hm.
  rewrite Hbody in Hm. cbn [snd] in Hm.
  unfold HFUtils.__exit__ in Hinner. rewrite Hm in Hinner. cbn in Hinner.
  injection Hinner as _ <-. reflexivity.
Qed.

(** A body that enables the cache and raises, started with the cache
    enabled. *)
Lemma generation_cache_restored_witness :
  let body := fun s : HFUtils.cache_state =>
                (Err RuntimeError : result unit,
                 HFUtils.mk_cache_state (HFUtils.manager s) true) in
  let st := HFUtils.mk_cache_state (HFUtils.mk_manager None) true in
  HFUtils.is_generation_cache_enabled (HFUtils.__enter__ st) = false
  /\ fst (HFUtils.with_block body st) = fst (body (HFUtils.__enter__ st))
  /\ HFUtils.is_generation_cache_enabled (snd (HFUtils.with_block body st))
     = HFUtils.is_generation_cache_enabled st.
Proof.
  cbn zeta.
  apply (generation_cache_restored
           (fun s : HFUtils.cache_state =>
              (Err RuntimeError : result unit,
               HFUtils.mk_cache_state (HFUtils.manager s) true))
           (HFUtils.mk_cache_state (HFUtils.mk_manager None) true)).
  reflexivity.
Defined.

(** A body that does nothing, started with the cache enabled. *)
Lemma generation_cache_reentry_loses_flag_witness :
  HFUtils.is_generation_cache_enabled
    (snd (HFUtils.with_block
            (HFUtils.with_block (fun s => (Ok tt, s)))
            (HFUtils.mk_cache_state (HFUtils.mk_manager None) true)))
  = false.
Proof.
  apply (generation_cache_reentry_loses_flag (fun s => (Ok tt, s))
           (HFUtils.mk_cache_state (HFUtils.mk_manager None) true)).
  reflexivity.
Defined.

(** * Properties of [get_groups_by_sizes] *)

Lemma group_size_snoc (sizes : gmap string Z) (g : list string) (f : string) :
  MergeTool.group_size sizes (g ++ [f])
  = MergeTool.group_size sizes g + default 0 (sizes !! (f +:+ ".bin")).
Proof.
  unfold MergeTool.group_size. induction g as [|x g IH]; cbn; [lia|].
  cbn in IH. rewrite IH. lia.
Qed.

(** What the loop adds to the groups it was handed. *)
Lemma group_loop_spec (sizes : gmap string Z) (max_size last_index : Z)
    (fnames : list string) :
  0 <= max_size ->
  forall (index : Z) (groups : list (list string)) (cur : list string)
         (cur_size : Z) (out : list (list string)),
    MergeTool.group_loop sizes max_size last_index index fnames groups cur cur_size
    = Ok out ->
    index + Z.of_nat (length fnames) = last_index + 1 ->
    (fnames = [] -> cur = []) ->
    cur_size = MergeTool.group_size sizes cur ->
    cur_size <= max_size ->
    exists new,
      out = groups ++ new
      /\ concat new = cur ++ fnames
      /\ Forall (fun g => g <> []) new
      /\ (forall i g, new !! i = Some g -> (S i < length new)%nat ->
            max_size < MergeTool.group_size sizes g)
      /\ Forall (fun g => MergeTool.group_size sizes (removelast g) <= max_size)
           new.
Proof.
  intros Hmax. induction fnames as [|fname rest IH];
    intros index groups cur cur_size out Hrun Hidx Hcur Hsize Hle.
  - cbn in Hrun. injection Hrun as <-. rewrite (Hcur eq_refl).
    exists []. rewrite app_nil_r.
    repeat split; try done; intros i g H; by destruct i.
  - cbn [MergeTool.group_loop] in Hrun.
    unfold MergeTool.os_path_getsize in Hrun.
    destruct (sizes !! (fname +:+ ".bin")) as [sz|] eqn:Hsz; [|discriminate].
    cbn [rbind] in Hrun. cbn [length] in Hidx.
    assert (MergeTool.group_size sizes (cur ++ [fname]) = cur_size + sz) as Hnew.
    { rewrite group_size_snoc, Hsz, Hsize. done. }
    destruct ((max_size <? cur_size + sz) || (index =? last_index)) eqn:Hflush.
    + destruct (IH (index + 1) (groups ++ [cur ++ [fname]]) [] 0 out Hrun)
        as (new & -> & Hcat & Hne & Hbig & Hmin); [lia|done|done|lia|].
      exists ((cur ++ [fname]) :: new).
      split; [by rewrite <- app_assoc|].
      split; [cbn [concat]; rewrite Hcat; by rewrite <- app_assoc|].
      split; [constructor; [by destruct cur|done]|].
      split.
      * intros [|i] g Hg Hi.
        -- cbn in Hg. injection Hg as <-. rewrite Hnew.
           apply orb_prop in Hflush as [H|H]; [by apply Z.ltb_lt|].
           apply Z.eqb_eq in H. exfalso.
           destruct new as [|g' new']; [cbn in Hi; lia|].
           apply Forall_cons in Hne as [Hg' _].
           destruct rest; [|cbn in Hidx; lia].
           cbn in Hcat. destruct g'; [done|discriminate].
        -- cbn in Hg, Hi. apply (Hbig i g Hg). lia.
      * constructor; [|done]. rewrite removelast_last. lia.
    + apply orb_false_elim in Hflush as [Hsmall Hnotlast].
      apply Z.ltb_ge in Hsmall. apply Z.eqb_neq in Hnotlast.
      destruct (IH (index + 1) groups (cur ++ [fname]) (cur_size + sz) out Hrun)
        as (new & -> & Hcat & Hne & Hbig & Hmin); [lia| |done|done|].
      { intros ->. cbn in Hidx. lia. }
      exists new. split; [done|].
      split; [rewrite Hcat; by rewrite <- app_assoc|].
      done.
Qed.

(** X19. With a size limit of [m >= 0] gigabytes, the groups returned keep
    every name once and in the order of the listing; no group is empty;
    every group but the last holds more than the limit; and no group holds
    more than the limit before its last file is added. *)
Theorem groups_partition_by_size
    (listing : list string) (sizes : gmap string Z) (path : string) (m : Z)
    (groups : list (list string)) :
  0 <= m ->
  MergeTool.get_groups_by_sizes listing sizes path (Some m) = Ok groups ->
  concat groups = MergeTool.bin_prefixes listing path
  /\ Forall (fun g => g <> []) groups
  /\ (forall i g, groups !! i = Some g -> (S i < length groups)%nat ->
        m * 1024 ^ 3 < MergeTool.group_size sizes g)
  /\ Forall (fun g =>
               MergeTool.group_size sizes (removelast g) <= m * 1024 ^ 3)
       groups.
Proof.
  intros Hm Hrun. unfold MergeTool.get_groups_by_sizes in Hrun.
  assert (0 <= m * 1024 ^ 3) as Hmax by lia.
  destruct (group_loop_spec _ _ _ _ Hmax _ _ _ _ _ Hrun)
    as (new & -> & Hcat & Hne & Hbig & Hmin); try done; try lia.
Qed.

(** X20. Without a size limit all names form a single group, even when
    there is none; with a limit and no name ending in [.bin] there is no
    group; and when the [.bin] file of a name is missing the grouping fails
    with [FileNotFoundError]. *)
Theorem groups_edge_cases
    (listing : list string) (sizes : gmap string Z) (path : string) (m : Z) :
  MergeTool.get_groups_by_sizes listing sizes path None
  = Ok [MergeTool.bin_prefixes listing path]
  /\ (MergeTool.bin_prefixes listing path = [] ->
      MergeTool.get_groups_by_sizes listing sizes path (Some m) = Ok [])
  /\ ((exists fname, fname ∈ MergeTool.bin_prefixes listing path
                     /\ sizes !! (fname +:+ ".bin") = None) ->
      MergeTool.get_groups_by_sizes listing sizes path (Some m)
      = Err FileNotFoundError).
Proof.
  split; [reflexivity|]. split.
  - intros H. unfold MergeTool.get_groups_by_sizes. by rewrite H.
  - intros (fname & Hin & Hmissing).
    unfold MergeTool.get_groups_by_sizes.
    generalize (Z.of_nat (length (MergeTool.bin_prefixes listing path)) - 1).
    generalize 0 at 1. generalize (@nil (list string)).
    generalize (@nil string). generalize 0.
    induction (MergeTool.bin_prefixes listing path) as [|f fs IH];
      intros cs cur gs idx lastidx.
    + by apply elem_of_nil in Hin.
    + cbn [MergeTool.group_loop]. unfold MergeTool.os_path_getsize.
      apply elem_of_cons in Hin as [<-|Hin].
      * by rewrite Hmissing.
      * destruct (sizes !! (f +:+ ".bin")); [|done]. cbn [rbind].
        destruct (_ || _); by apply IH.
Qed.

(** The grouping of three [.bin] files of a directory under a limit of one
    gigabyte. *)
Lemma groups_partition_by_size_witness :
  let listing := ["a.bin"; "b.bin"; "notes.txt"; "c.bin"]%string in
  let sizes : gmap string Z :=
    {[ "d/a.bin"%string := 1073741824; "d/b.bin"%string := 1;
       "d/c.bin"%string := 5 ]} in
  let groups := [["d/a"; "d/b"]; ["d/c"]]%string in
  concat groups = MergeTool.bin_prefixes listing "d"
  /\ Forall (fun g => g <> []) groups
  /\ (forall i g, groups !! i = Some g -> (S i < length groups)%nat ->
        1 * 1024 ^ 3 < MergeTool.group_size sizes g)
  /\ Forall (fun g =>
               MergeTool.group_size sizes (removelast g) <= 1 * 1024 ^ 3)
       groups.
Proof.
  cbn zeta.
  apply (groups_partition_by_size
           ["a.bin"; "b.bin"; "notes.txt"; "c.bin"]%string
           {[ "d/a.bin"%string := 1073741824; "d/b.bin"%string := 1;
              "d/c.bin"%string := 5 ]}
           "d" 1 [["d/a"; "d/b"]; ["d/c"]]%string).
  - lia.
  - vm_compute. reflexivity.
Defined.

(** * Properties of the document encoder *)

Lemma encode_keys_spec (self : Encoder.Encoder) (data : list (string * string))
    (keys : list string) :
  forall (ids out : sample),
    Encoder.encode_keys self data keys ids = Ok out ->
    Forall (fun key => is_ok (Encoder.data_getitem data key) = true) keys
    /\ forall key,
         dict_get out key
         = match Encoder.data_getitem data key with
           | Ok text =>
               if bool_decide (key ∈ keys)
                  && (0 <? Z.of_nat (length (Encoder.encode (Encoder.tokenizer self) text)))
               then Some (PyArray
                            (Encoder.encode (Encoder.tokenizer self) text
                               ++ (if Encoder.append_eod self
                                   then [Encoder.eos_token_id (Encoder.tokenizer self)]
                                   else [])))
               else dict_get ids key
           | Err _ => dict_get ids key
           end.
Proof.
  induction keys as [|k keys IH]; intros ids out Hrun.
  - cbn in Hrun. injection Hrun as <-. split; [constructor|].
    intros key. destruct (Encoder.data_getitem data key); [|done].
    rewrite bool_decide_eq_false_2 by apply not_elem_of_nil. done.
  - cbn [Encoder.encode_keys] in Hrun.
    destruct (Encoder.data_getitem data k) as [text|e] eqn:Hk; [|discriminate].
    cbn [rbind] in Hrun.
    set (toks := Encoder.encode (Encoder.tokenizer self) text) in *.
    destruct (0 <? Z.of_nat (length toks)) eqn:Hlen.
    + destruct (IH _ _ Hrun) as [Hall Hget].
      split; [constructor; [by rewrite Hk|done]|].
      intros key. rewrite Hget.
      destruct (Encoder.data_getitem data key) as [text'|] eqn:Hkey.
      * destruct (decide (key = k)) as [->|Hne].
        -- rewrite Hk in Hkey. injection Hkey as <-. fold toks.
           rewrite (bool_decide_eq_true_2 (k ∈ k :: keys))
             by apply list_elem_of_here.
           rewrite Hlen. cbn [andb].
           destruct (bool_decide (k ∈ keys)); cbn [andb].
           ++ by destruct (Encoder.append_eod self); rewrite ?app_nil_r.
           ++ rewrite dict_get_set, String.eqb_refl.
              by destruct (Encoder.append_eod self); rewrite ?app_nil_r.
        -- rewrite dict_get_set.
           rewrite (proj2 (String.eqb_neq key k) Hne).
           assert (bool_decide (key ∈ k :: keys) = bool_decide (key ∈ keys))
             as ->; [|done].
           apply bool_decide_ext. rewrite elem_of_cons.
           split; [by intros [?|?]|by right].
      * destruct (decide (key = k)) as [->|Hne]; [congruence|].
        rewrite dict_get_set. by rewrite (proj2 (String.eqb_neq key k) Hne).
    + destruct (IH _ _ Hrun) as [Hall Hget].
      split; [constructor; [by rewrite Hk|done]|].
      intros key. rewrite Hget.
      destruct (Encoder.data_getitem data key) as [text'|] eqn:Hkey; [|done].
      destruct (decide (key = k)) as [->|Hne].
      * rewrite Hk in Hkey. injection Hkey as <-. fold toks.
        rewrite Hlen, !andb_false_r. done.
      * assert (bool_decide (key ∈ k :: keys) = bool_decide (key ∈ keys))
          as ->; [|done].
        apply bool_decide_ext. rewrite elem_of_cons.
        split; [by intros [?|?]|by right].
Qed.

(** X21. When a document is encoded, every key of the encoder is present in
    the document; the result holds exactly the keys of the encoder whose
    text encodes to at least one id, each with the ids of its text,
    followed by the end-of-sequence id when [append_eod] is set; keys whose
    text encodes to nothing are left out. *)
Theorem encode_data_keeps_nonempty_documents
    (self : Encoder.Encoder) (data : list (string * string)) (out : sample) :
  Encoder._encode_data self data = Ok out ->
  Forall (fun key => is_ok (Encoder.data_getitem data key) = true)
    (Encoder.json_keys self)
  /\ forall key,
       dict_get out key
       = match Encoder.data_getitem data key with
         | Ok text =>
             if bool_decide (key ∈ Encoder.json_keys self)
                && (0 <? Z.of_nat (length (Encoder.encode (Encoder.tokenizer self) text)))
             then Some (PyArray
                          (Encoder.encode (Encoder.tokenizer self) text
                             ++ (if Encoder.append_eod self
                                 then [Encoder.eos_token_id (Encoder.tokenizer self)]
                                 else [])))
             else None
         | Err _ => None
         end.
Proof.
  intros Hrun. unfold Encoder._encode_data in Hrun.
  destruct (encode_keys_spec self data _ _ _ Hrun) as [Hall Hget].
  split; [exact Hall|]. intros key. rewrite Hget.
  by destruct (Encoder.data_getitem data key).
Qed.

(** X22. A key of the encoder that the document lacks makes the encoding
    fail with [KeyError]. *)
Theorem encode_data_missing_key
    (self : Encoder.Encoder) (data : list (string * string)) (key : string) :
  key ∈ Encoder.json_keys self ->
  Encoder.data_getitem data key = Err Encoder.KeyError ->
  Encoder._encode_data self data = Err Encoder.KeyError.
Proof.
  intros Hin Hmissing.
  assert (forall k e, Encoder.data_getitem data k = Err e ->
                      e = Encoder.KeyError) as Herr.
  { clear. intros k e. induction data as [|[k' t] data IH]; cbn.
    - by intros [= <-].
    - destruct (String.eqb k k'); [done|exact IH]. }
  unfold Encoder._encode_data. generalize (@nil (string * pyvalue)).
  induction (Encoder.json_keys self) as [|k keys IH]; intros ids.
  - by apply elem_of_nil in Hin.
  - cbn [Encoder.encode_keys].
    destruct (Encoder.data_getitem data k) as [text|e] eqn:Hk.
    + cbn [rbind]. apply elem_of_cons in Hin as [->|Hin]; [congruence|].
      destruct (0 <? _); by apply IH.
    + cbn [rbind]. f_equal. by eapply Herr.
Qed.

(** A document with a text and an empty title, encoded one id per
    character. *)
Lemma encode_data_keeps_nonempty_documents_witness :
  let self :=
    Encoder.mk_encoder
      (Encoder.mk_tokenizer
         (fun s => map (fun c => Z.of_nat (nat_of_ascii c))
                     (list_ascii_of_string s)) 0)
      ["text"; "title"]%string true in
  let data := [("title", ""); ("text", "ab")]%string in
  let out := [("text"%string, PyArray [97; 98; 0])] in
  Forall (fun key => is_ok (Encoder.data_getitem data key) = true)
    (Encoder.json_keys self)
  /\ forall key,
       dict_get out key
       = match Encoder.data_getitem data key with
         | Ok text =>
             if bool_decide (key ∈ Encoder.json_keys self)
                && (0 <? Z.of_nat (length (Encoder.encode (Encoder.tokenizer self) text)))
             then Some (PyArray
                          (Encoder.encode (Encoder.tokenizer self) text
                             ++ (if Encoder.append_eod self
                                 then [Encoder.eos_token_id (Encoder.tokenizer self)]
                                 else [])))
             else None
         | Err _ => None
         end.
Proof.
  cbn zeta.
  apply (encode_data_keeps_nonempty_documents
           (Encoder.mk_encoder
              (Encoder.mk_tokenizer
                 (fun s => map (fun c => Z.of_nat (nat_of_ascii c))
                             (list_ascii_of_string s)) 0)
              ["text"; "title"]%string true)
           [("title", ""); ("text", "ab")]%string
           [("text"%string, PyArray [97; 98; 0])]).
  vm_compute. reflexivity.
Defined.

(** A document without the key [text]. *)
Lemma encode_data_missing_key_witness :
  Encoder._encode_data
    (Encoder.mk_encoder
       (Encoder.mk_tokenizer
          (fun s => map (fun c => Z.of_nat (nat_of_ascii c))
                      (list_ascii_of_string s)) 0)
       ["text"]%string true)
    [("title", "x")]%string
  = Err Encoder.KeyError.
Proof.
  apply (encode_data_missing_key
           (Encoder.mk_encoder
              (Encoder.mk_tokenizer
                 (fun s => map (fun c => Z.of_nat (nat_of_ascii c))
                             (list_ascii_of_string s)) 0)
              ["text"]%string true)
           [("title", "x")]%string "text").
  - apply list_elem_of_here.
  - reflexivity.
Defined.
